(** * A shallow embedding of [normalize.py]

    The script reads CSV rows, normalises eight positional fields and
    prints one line per accepted row; rows whose fields raise a
    [ValueError] are dropped with a warning on the error channel.

    Python values are modelled as follows.
    - A [str] is the list of its Unicode code points ([pystr]).
    - An [int] is a [Z].
    - A [float] is an IEEE-754 binary64 value ([float], below), with the
      roundings of the interpreter written out over [Z].
    - A raised exception is the [Raise] branch of [result].
    - The two output channels are lists of printed lines ([io]).

    The interpreter's own library ([int], [float], [str], [strptime],
    [datetime] arithmetic) is modelled next to the functions of the script;
    the parts of it that are tables of the Unicode database, or that no
    property below depends on, are fields of [Runtime]. *)

From Stdlib Require Import String Ascii.
From Stdlib Require Import ZArith List Bool Lia.
Import ListNotations.
Local Open Scope Z_scope.

Set Implicit Arguments.

(** ** Strings *)

Definition pystr := list Z.

(** The code points of an ASCII literal. *)
Definition ustr (s : string) : pystr :=
  map (fun a => Z.of_N (N_of_ascii a)) (list_ascii_of_string s).

Definition dquote : Z := 34.

Fixpoint str_eqb (a b : pystr) : bool :=
  match a, b with
  | [], [] => true
  | x :: a', y :: b' => (x =? y) && str_eqb a' b'
  | _, _ => false
  end.

Definition len (s : pystr) : Z := Z.of_nat (List.length s).

(** [c in s] for a one-character [c]. *)
Definition contains (c : Z) (s : pystr) : bool := existsb (Z.eqb c) s.

(** [sep.join(parts)]. *)
Fixpoint join (sep : pystr) (parts : list pystr) : pystr :=
  match parts with
  | [] => []
  | [p] => p
  | p :: rest => p ++ sep ++ join sep rest
  end.

(** [s.split(sep)] for a one-character separator: the pieces between the
    occurrences of [sep], always at least one piece. *)
Fixpoint split_on (sep : Z) (s : pystr) : list pystr :=
  match s with
  | [] => [[]]
  | c :: s' =>
      if c =? sep then [] :: split_on sep s'
      else match split_on sep s' with
           | [] => [[c]]
           | p :: ps => (c :: p) :: ps
           end
  end.

(** [s * n]: the empty string when [n] is not positive. *)
Definition str_mul (s : pystr) (n : Z) : pystr :=
  concat (repeat s (Z.to_nat n)).

(** ASCII case mapping, as [Py_TOLOWER]. *)
Definition ascii_lower (c : Z) : Z :=
  if (65 <=? c) && (c <=? 90) then c + 32 else c.

(** ** Exceptions *)

Inductive exn : Type :=
| ValueError (msg : pystr)
| IndexError (msg : pystr)
| OverflowError (msg : pystr)
| StopIteration.

Inductive result (A : Type) : Type :=
| Ok (a : A)
| Raise (e : exn).

Arguments Ok {A} a.
Arguments Raise {A} e.

Definition bind {A B} (r : result A) (k : A -> result B) : result B :=
  match r with
  | Ok a => k a
  | Raise e => Raise e
  end.

Notation "x <- c ;; k" := (bind c (fun x => k))
  (at level 61, c at next level, right associativity).
Notation "' pat <- c ;; k" := (bind c (fun x => match x with pat => k end))
  (at level 61, pat pattern, c at next level, right associativity).

Definition is_ok {A} (r : result A) : bool :=
  match r with Ok _ => true | Raise _ => false end.

Definition is_value_error {A} (r : result A) : bool :=
  match r with Raise (ValueError _) => true | _ => false end.

(** ** The interpreter's tables

    [rt_nd_zeros] lists the code points above ASCII that are the digit zero
    of a block of ten Unicode decimal digits (category Nd: every script has
    its ten digits in a row); [rt_upper] is
    [str.upper]; [rt_repr] is [repr] on strings; [rt_int_max_str_digits] is
    [sys.get_int_max_str_digits()], [0] when the interpreter has no limit. *)

Record Runtime : Type := {
  rt_nd_zeros : list Z;
  rt_upper : pystr -> pystr;
  rt_repr : pystr -> pystr;
  rt_int_max_str_digits : Z
}.

(** An interpreter that knows ASCII only; used to run the model on ASCII
    inputs, where no table is consulted. *)
Definition ascii_upper (c : Z) : Z :=
  if (97 <=? c) && (c <=? 122) then c - 32 else c.

Definition ascii_runtime : Runtime := {|
  rt_nd_zeros := [];
  rt_upper := map ascii_upper;
  rt_repr := fun s => 39 :: s ++ [39];
  rt_int_max_str_digits := 4300
|}.

(** [Py_UNICODE_ISSPACE]. *)
Definition unicode_isspace (c : Z) : bool :=
  ((9 <=? c) && (c <=? 13)) || ((28 <=? c) && (c <=? 32))
  || (c =? 133) || (c =? 160) || (c =? 5760)
  || ((8192 <=? c) && (c <=? 8202))
  || (c =? 8232) || (c =? 8233) || (c =? 8239) || (c =? 8287)
  || (c =? 12288).

(** [Py_ISSPACE]: the six ASCII blanks. *)
Definition py_isspace (c : Z) : bool :=
  ((9 <=? c) && (c <=? 13)) || (c =? 32).

Definition is_ascii_digit (c : Z) : bool := (48 <=? c) && (c <=? 57).

Section WithRuntime.

Variable rt : Runtime.

(** [Py_UNICODE_TODECIMAL]: the value of a decimal digit; no blank is a
    digit. *)
Definition unicode_decimal (c : Z) : option Z :=
  if c <? 128 then
    if is_ascii_digit c then Some (c - 48) else None
  else if unicode_isspace c then None
  else
    match find (fun z => (z <=? c) && (c <? z + 10)) (rt_nd_zeros rt) with
    | Some z => Some (c - z)
    | None => None
    end.

Definition unicode_isdecimal (c : Z) : bool :=
  match unicode_decimal c with Some _ => true | None => false end.

(** [_PyUnicode_TransformDecimalAndSpaceToASCII]: decimal digits become
    ASCII digits and blanks become spaces; the first other character above
    ASCII becomes a question mark and ends the string. *)
Fixpoint transform_chars (s : pystr) : pystr :=
  match s with
  | [] => []
  | c :: s' =>
      if c <? 127 then c :: transform_chars s'
      else if unicode_isspace c then 32 :: transform_chars s'
      else match unicode_decimal c with
           | Some d => (48 + d) :: transform_chars s'
           | None => [63]
           end
  end.

Definition transform_decimal_and_space (s : pystr) : pystr :=
  if forallb (fun c => c <? 128) s then s else transform_chars s.


(** ** Decimal rendering of integers: [str(n)] and the [%0wd] conversion *)

Fixpoint dec_rev (fuel : nat) (n : Z) : pystr :=
  match fuel with
  | O => []
  | S f => if n <? 10 then [48 + n] else (48 + n mod 10) :: dec_rev f (n / 10)
  end.

Definition str_of_nonneg (n : Z) : pystr :=
  rev (dec_rev (S (Z.to_nat (Z.log2 n))) n).

Definition str_of_int (n : Z) : pystr :=
  if n <? 0 then 45 :: str_of_nonneg (- n) else str_of_nonneg n.

(** ["%0wd" % n]: the sign first, then zeros up to the width [w]. *)
Definition fmt_0d (w : Z) (n : Z) : pystr :=
  if n <? 0 then
    let d := str_of_nonneg (- n) in 45 :: str_mul [48] (w - 1 - len d) ++ d
  else
    let d := str_of_nonneg n in str_mul [48] (w - len d) ++ d.

(** ** [int(s)] for a string argument *)

Fixpoint lstrip (p : Z -> bool) (s : pystr) : pystr :=
  match s with
  | c :: s' => if p c then lstrip p s' else s
  | [] => []
  end.

(** The digit scan of [PyLong_FromString]: digits, single underscores
    between them; gives the value, the number of digits and what follows. *)
Fixpoint scan_digits (s : pystr) (prev_us : bool) (acc nd : Z)
  : option (Z * Z * pystr) :=
  match s with
  | c :: s' =>
      if is_ascii_digit c then scan_digits s' false (acc * 10 + (c - 48)) (nd + 1)
      else if c =? 95 then
        if prev_us then None else scan_digits s' true acc nd
      else if prev_us then None else Some (acc, nd, s)
  | [] => if prev_us then None else Some (acc, nd, [])
  end.

Definition int_invalid_literal (s : pystr) : exn :=
  ValueError (ustr "invalid literal for int() with base 10: "
              ++ firstn 200 (rt_repr rt s)).

Definition int_limit_exceeded (nd : Z) : exn :=
  ValueError (ustr "Exceeds the limit (" ++ str_of_int (rt_int_max_str_digits rt)
              ++ ustr " digits) for integer string conversion: value has "
              ++ str_of_int nd
              ++ ustr " digits; use sys.set_int_max_str_digits() to increase the limit").

Definition py_int (s : pystr) : result Z :=
  let b := lstrip py_isspace (transform_decimal_and_space s) in
  let '(neg, b) := match b with
                   | 43 :: r => (false, r)
                   | 45 :: r => (true, r)
                   | _ => (false, b)
                   end in
  match b with
  | 95 :: _ => Raise (int_invalid_literal s)
  | _ =>
      match scan_digits b false 0 0 with
      | None => Raise (int_invalid_literal s)
      | Some (v, nd, rest) =>
          if nd =? 0 then Raise (int_invalid_literal s)
          else if (640 <? nd) && (0 <? rt_int_max_str_digits rt)
                  && (rt_int_max_str_digits rt <? nd)
          then Raise (int_limit_exceeded nd)
          else match lstrip py_isspace rest with
               | [] => Ok (if neg then - v else v)
               | _ => Raise (int_invalid_literal s)
               end
      end
  end.

(** ** Floating point: IEEE-754 binary64

    A finite value is [(-1)^neg * m * 2^e] with [0 <= m < 2^53] and
    [-1074 <= e <= 971]; a value below [2^52 * 2^-1074] has [e = -1074]. *)

Inductive pyfloat : Type :=
| Fnan
| Finf (neg : bool)
| Ffin (neg : bool) (m e : Z).

Definition float_eqb (x y : pyfloat) : bool :=
  match x, y with
  | Finf a, Finf b => Bool.eqb a b
  | Ffin a m e, Ffin b m' e' => Bool.eqb a b && (m =? m') && (e =? e')
  | _, _ => false
  end.

(** The positive rational [n / d] rounded to nearest, ties to even: the
    significand and the exponent, the exponent above [971] on overflow. *)
Definition round_pos (n d : Z) : Z * Z :=
  let k := Z.log2 n - Z.log2 d in
  let fl := if d * 2 ^ Z.max k 0 <=? n * 2 ^ Z.max (- k) 0 then k else k - 1 in
  let e := Z.max (fl - 52) (-1074) in
  let num := n * 2 ^ Z.max (- e) 0 in
  let den := d * 2 ^ Z.max e 0 in
  let q := num / den in
  let r := num mod den in
  let q' := if (den <? 2 * r) || ((2 * r =? den) && Z.odd q) then q + 1 else q in
  if q' =? 2 ^ 53 then (2 ^ 52, e + 1) else (q', e).

Definition float_zero (neg : bool) : pyfloat := Ffin neg 0 (-1074).

(** [(-1)^neg * n / d] as a float, infinite on overflow. *)
Definition float_of_ratio (neg : bool) (n d : Z) : pyfloat :=
  if n =? 0 then float_zero neg
  else let '(m, e) := round_pos n d in
       if 971 <? e then Finf neg else Ffin neg m e.

(** The conversion of an [int] operand of a float operation
    ([PyLong_AsDouble]). *)
Definition float_of_int (z : Z) : result pyfloat :=
  if z =? 0 then Ok (float_zero false)
  else let '(m, e) := round_pos (Z.abs z) 1 in
       if 971 <? e then Raise (OverflowError (ustr "int too large to convert to float"))
       else Ok (Ffin (z <? 0) m e).

(** [x + y] on floats. *)
Definition float_add (x y : pyfloat) : pyfloat :=
  match x, y with
  | Fnan, _ | _, Fnan => Fnan
  | Finf a, Finf b => if Bool.eqb a b then Finf a else Fnan
  | Finf a, Ffin _ _ _ => Finf a
  | Ffin _ _ _, Finf b => Finf b
  | Ffin a m e, Ffin b m' e' =>
      let u := (if a then - m else m) * 2 ^ (e + 1074) in
      let v := (if b then - m' else m') * 2 ^ (e' + 1074) in
      let t := u + v in
      if t =? 0 then float_zero (a && b)
      else float_of_ratio (t <? 0) (Z.abs t) (2 ^ 1074)
  end.

(** [int + float]: the integer operand is converted first. *)
Definition int_add_float (z : Z) (y : pyfloat) : result pyfloat :=
  x <- float_of_int z ;; Ok (float_add x y).

(** *** [repr(x)]: the shortest digits that read back as [x] *)

(** [digits * 10^p10] as a float. *)
Definition float_of_decimal (neg : bool) (digits p10 : Z) : pyfloat :=
  if 0 <=? p10 then float_of_ratio neg (digits * 10 ^ p10) 1
  else float_of_ratio neg digits (10 ^ (- p10)).

(** [xn / xd < 10^k]. *)
Definition below_pow10 (xn xd k : Z) : bool :=
  if 0 <=? k then xn <? 10 ^ k * xd else xn * 10 ^ (- k) <? xd.

Fixpoint decpt_up (fuel : nat) (xn xd k : Z) : Z :=
  match fuel with
  | O => k
  | S f => if below_pow10 xn xd k then k else decpt_up f xn xd (k + 1)
  end.

Fixpoint decpt_down (fuel : nat) (xn xd k : Z) : Z :=
  match fuel with
  | O => k
  | S f => if below_pow10 xn xd (k - 1) then decpt_down f xn xd (k - 1) else k
  end.

(** The [k] with [10^(k-1) <= xn / xd < 10^k]. *)
Definition decimal_point (xn xd : Z) : Z :=
  let est := (Z.log2 xn - Z.log2 xd) * 30103 / 100000 in
  decpt_down 8 xn xd (decpt_up 8 xn xd est).

(** The candidates with [n] digits around [x = m * 2^e]; the one closest to
    [x] among those that read back as [x]. *)
Definition shortest_at (m e k n : Z) : option Z :=
  let xn := m * 2 ^ Z.max e 0 in
  let xd := 2 ^ Z.max (- e) 0 in
  let num := if 0 <=? n - k then xn * 10 ^ (n - k) else xn in
  let den := if 0 <=? n - k then xd else xd * 10 ^ (k - n) in
  let lo := num / den in
  let r := num mod den in
  let back c := float_eqb (float_of_decimal false c (k - n)) (Ffin false m e) in
  let lo_ok := back lo in
  let hi_ok := back (lo + 1) in
  if r =? 0 then (if lo_ok then Some lo else None)
  else if lo_ok && hi_ok then
    (if 2 * r <? den then Some lo
     else if den <? 2 * r then Some (lo + 1)
     else if Z.even lo then Some lo else Some (lo + 1))
  else if lo_ok then Some lo
  else if hi_ok then Some (lo + 1)
  else None.

Fixpoint shortest_from (fuel : nat) (m e k n : Z) : Z * Z :=
  match fuel with
  | O => (m * 2 ^ Z.max e 0 * 10 ^ Z.max (n - k) 0
            / (2 ^ Z.max (- e) 0 * 10 ^ Z.max (k - n) 0), n)
  | S f => match shortest_at m e k n with
           | Some c => (c, n)
           | None => shortest_from f m e k (n + 1)
           end
  end.

Fixpoint strip_trailing_zeros_rev (r : pystr) : pystr :=
  match r with
  | 48 :: r' => match r' with [] => r | _ => strip_trailing_zeros_rev r' end
  | _ => r
  end.

(** The digit string and the position of the decimal point of a positive
    finite float: [0.digits * 10^decpt]. *)
Definition shortest_digits (m e : Z) : pystr * Z :=
  let k := decimal_point (m * 2 ^ Z.max e 0) (2 ^ Z.max (- e) 0) in
  let '(c, n) := shortest_from 17 m e k 1 in
  let ds := str_of_nonneg c in
  (rev (strip_trailing_zeros_rev (rev ds)), k + (len ds - n)).

(** [format_float_short] for the [repr] format. *)
Definition format_repr (neg : bool) (ds : pystr) (decpt : Z) : pystr :=
  let sign := if neg then [45] else [] in
  let n := len ds in
  if (decpt <=? -4) || (16 <? decpt) then
    let ex := decpt - 1 in
    let mant := match ds with
                | d :: (_ :: _) as tl => d :: 46 :: tl
                | _ => ds
                end in
    sign ++ mant ++ [101] ++ (if ex <? 0 then [45] else [43]) ++ fmt_0d 2 (Z.abs ex)
  else if decpt <=? 0 then
    sign ++ ustr "0." ++ str_mul [48] (- decpt) ++ ds
  else if n <=? decpt then
    sign ++ ds ++ str_mul [48] (decpt - n) ++ ustr ".0"
  else
    sign ++ firstn (Z.to_nat decpt) ds ++ [46] ++ skipn (Z.to_nat decpt) ds.

(** [str(x)] and [repr(x)] of a float. *)
Definition float_str (x : pyfloat) : pystr :=
  match x with
  | Fnan => ustr "nan"
  | Finf neg => if neg then ustr "-inf" else ustr "inf"
  | Ffin neg m e =>
      if m =? 0 then format_repr neg [48] 1
      else let '(ds, decpt) := shortest_digits m e in format_repr neg ds decpt
  end.

(** ** [float(s)] for a string argument *)

Fixpoint take_digits (s : pystr) : pystr * pystr :=
  match s with
  | c :: s' =>
      if is_ascii_digit c then let '(ds, r) := take_digits s' in (c :: ds, r)
      else ([], s)
  | [] => ([], [])
  end.

Definition digits_value (ds : pystr) : Z :=
  fold_left (fun acc c => acc * 10 + (c - 48)) ds 0.

(** [_Py_string_to_number_with_underscores]: an underscore must stand
    between two digits; the string without them. *)
Fixpoint strip_underscores (prev : Z) (s : pystr) : option pystr :=
  match s with
  | [] => if prev =? 95 then None else Some []
  | c :: s' =>
      if c =? 95 then
        if is_ascii_digit prev then strip_underscores 95 s' else None
      else if (prev =? 95) && negb (is_ascii_digit c) then None
      else option_map (cons c) (strip_underscores c s')
  end.

(** [case_insensitive_match]: [s] starts with the lower-case word [t]. *)
Fixpoint ci_prefix (t s : pystr) : option pystr :=
  match t, s with
  | [], _ => Some s
  | x :: t', c :: s' => if ascii_lower c =? x then ci_prefix t' s' else None
  | _ :: _, [] => None
  end.

Definition split_sign (s : pystr) : bool * pystr :=
  match s with
  | 45 :: r => (true, r)
  | 43 :: r => (false, r)
  | _ => (false, s)
  end.

(** [_Py_parse_inf_or_nan]. *)
Definition parse_inf_or_nan (s : pystr) : option (pyfloat * pystr) :=
  let '(neg, r) := split_sign s in
  match ci_prefix (ustr "inf") r with
  | Some r1 =>
      match ci_prefix (ustr "inity") r1 with
      | Some r2 => Some (Finf neg, r2)
      | None => Some (Finf neg, r1)
      end
  | None =>
      match ci_prefix (ustr "nan") r with
      | Some r1 => Some (Fnan, r1)
      | None => None
      end
  end.

(** The exponent part of [_Py_dg_strtod]: the exponent and what follows; an
    [e] without digits is not part of the number. *)
Definition parse_exponent (s : pystr) : Z * pystr :=
  match s with
  | c :: r =>
      if (c =? 101) || (c =? 69) then
        let '(neg, r1) := split_sign r in
        let '(ds, r2) := take_digits r1 in
        match ds with
        | [] => (0, s)
        | _ =>
            let sig := lstrip (Z.eqb 48) ds in
            let a := if 9 <? len sig then 1100000000 else digits_value sig in
            (if neg then - a else a, r2)
        end
      else (0, s)
  | [] => (0, [])
  end.

(** [_Py_dg_strtod]: a decimal literal at the start of [s], correctly
    rounded, and what follows it. *)
Definition parse_decimal (s : pystr) : option (pyfloat * pystr) :=
  let '(neg, r) := split_sign s in
  let '(ints, r1) := take_digits r in
  let '(fracs, r2) := match r1 with
                      | 46 :: r' => take_digits r'
                      | _ => ([], r1)
                      end in
  match ints ++ fracs with
  | [] => None
  | ds =>
      if (1000000000 <? len (lstrip (Z.eqb 48) ds)) || (1000000000 <? len fracs)
      then None
      else
        let '(ex, r3) := parse_exponent r2 in
        Some (float_of_decimal neg (digits_value ds) (ex - len fracs), r3)
  end.

Definition float_invalid (s : pystr) : exn :=
  ValueError (ustr "could not convert string to float: " ++ rt_repr rt s).

Definition py_float (s : pystr) : result pyfloat :=
  match lstrip py_isspace (transform_decimal_and_space s) with
  | [] => Raise (float_invalid s)
  | b =>
      let b := rev (lstrip py_isspace (rev b)) in
      match (if contains 95 b then strip_underscores 0 b else Some b) with
      | None => Raise (float_invalid s)
      | Some b =>
          match (match parse_inf_or_nan b with
                 | Some r => Some r
                 | None => parse_decimal b
                 end) with
          | Some (x, []) => Ok x
          | _ => Raise (float_invalid s)
          end
      end
  end.

(** ** Regular expressions of [_strptime]

    The pattern that [_strptime] builds from a format is matched by a
    backtracking matcher: alternatives in order, [\s+] greedy, the first
    match wins.  The pattern is compiled with [re.IGNORECASE]; a literal
    letter matches both of its cases. *)

Inductive gname : Type := Gm | Gd | Gy | GI | GM | GS | Gp.

Definition gname_eqb (a b : gname) : bool :=
  match a, b with
  | Gm, Gm | Gd, Gd | Gy, Gy | GI, GI | GM, GM | GS, GS | Gp, Gp => true
  | _, _ => false
  end.

Inductive re : Type :=
| Chr (c : Z)
| Rng (lo hi : Z)
| Dig
| Spaces
| Cat (a b : re)
| Alt (a b : re)
| Grp (g : gname) (r : re).

Definition captures := list (gname * pystr).

Fixpoint group (g : gname) (caps : captures) : option pystr :=
  match caps with
  | [] => None
  | (g', v) :: rest => if gname_eqb g g' then Some v else group g rest
  end.

Section Matcher.

Variable A : Type.

(** One or more characters of the class [p], as many as possible first. *)
Fixpoint plus_match (p : Z -> bool) (s : pystr)
  (k : pystr -> pystr -> option A) : option A :=
  match s with
  | c :: s' =>
      if p c then
        match plus_match p s' (fun m r => k (c :: m) r) with
        | Some x => Some x
        | None => k [c] s'
        end
      else None
  | [] => None
  end.

Definition one_char (p : Z -> bool) (s : pystr)
  (k : pystr -> pystr -> option A) : option A :=
  match s with
  | c :: s' => if p c then k [c] s' else None
  | [] => None
  end.

(** [rmatch r s caps k]: match [r] at the start of [s]; the continuation
    receives the matched text, the groups and the rest, and a failing
    continuation makes the matcher try its next alternative. *)
Fixpoint rmatch (r : re) (s : pystr) (caps : captures)
  (k : pystr -> captures -> pystr -> option A) : option A :=
  match r with
  | Chr c => one_char (fun x => ascii_lower x =? c) s (fun m r => k m caps r)
  | Rng lo hi => one_char (fun x => (lo <=? x) && (x <=? hi)) s (fun m r => k m caps r)
  | Dig => one_char unicode_isdecimal s (fun m r => k m caps r)
  | Spaces => plus_match unicode_isspace s (fun m r => k m caps r)
  | Cat a b =>
      rmatch a s caps (fun m1 c1 s1 =>
        rmatch b s1 c1 (fun m2 c2 s2 => k (m1 ++ m2) c2 s2))
  | Alt a b =>
      match rmatch a s caps k with
      | Some x => Some x
      | None => rmatch b s caps k
      end
  | Grp g a => rmatch a s caps (fun m c1 s1 => k m ((g, m) :: c1) s1)
  end.

End Matcher.

(** [re.match]: the groups of the first match and the unmatched rest. *)
Definition re_match (r : re) (s : pystr) : option (captures * pystr) :=
  rmatch r s [] (fun _ caps rest => Some (caps, rest)).

Definition chr_of (a : ascii) : Z := Z.of_N (N_of_ascii a).

(** The directives of the format, from [TimeRE.__init__]. *)
Definition re_1_to_12 : re :=
  Alt (Cat (Chr (chr_of "1")) (Rng (chr_of "0") (chr_of "2")))
 (Alt (Cat (Chr (chr_of "0")) (Rng (chr_of "1") (chr_of "9")))
      (Rng (chr_of "1") (chr_of "9"))).

(** [%m]: [(?P<m>1[0-2]|0[1-9]|[1-9])]. *)
Definition re_m : re := Grp Gm re_1_to_12.

(** [%d]: [(?P<d>3[0-1]|[1-2]\d|0[1-9]|[1-9]| [1-9])]. *)
Definition re_d : re :=
  Grp Gd
    (Alt (Cat (Chr (chr_of "3")) (Rng (chr_of "0") (chr_of "1")))
    (Alt (Cat (Rng (chr_of "1") (chr_of "2")) Dig)
    (Alt (Cat (Chr (chr_of "0")) (Rng (chr_of "1") (chr_of "9")))
    (Alt (Rng (chr_of "1") (chr_of "9"))
         (Cat (Chr (chr_of " ")) (Rng (chr_of "1") (chr_of "9"))))))).

(** [%y]: [(?P<y>\d\d)]. *)
Definition re_y : re := Grp Gy (Cat Dig Dig).

(** [%I]: [(?P<I>1[0-2]|0[1-9]|[1-9])]. *)
Definition re_I : re := Grp GI re_1_to_12.

(** [%M]: [(?P<M>[0-5]\d|\d)]. *)
Definition re_M : re :=
  Grp GM (Alt (Cat (Rng (chr_of "0") (chr_of "5")) Dig) Dig).

(** [%S]: [(?P<S>6[0-1]|[0-5]\d|\d)]. *)
Definition re_S : re :=
  Grp GS
    (Alt (Cat (Chr (chr_of "6")) (Rng (chr_of "0") (chr_of "1")))
    (Alt (Cat (Rng (chr_of "0") (chr_of "5")) Dig) Dig)).

(** [%p]: [(?P<p>am|pm)], the C locale's markers in lower case. *)
Definition re_p : re :=
  Grp Gp (Alt (Cat (Chr (chr_of "a")) (Chr (chr_of "m")))
              (Cat (Chr (chr_of "p")) (Chr (chr_of "m")))).

(** The pattern of ['%m/%d/%y %I:%M:%S %p']: each blank of the format
    stands for [\s+]. *)
Definition timestamp_format : pystr := ustr "%m/%d/%y %I:%M:%S %p".

Definition format_regex : re :=
  Cat re_m (Cat (Chr (chr_of "/")) (Cat re_d (Cat (Chr (chr_of "/")) (Cat re_y
 (Cat Spaces (Cat re_I (Cat (Chr (chr_of ":")) (Cat re_M (Cat (Chr (chr_of ":"))
 (Cat re_S (Cat Spaces re_p))))))))))).

(** ** Dates and times: the [datetime] module *)

Definition is_leap (year : Z) : bool :=
  (year mod 4 =? 0) && (negb (year mod 100 =? 0) || (year mod 400 =? 0)).

(** [_DAYS_IN_MONTH] and [_DAYS_BEFORE_MONTH], indexed from 1. *)
Definition DAYS_IN_MONTH (month : Z) : Z :=
  nth (Z.to_nat month) [-1; 31; 28; 31; 30; 31; 30; 31; 31; 30; 31; 30; 31] 0.

Definition DAYS_BEFORE_MONTH (month : Z) : Z :=
  nth (Z.to_nat month) [-1; 0; 31; 59; 90; 120; 151; 181; 212; 243; 273; 304; 334] 0.

Definition days_before_year (year : Z) : Z :=
  let y := year - 1 in y * 365 + y / 4 - y / 100 + y / 400.

Definition days_in_month (year month : Z) : Z :=
  if (month =? 2) && is_leap year then 29 else DAYS_IN_MONTH month.

Definition days_before_month (year month : Z) : Z :=
  DAYS_BEFORE_MONTH month + (if (2 <? month) && is_leap year then 1 else 0).

(** [_ymd2ord]: the ordinal of a date, 1 for 0001-01-01. *)
Definition ymd2ord (year month day : Z) : Z :=
  days_before_year year + days_before_month year month + day.

Definition DI400Y : Z := days_before_year 401.
Definition DI100Y : Z := days_before_year 101.
Definition DI4Y : Z := days_before_year 5.

(** [_ord2ymd]: the date of an ordinal. *)
Definition ord2ymd (n : Z) : Z * Z * Z :=
  let n := n - 1 in
  let n400 := n / DI400Y in
  let n := n mod DI400Y in
  let year := n400 * 400 + 1 in
  let n100 := n / DI100Y in
  let n := n mod DI100Y in
  let n4 := n / DI4Y in
  let n := n mod DI4Y in
  let n1 := n / 365 in
  let n := n mod 365 in
  let year := year + n100 * 100 + n4 * 4 + n1 in
  if (n1 =? 4) || (n100 =? 4) then (year - 1, 12, 31)
  else
    let leapyear := (n1 =? 3) && (negb (n4 =? 24) || (n100 =? 3)) in
    let month := Z.shiftr (n + 50) 5 in
    let preceding :=
      DAYS_BEFORE_MONTH month + (if (2 <? month) && leapyear then 1 else 0) in
    if n <? preceding then
      let month := month - 1 in
      let preceding :=
        preceding - (DAYS_IN_MONTH month + (if (month =? 2) && leapyear then 1 else 0)) in
      (year, month, n - preceding + 1)
    else (year, month, n - preceding + 1).

Definition MAXORDINAL : Z := 3652059.

(** A [timezone]: a fixed offset from UTC, in seconds, and a name. *)
Record timezone : Type := {
  tz_offset : Z;
  tz_name : pystr
}.

(** A [datetime] without microseconds (the format has no [%f], they are
    always zero); [dt_tzinfo] is [None] for a naive value. *)
Record datetime : Type := {
  dt_year : Z;
  dt_month : Z;
  dt_day : Z;
  dt_hour : Z;
  dt_minute : Z;
  dt_second : Z;
  dt_tzinfo : option timezone
}.

(** [datetime.__add__] with a [timedelta] of [delta] seconds. *)
Definition datetime_add (d : datetime) (delta : Z) : result datetime :=
  let total := dt_hour d * 3600 + dt_minute d * 60 + dt_second d + delta in
  let days := ymd2ord (dt_year d) (dt_month d) (dt_day d) + total / 86400 in
  let secs := total mod 86400 in
  let hour := secs / 3600 in
  let rem := secs mod 3600 in
  if (0 <? days) && (days <=? MAXORDINAL) then
    let '(y, m, dd) := ord2ymd days in
    Ok {| dt_year := y; dt_month := m; dt_day := dd;
          dt_hour := hour; dt_minute := rem / 60; dt_second := rem mod 60;
          dt_tzinfo := dt_tzinfo d |}
  else Raise (OverflowError (ustr "date value out of range")).

(** [d.replace(tzinfo=tz)]. *)
Definition replace_tzinfo (d : datetime) (tz : timezone) : datetime :=
  {| dt_year := dt_year d; dt_month := dt_month d; dt_day := dt_day d;
     dt_hour := dt_hour d; dt_minute := dt_minute d; dt_second := dt_second d;
     dt_tzinfo := Some tz |}.

(** [d.astimezone(tz)] for an aware [d] whose zone is not the object [tz]:
    to UTC by subtracting the own offset, then [tz.fromutc]. *)
Definition astimezone (d : datetime) (myoffset : Z) (tz : timezone)
  : result datetime :=
  utc <- datetime_add d (- myoffset) ;;
  datetime_add (replace_tzinfo utc tz) (tz_offset tz).

(** [_format_offset]. *)
Definition format_offset (off : Z) : pystr :=
  let sign := if off <? 0 then [45] else [43] in
  let a := Z.abs off in
  let hh := a / 3600 in
  let mm := (a mod 3600) / 60 in
  let ss := (a mod 3600) mod 60 in
  sign ++ fmt_0d 2 hh ++ [58] ++ fmt_0d 2 mm
  ++ (if ss =? 0 then [] else 58 :: fmt_0d 2 ss).

(** [d.isoformat()]. *)
Definition isoformat (d : datetime) : pystr :=
  fmt_0d 4 (dt_year d) ++ [45] ++ fmt_0d 2 (dt_month d) ++ [45]
  ++ fmt_0d 2 (dt_day d) ++ [84]
  ++ fmt_0d 2 (dt_hour d) ++ [58] ++ fmt_0d 2 (dt_minute d) ++ [58]
  ++ fmt_0d 2 (dt_second d)
  ++ match dt_tzinfo d with
     | Some tz => format_offset (tz_offset tz)
     | None => []
     end.

(** ** [datetime.strptime] with the format of the script *)

Definition lower_str (s : pystr) : pystr := map ascii_lower s.

Definition group_or_empty (g : gname) (caps : captures) : pystr :=
  match group g caps with Some v => v | None => [] end.

(** [_strptime] followed by the construction of the [datetime]: the pattern
    must match and leave nothing over; the groups are converted with [int];
    the two-digit year is of this century up to 68; the hour is corrected by
    the AM/PM marker; the date and the second must exist. *)
Definition strptime (data_string : pystr) : result datetime :=
  match re_match format_regex data_string with
  | None =>
      Raise (ValueError (ustr "time data " ++ rt_repr rt data_string
                         ++ ustr " does not match format "
                         ++ rt_repr rt timestamp_format))
  | Some (found, rest) =>
      match rest with
      | _ :: _ => Raise (ValueError (ustr "unconverted data remains: " ++ rest))
      | [] =>
          month <- py_int (group_or_empty Gm found) ;;
          day <- py_int (group_or_empty Gd found) ;;
          y <- py_int (group_or_empty Gy found) ;;
          let year := if y <=? 68 then y + 2000 else y + 1900 in
          h <- py_int (group_or_empty GI found) ;;
          let ampm := lower_str (group_or_empty Gp found) in
          let hour :=
            if str_eqb ampm [] || str_eqb ampm (ustr "am") then
              (if h =? 12 then 0 else h)
            else if str_eqb ampm (ustr "pm") then
              (if h =? 12 then h else h + 12)
            else h in
          minute <- py_int (group_or_empty GM found) ;;
          second <- py_int (group_or_empty GS found) ;;
          if negb ((1 <=? day) && (day <=? days_in_month year month)) then
            Raise (ValueError (ustr "day is out of range for month"))
          else if negb ((0 <=? second) && (second <=? 59)) then
            Raise (ValueError (ustr "second must be in 0..59"))
          else
            Ok {| dt_year := year; dt_month := month; dt_day := day;
                  dt_hour := hour; dt_minute := minute; dt_second := second;
                  dt_tzinfo := None |}
      end
  end.

(** * The script *)

(** [pacific_offset], [eastern_offset]: [timedelta(hours=-8)] and
    [timedelta(hours=-5)], in seconds. *)
Definition pacific_offset : Z := -8 * 3600.
Definition eastern_offset : Z := -5 * 3600.

Definition pacific_tz : timezone :=
  {| tz_offset := pacific_offset; tz_name := ustr "Pacific Time" |}.
Definition eastern_tz : timezone :=
  {| tz_offset := eastern_offset; tz_name := ustr "Eastern Time" |}.

(** [clean_address]. *)
Definition clean_address (address : pystr) : pystr :=
  if contains 44 address then dquote :: address ++ [dquote] else address.

(** [format_timestamp]. *)
Definition format_timestamp (timestamp : pystr) : result pystr :=
  py_timestamp <- strptime timestamp ;;
  let py_timestamp := replace_tzinfo py_timestamp pacific_tz in
  eastern_datetime <- astimezone py_timestamp (tz_offset pacific_tz) eastern_tz ;;
  Ok (isoformat eastern_datetime).

(** [validate_zip]. *)
Definition validate_zip (zip_code : pystr) : result pystr :=
  _ <- py_int zip_code ;;
  let add_zeroes := 5 - len zip_code in
  if negb (add_zeroes =? 0) then Ok (str_mul [48] add_zeroes ++ zip_code)
  else Ok zip_code.

(** [format_full_name]. *)
Definition format_full_name (full_name : pystr) : pystr :=
  rt_upper rt full_name.

(** The unpacking [h, m, s = ...] of a list. *)
Definition unpack3 (parts : list pystr) : result (pystr * pystr * pystr) :=
  match parts with
  | [h; m; s] => Ok (h, m, s)
  | _ :: _ :: _ :: _ :: _ =>
      Raise (ValueError (ustr "too many values to unpack (expected 3)"))
  | _ =>
      Raise (ValueError (ustr "not enough values to unpack (expected 3, got "
                         ++ str_of_int (Z.of_nat (List.length parts)) ++ ustr ")"))
  end.

(** [convert_duration]. *)
Definition convert_duration (duration : pystr) : result pyfloat :=
  '(h, m, s) <- unpack3 (split_on 58 duration) ;;
  hv <- py_int h ;;
  mv <- py_int m ;;
  sv <- py_float s ;;
  int_add_float (hv * 3600 + mv * 60) sv.

(** [get_total_duration]. *)
Definition get_total_duration (foo_duration bar_duration : pyfloat) : pyfloat :=
  float_add foo_duration bar_duration.

(** The two output channels: the lines printed so far, oldest first. *)
Record io : Type := {
  std_out : list pystr;
  std_err : list pystr
}.

Definition empty_io : io := {| std_out := []; std_err := [] |}.

(** [print(line)]. *)
Definition print (line : pystr) (w : io) : io :=
  {| std_out := std_out w ++ [line]; std_err := std_err w |}.

Definition warn_prefix : pystr :=
  ustr "WARN: row will be omitted due to invalid input format: ".

(** [print_error]: [error] is the text of the exception. *)
Definition print_error (error : pystr) (w : io) : io :=
  {| std_out := std_out w; std_err := std_err w ++ [warn_prefix ++ error] |}.

(** [row[i]]. *)
Definition getitem (row : list pystr) (i : nat) : result pystr :=
  match nth_error row i with
  | Some v => Ok v
  | None => Raise (IndexError (ustr "list index out of range"))
  end.

(** The body of the [try] of [clean_and_normalize_row]. *)
Definition normalize_fields (row : list pystr) : result (list pystr) :=
  let cleaned_row := [] in
  r0 <- getitem row 0 ;;
  v <- format_timestamp r0 ;;
  let cleaned_row := cleaned_row ++ [v] in
  r1 <- getitem row 1 ;;
  let cleaned_row := cleaned_row ++ [clean_address r1] in
  r2 <- getitem row 2 ;;
  v <- validate_zip r2 ;;
  let cleaned_row := cleaned_row ++ [v] in
  r3 <- getitem row 3 ;;
  let cleaned_row := cleaned_row ++ [format_full_name r3] in
  r4 <- getitem row 4 ;;
  foo_duration <- convert_duration r4 ;;
  let cleaned_row := cleaned_row ++ [float_str foo_duration] in
  r5 <- getitem row 5 ;;
  bar_duration <- convert_duration r5 ;;
  let cleaned_row := cleaned_row ++ [float_str bar_duration] in
  let total_duration := get_total_duration foo_duration bar_duration in
  let cleaned_row := cleaned_row ++ [float_str total_duration] in
  r7 <- getitem row 7 ;;
  let cleaned_row := cleaned_row ++ [r7] in
  Ok cleaned_row.

(** [clean_and_normalize_row]: a [ValueError] is caught, reported and
    answered with [None]; any other exception leaves the function. *)
Definition clean_and_normalize_row (row : list pystr) (w : io)
  : result (option (list pystr)) * io :=
  match normalize_fields row with
  | Ok cleaned_row => (Ok (Some cleaned_row), w)
  | Raise (ValueError error) => (Ok None, print_error error w)
  | Raise e => (Raise e, w)
  end.

(** The truth value of what [clean_and_normalize_row] returns. *)
Definition truthy (normalized_data : option (list pystr)) : bool :=
  match normalized_data with
  | Some (_ :: _) => true
  | _ => false
  end.

(** The loop over the data rows in [read_and_clean_file]. *)
Fixpoint process_rows (csv_rows : list (list pystr)) (w : io) : result unit * io :=
  match csv_rows with
  | [] => (Ok tt, w)
  | row :: rest =>
      match clean_and_normalize_row row w with
      | (Ok normalized_data, w1) =>
          let w2 := match normalized_data with
                    | Some data =>
                        if truthy normalized_data then print (join [44] data) w1
                        else w1
                    | None => w1
                    end in
          process_rows rest w2
      | (Raise e, w1) => (Raise e, w1)
      end
  end.

(** [read_and_clean_file], from the rows that [csv.reader] yields for the
    decoded input lines: the first is the header. *)
Definition read_and_clean_file (csv_rows : list (list pystr)) (w : io)
  : result unit * io :=
  match csv_rows with
  | [] => (Raise StopIteration, w)
  | header :: rest => process_rows rest (print (join [44] header) w)
  end.

End WithRuntime.

(** ** Definitions used in the statements below *)

(** The texts a pattern matches, with the groups it records. *)
Inductive matches (rt : Runtime) : re -> pystr -> captures -> captures -> Prop :=
| M_chr c x caps : ascii_lower x = c -> matches rt (Chr c) [x] caps caps
| M_rng lo hi x caps : lo <= x <= hi -> matches rt (Rng lo hi) [x] caps caps
| M_dig x caps : unicode_isdecimal rt x = true -> matches rt Dig [x] caps caps
| M_spaces m caps :
    m <> [] -> Forall (fun x => unicode_isspace x = true) m ->
    matches rt Spaces m caps caps
| M_cat a b m1 m2 c0 c1 c2 :
    matches rt a m1 c0 c1 -> matches rt b m2 c1 c2 ->
    matches rt (Cat a b) (m1 ++ m2) c0 c2
| M_alt_l a b m c0 c1 : matches rt a m c0 c1 -> matches rt (Alt a b) m c0 c1
| M_alt_r a b m c0 c1 : matches rt b m c0 c1 -> matches rt (Alt a b) m c0 c1
| M_grp g a m c0 c1 : matches rt a m c0 c1 -> matches rt (Grp g a) m c0 ((g, m) :: c1).


(** The [n] integers from [lo] on. *)
Definition Zseq (lo : Z) (n : nat) : list Z :=
  map (fun i => lo + Z.of_nat i) (seq 0 n).

(** *** The calendar, as the specification reads it

    A two-digit year is of the years 1969 to 2068; the months have their
    usual lengths; the day after a date. *)

Definition full_year (yy : Z) : Z := if yy <=? 68 then 2000 + yy else 1900 + yy.

Definition month_length (year month : Z) : Z :=
  if month =? 2 then (if is_leap year then 29 else 28)
  else if (month =? 4) || (month =? 6) || (month =? 9) || (month =? 11) then 30
  else 31.

Definition next_day (year month day : Z) : Z * Z * Z :=
  if day <? month_length year month then (year, month, day + 1)
  else if month <? 12 then (year, month + 1, 1)
  else (year + 1, 1, 1).

Definition date_eqb (a b : Z * Z * Z) : bool :=
  let '(y, m, d) := a in let '(y', m', d') := b in
  (y =? y') && (m =? m') && (d =? d').


(** The checks behind the calendar lemmas: the dates of the years 1969 to
    2068 are finitely many. *)

Definition first_ordinal : Z := ymd2ord 1969 1 1.
Definition last_ordinal : Z := ymd2ord 2069 1 1.

Definition check_date (yy m d : Z) : bool :=
  let y := full_year yy in
  (days_in_month y m =? month_length y m) &&
  (if d <=? days_in_month y m then
     let o := ymd2ord y m d in
     (first_ordinal <=? o) && (o <? last_ordinal)
     && date_eqb (ord2ymd o) (y, m, d)
     && date_eqb (ord2ymd (o + 1)) (next_day y m d)
     && (let '(y1, m1, d1) := next_day y m d in ymd2ord y1 m1 d1 =? o + 1)
   else true).

Definition all_dates : list (Z * (Z * Z)) :=
  list_prod (Zseq 0 100) (list_prod (Zseq 1 12) (Zseq 1 31)).

Definition check_triple (t : Z * (Z * Z)) : bool :=
  let '(yy, (m, d)) := t in check_date yy m d.

(** An ASCII digit between [lo] and [hi]. *)
Definition digit_between (lo hi x : Z) : Prop := 48 + lo <= x <= 48 + hi.

(** The texts of the directives, as the pattern admits them: a month or an
    hour is 1 to 12 with an optional leading zero; a day may have a leading
    zero or a leading space; the year has two digits; minutes and seconds
    have one or two digits.  Where the pattern has [\d], any Unicode decimal
    digit is admitted. *)
Definition one_to_twelve_text (t : pystr) : Prop :=
  (exists x, t = [49; x] /\ digit_between 0 2 x) \/
  (exists x, t = [48; x] /\ digit_between 1 9 x) \/
  (exists x, t = [x] /\ digit_between 1 9 x).

Definition day_text (rt : Runtime) (t : pystr) : Prop :=
  (exists x, t = [51; x] /\ digit_between 0 1 x) \/
  (exists x y, t = [x; y] /\ digit_between 1 2 x /\ unicode_isdecimal rt y = true) \/
  (exists x, t = [48; x] /\ digit_between 1 9 x) \/
  (exists x, t = [x] /\ digit_between 1 9 x) \/
  (exists x, t = [32; x] /\ digit_between 1 9 x).

Definition year_text (rt : Runtime) (t : pystr) : Prop :=
  exists x y, t = [x; y] /\ unicode_isdecimal rt x = true
              /\ unicode_isdecimal rt y = true.

Definition minute_text (rt : Runtime) (t : pystr) : Prop :=
  (exists x y, t = [x; y] /\ digit_between 0 5 x /\ unicode_isdecimal rt y = true) \/
  (exists x, t = [x] /\ unicode_isdecimal rt x = true).

Definition second_text (rt : Runtime) (t : pystr) : Prop :=
  (exists x, t = [54; x] /\ digit_between 0 1 x) \/ minute_text rt t.

Definition blanks (t : pystr) : Prop :=
  t <> [] /\ Forall (fun x => unicode_isspace x = true) t.

Definition ampm_text (t : pystr) : Prop :=
  lower_str t = ustr "am" \/ lower_str t = ustr "pm".

(** The strings that [strptime] can accept for the format of the script. *)
Definition strptime_shape (rt : Runtime) (s : pystr) : Prop :=
  exists mo d y w1 h mi se w2 p,
    s = mo ++ [47] ++ d ++ [47] ++ y ++ w1 ++ h ++ [58] ++ mi ++ [58] ++ se
        ++ w2 ++ p /\
    one_to_twelve_text mo /\ day_text rt d /\ year_text rt y /\ blanks w1 /\
    one_to_twelve_text h /\ minute_text rt mi /\ second_text rt se /\
    blanks w2 /\ ampm_text p.

(** The fields a naive [datetime] of the format can have: a date of the
    years 1969 to 2068 and a time of day. *)
Definition parsed_fields (d : datetime) : Prop :=
  (exists yy, 0 <= yy <= 99 /\ dt_year d = full_year yy) /\
  1 <= dt_month d <= 12 /\
  1 <= dt_day d <= days_in_month (dt_year d) (dt_month d) /\
  0 <= dt_hour d <= 23 /\
  0 <= dt_minute d <= 59 /\
  0 <= dt_second d <= 59 /\
  dt_tzinfo d = None.

(** Three hours later on the wall clock: the date and the hour. *)
Definition plus_three_hours (y m d h : Z) : Z * Z * Z * Z :=
  if h + 3 <? 24 then (y, m, d, h + 3)
  else let '(y1, m1, d1) := next_day y m d in (y1, m1, d1, h + 3 - 24).

(** The Eastern reading of a Pacific wall-clock time. *)
Definition eastern_of (d : datetime) : datetime :=
  let '(y, m, dd, h) :=
    plus_three_hours (dt_year d) (dt_month d) (dt_day d) (dt_hour d) in
  {| dt_year := y; dt_month := m; dt_day := dd; dt_hour := h;
     dt_minute := dt_minute d; dt_second := dt_second d;
     dt_tzinfo := Some eastern_tz |}.

(** *** The two patterns of the specification

    [M/D/YY HH:MM:SS AM/PM] has the month and the day without padding,
    [MM/DD/YY HH:MM:SS AM/PM] has both with two digits; the year, the hour
    (on the 12-hour clock), the minute and the second have two digits. *)

Definition two_digits (n : Z) : pystr := [48 + n / 10; 48 + n mod 10].

Definition unpadded (n : Z) : pystr :=
  if n <? 10 then [48 + n] else two_digits n.

Definition four_digits (n : Z) : pystr :=
  [48 + n / 1000; 48 + (n / 100) mod 10; 48 + (n / 10) mod 10; 48 + n mod 10].

Record clock : Type := {
  c_month : Z;
  c_day : Z;
  c_yy : Z;
  c_hour : Z;
  c_minute : Z;
  c_second : Z;
  c_pm : bool
}.

Definition valid_clock (c : clock) : Prop :=
  1 <= c_month c <= 12 /\
  1 <= c_day c <= month_length (full_year (c_yy c)) (c_month c) /\
  0 <= c_yy c <= 99 /\
  1 <= c_hour c <= 12 /\
  0 <= c_minute c <= 59 /\
  0 <= c_second c <= 59.

Definition ampm_marker (pm : bool) : pystr :=
  if pm then ustr "PM" else ustr "AM".

Definition timestamp_text (padded : bool) (c : clock) : pystr :=
  (if padded then two_digits else unpadded) (c_month c) ++ [47]
  ++ (if padded then two_digits else unpadded) (c_day c) ++ [47]
  ++ two_digits (c_yy c) ++ [32]
  ++ two_digits (c_hour c) ++ [58] ++ two_digits (c_minute c) ++ [58]
  ++ two_digits (c_second c) ++ [32] ++ ampm_marker (c_pm c).

(** The wall-clock time that the text denotes, on the 24-hour clock. *)
Definition hour24 (c : clock) : Z :=
  c_hour c mod 12 + (if c_pm c then 12 else 0).

Definition pacific_datetime (c : clock) : datetime :=
  {| dt_year := full_year (c_yy c); dt_month := c_month c; dt_day := c_day c;
     dt_hour := hour24 c; dt_minute := c_minute c; dt_second := c_second c;
     dt_tzinfo := None |}.

(** [YYYY-MM-DDTHH:MM:SS-05:00]. *)
Definition rfc3339_eastern (d : datetime) : pystr :=
  four_digits (dt_year d) ++ [45] ++ two_digits (dt_month d) ++ [45]
  ++ two_digits (dt_day d) ++ [84] ++ two_digits (dt_hour d) ++ [58]
  ++ two_digits (dt_minute d) ++ [58] ++ two_digits (dt_second d)
  ++ ustr "-05:00".

(** The instant of a wall-clock time at a UTC offset, in seconds since the
    start of day 0 of the ordinal calendar. *)
Definition utc_seconds (d : datetime) (offset : Z) : Z :=
  ymd2ord (dt_year d) (dt_month d) (dt_day d) * 86400
  + dt_hour d * 3600 + dt_minute d * 60 + dt_second d - offset.

(** The example of the specification: 10/2/02, ten in the morning. *)
Definition example_clock : clock :=
  {| c_month := 10; c_day := 2; c_yy := 2; c_hour := 10; c_minute := 0;
     c_second := 0; c_pm := false |}.

(** A text outside both patterns: two blanks, fields of one digit, a marker
    in lower case. *)
Definition lenient_text : pystr := ustr "10/2/02  1:5:7 pm".

(** An hours field of 306 digits: a one and 305 zeros. *)
Definition huge_hours : pystr := 49 :: repeat 48 305.

(** A duration whose hours, minutes and seconds all parse. *)
Definition overflow_duration : pystr := huge_hours ++ ustr ":00:00".

(** A data row of eight fields with that duration. *)
Definition overflow_row : list pystr :=
  [ustr "10/2/02 10:00:00 AM"; ustr "123 Main St"; ustr "123"; ustr "jane doe";
   overflow_duration; ustr "0:00:01.0"; ustr "junk"; ustr "note"].

(** *** Runs, rows and texts

    What the statements about whole runs, about the texts of errors and
    about exact durations speak of. *)

(** The line that a data row adds to the output of a run that goes on, and
    the line that it adds to the error channel. *)
Definition output_lines (rt : Runtime) (row : list pystr) : list pystr :=
  match normalize_fields rt row with
  | Ok out => [join [44] out]
  | Raise _ => []
  end.

Definition warning_lines (rt : Runtime) (row : list pystr) : list pystr :=
  match normalize_fields rt row with
  | Raise (ValueError msg) => [warn_prefix ++ msg]
  | _ => []
  end.

(** The two exceptions that the handler of [clean_and_normalize_row] lets
    through. *)
Definition index_error : exn := IndexError (ustr "list index out of range").
Definition overflow_error : exn :=
  OverflowError (ustr "int too large to convert to float").

(** The number of occurrences of the character [c] in [s]. *)
Definition count_char (c : Z) (s : pystr) : nat := count_occ Z.eq_dec s c.

(** The text of the [ValueError] of [strptime] for a string that the
    pattern does not match. *)
Definition no_match_error (rt : Runtime) (data_string : pystr) : exn :=
  ValueError (ustr "time data " ++ rt_repr rt data_string
              ++ ustr " does not match format " ++ rt_repr rt timestamp_format).

(** The float that a whole number [n] below [2^53] is: the significand has
    53 bits, and the value is [n] itself. *)
Definition whole_float (n : Z) : pyfloat :=
  if n =? 0 then float_zero false
  else Ffin false (n * 2 ^ (52 - Z.log2 n)) (Z.log2 n - 52).

(** The hour on the 24-hour clock of an hour [vh] of the 12-hour clock with
    the marker [p]. *)
Definition hour_of (vh : Z) (p : pystr) : Z :=
  vh mod 12 + (if str_eqb (lower_str p) (ustr "pm") then 12 else 0).

(** The wall-clock time that the fields of a timestamp denote. *)
Definition fields_datetime (vmo vd vy vh vmi vse : Z) (p : pystr) : datetime :=
  {| dt_year := full_year vy; dt_month := vmo; dt_day := vd;
     dt_hour := hour_of vh p; dt_minute := vmi; dt_second := vse;
     dt_tzinfo := None |}.

(** A text without a comma. *)
Definition comma_free (s : pystr) : Prop := Forall (fun c => c <> 44) s.

(** ** Inputs used in the statements below *)

(** The output of [w] followed by the output of [w0]. *)
Definition io_app (w w0 : io) : io :=
  {| std_out := std_out w ++ std_out w0; std_err := std_err w ++ std_err w0 |}.

(** A data row with seven fields, each of them well formed. *)
Definition seven_field_row : list pystr :=
  map ustr ["10/2/02 10:00:00 AM"; "123 Main St"; "123"; "jane doe";
            "1:02:03.5"; "0:00:01.0"; "junk"]%string.

(** An ordinary data row. *)
Definition sample_row : list pystr :=
  map ustr ["10/2/02 10:00:00 AM"; "123 Main St, Apt 4"; "123"; "jane doe";
            "1:02:03.5"; "0:00:01.0"; "junk"; "note"]%string.

Unset Implicit Arguments.

Arguments py_int : simpl never.
Arguments py_float : simpl never.
Arguments float_str : simpl never.
Arguments float_add : simpl never.
Arguments float_of_int : simpl never.
Arguments strptime : simpl never.
Arguments format_timestamp : simpl never.
Arguments validate_zip : simpl never.
Arguments convert_duration : simpl never.
Arguments normalize_fields : simpl never.
Arguments clean_and_normalize_row : simpl never.

(** * Properties *)

(** ** Strings and lists *)

Lemma contains_In (c : Z) (s : pystr) : contains c s = true <-> In c s.
Proof.
  unfold contains. rewrite existsb_exists. split.
  - intros [x [Hin Heq]]. apply Z.eqb_eq in Heq. now subst.
  - intros Hin. exists c. split; [assumption | apply Z.eqb_refl].
Qed.

Lemma contains_not_In (c : Z) (s : pystr) : contains c s = false <-> ~ In c s.
Proof.
  rewrite <- contains_In. destruct (contains c s); split; intros H; easy.
Qed.

Lemma len_app (a b : pystr) : len (a ++ b) = len a + len b.
Proof. unfold len. rewrite length_app. lia. Qed.

Lemma len_nonneg (a : pystr) : 0 <= len a.
Proof. unfold len. lia. Qed.

Lemma str_mul_char (c n : Z) : str_mul [c] n = repeat c (Z.to_nat n).
Proof.
  unfold str_mul. induction (Z.to_nat n) as [|k IH]; simpl; [reflexivity | now rewrite IH].
Qed.

Lemma len_repeat (c : Z) (n : nat) : len (repeat c n) = Z.of_nat n.
Proof. unfold len. now rewrite repeat_length. Qed.

(** ** [clean_address] *)

Lemma clean_address_with_comma (address : pystr) :
  In 44 address -> clean_address address = dquote :: address ++ [dquote].
Proof.
  intros H. unfold clean_address. apply contains_In in H. now rewrite H.
Qed.

Lemma clean_address_without_comma (address : pystr) :
  ~ In 44 address -> clean_address address = address.
Proof.
  intros H. unfold clean_address. apply contains_not_In in H. now rewrite H.
Qed.

(** C8: the address normalizer is a total function on strings (it has no
    failing branch); a value that contains a comma comes back between two
    double quotes, whatever else it contains (embedded quotes are not
    escaped), and a value without a comma comes back unchanged; the two
    examples of the specification. *)
Theorem clean_address_quotes_on_comma :
  forall address : pystr,
    (In 44 address -> clean_address address = dquote :: address ++ [dquote]) /\
    (~ In 44 address -> clean_address address = address) /\
    clean_address (ustr "123 Main St, Apt 4")
      = dquote :: ustr "123 Main St, Apt 4" ++ [dquote] /\
    clean_address (ustr "123 Main St") = ustr "123 Main St".
Proof.
  intros address. split; [| split; [| split]].
  - apply clean_address_with_comma.
  - apply clean_address_without_comma.
  - reflexivity.
  - reflexivity.
Qed.

Lemma clean_address_quotes_on_comma_witness :
  clean_address (ustr "a,b") = dquote :: ustr "a,b" ++ [dquote] /\
  clean_address (34 :: ustr "a,b" ++ [34]) = 34 :: (34 :: ustr "a,b" ++ [34]) ++ [34] /\
  clean_address (ustr "ab") = ustr "ab".
Proof.
  split; [| split].
  - apply (proj1 (clean_address_quotes_on_comma (ustr "a,b"))).
    simpl. tauto.
  - apply (proj1 (clean_address_quotes_on_comma (34 :: ustr "a,b" ++ [34]))).
    simpl. tauto.
  - apply (proj1 (proj2 (clean_address_quotes_on_comma (ustr "ab")))).
    simpl. intros [H | [H | H]]; try discriminate H. exact H.
Defined.

(** C9: on a value that contains a comma (so on every value the normalizer
    has already quoted) a second application adds a second pair of quotes,
    and the result differs from the result of one application. *)
Theorem clean_address_not_idempotent :
  forall address : pystr,
    In 44 address ->
    clean_address (clean_address address)
      = dquote :: clean_address address ++ [dquote] /\
    clean_address (clean_address address) <> clean_address address.
Proof.
  intros address Hin.
  assert (Hq : In 44 (clean_address address)).
  { rewrite (clean_address_with_comma address Hin).
    right. apply in_or_app. now left. }
  pose proof (clean_address_with_comma (clean_address address) Hq) as H.
  split; [exact H |].
  rewrite H. intros Heq.
  apply (f_equal (@List.length Z)) in Heq. simpl in Heq.
  rewrite length_app in Heq. simpl in Heq. lia.
Qed.

Lemma clean_address_not_idempotent_witness :
  clean_address (clean_address (ustr "1 Main St, Apt 4"))
    = dquote :: clean_address (ustr "1 Main St, Apt 4") ++ [dquote] /\
  clean_address (clean_address (ustr "1 Main St, Apt 4"))
    <> clean_address (ustr "1 Main St, Apt 4").
Proof.
  apply (clean_address_not_idempotent (ustr "1 Main St, Apt 4")).
  simpl. tauto.
Defined.

(** ** The output channels *)

Lemma io_app_empty_r (w : io) : io_app w empty_io = w.
Proof. destruct w. unfold io_app. simpl. now rewrite !app_nil_r. Qed.

Lemma io_app_empty_l (w : io) : io_app empty_io w = w.
Proof. now destruct w. Qed.

Lemma io_app_assoc (a b c : io) : io_app (io_app a b) c = io_app a (io_app b c).
Proof. unfold io_app. simpl. now rewrite !app_assoc. Qed.

Lemma print_io_app (line : pystr) (w : io) :
  print line w = io_app w (print line empty_io).
Proof. unfold print, io_app. simpl. now rewrite app_nil_r. Qed.

Lemma print_error_io_app (e : pystr) (w : io) :
  print_error e w = io_app w (print_error e empty_io).
Proof. unfold print_error, io_app. simpl. now rewrite app_nil_r. Qed.

(** What a row prints does not depend on what was printed before it. *)
Lemma clean_and_normalize_row_frame (rt : Runtime) (row : list pystr) (w : io) :
  clean_and_normalize_row rt row w
  = (fst (clean_and_normalize_row rt row empty_io),
     io_app w (snd (clean_and_normalize_row rt row empty_io))).
Proof.
  unfold clean_and_normalize_row.
  destruct (normalize_fields rt row) as [cleaned | [msg | msg | msg |]]; simpl;
    rewrite ?io_app_empty_r; try reflexivity.
  now rewrite print_error_io_app.
Qed.

Lemma process_rows_frame (rt : Runtime) (rows : list (list pystr)) :
  forall w : io,
    process_rows rt rows w
    = (fst (process_rows rt rows empty_io),
       io_app w (snd (process_rows rt rows empty_io))).
Proof.
  induction rows as [| row rest IH]; intros w.
  - simpl. now rewrite io_app_empty_r.
  - simpl. rewrite (clean_and_normalize_row_frame rt row w).
    destruct (clean_and_normalize_row rt row empty_io) as [[data | e] w0]; simpl.
    + rewrite IH.
      rewrite (IH (match data with
                   | Some d => if truthy data then print (join [44] d) w0 else w0
                   | None => w0
                   end)).
      simpl. f_equal. rewrite <- io_app_assoc. f_equal.
      destruct data as [d |]; [| reflexivity].
      destruct (truthy (Some d)); [| reflexivity].
      rewrite (print_io_app _ (io_app w w0)), (print_io_app _ w0).
      now rewrite io_app_assoc.
    + reflexivity.
Qed.

(** ** The header *)

(** C7: whatever the first row is, it is joined with commas and printed
    once, before anything a data row prints; no normalizer sees it, it is
    never dropped, and everything after its line is what the data rows
    alone produce. *)
Theorem header_printed_first_unvalidated :
  forall (rt : Runtime) (header : list pystr) (rows : list (list pystr)) (w : io),
    read_and_clean_file rt (header :: rows) w
    = (fst (process_rows rt rows empty_io),
       {| std_out := std_out w ++ join [44] header
                       :: std_out (snd (process_rows rt rows empty_io));
          std_err := std_err w ++ std_err (snd (process_rows rt rows empty_io)) |}).
Proof.
  intros rt header rows w. unfold read_and_clean_file.
  rewrite process_rows_frame. f_equal.
  unfold io_app, print. simpl. now rewrite <- app_assoc.
Qed.

(** ** Rows with more than eight fields *)

(** C10: a row with more than eight fields whose timestamp, zip and two
    durations are accepted yields a row of exactly eight fields, built from
    the fields 0 to 5 and 7 only: field 6 and the fields from 8 on do not
    occur in the result; the row is printed, not rejected. *)
Theorem long_rows_keep_first_eight :
  forall (rt : Runtime) (row : list pystr) (ts zip : pystr) (foo bar : pyfloat)
         (w : io),
    (8 < List.length row)%nat ->
    format_timestamp rt (nth 0 row []) = Ok ts ->
    validate_zip rt (nth 2 row []) = Ok zip ->
    convert_duration rt (nth 4 row []) = Ok foo ->
    convert_duration rt (nth 5 row []) = Ok bar ->
    let out := [ts; clean_address (nth 1 row []); zip;
                format_full_name rt (nth 3 row []);
                float_str foo; float_str bar;
                float_str (get_total_duration foo bar); nth 7 row []] in
    clean_and_normalize_row rt row w = (Ok (Some out), w) /\
    List.length out = 8%nat /\
    process_rows rt [row] w = (Ok tt, print (join [44] out) w).
Proof.
  intros rt row ts zip foo bar w Hlen Hts Hzip Hfoo Hbar out.
  destruct row as [| f0 [| f1 [| f2 [| f3 [| f4 [| f5 [| f6 [| f7 extra]]]]]]]];
    simpl in Hlen; try lia.
  simpl in Hts, Hzip, Hfoo, Hbar.
  assert (Hrow : clean_and_normalize_row rt
                   (f0 :: f1 :: f2 :: f3 :: f4 :: f5 :: f6 :: f7 :: extra) w
                 = (Ok (Some out), w)).
  { unfold clean_and_normalize_row, normalize_fields. simpl.
    rewrite Hts. simpl. rewrite Hzip. simpl. rewrite Hfoo. simpl.
    rewrite Hbar. reflexivity. }
  split; [exact Hrow |]. split; [reflexivity |].
  simpl. rewrite Hrow. reflexivity.
Qed.

Lemma long_rows_keep_first_eight_witness :
  let row := sample_row ++ [ustr "more"; ustr "fields"] in
  let foo := float_of_ratio false 7447 2 in
  let bar := float_of_ratio false 1 1 in
  let out := [ustr "2002-10-02T13:00:00-05:00"; clean_address (nth 1 row []);
              ustr "00123"; format_full_name ascii_runtime (nth 3 row []);
              float_str foo; float_str bar;
              float_str (get_total_duration foo bar); nth 7 row []] in
  clean_and_normalize_row ascii_runtime row empty_io = (Ok (Some out), empty_io) /\
  List.length out = 8%nat /\
  process_rows ascii_runtime [row] empty_io
    = (Ok tt, print (join [44] out) empty_io).
Proof.
  apply (long_rows_keep_first_eight ascii_runtime
           (sample_row ++ [ustr "more"; ustr "fields"])
           (ustr "2002-10-02T13:00:00-05:00") (ustr "00123")
           (float_of_ratio false 7447 2) (float_of_ratio false 1 1) empty_io).
  - simpl. lia.
  - vm_compute. reflexivity.
  - vm_compute. reflexivity.
  - vm_compute. reflexivity.
  - vm_compute. reflexivity.
Defined.

(** ** The example timestamp *)

(** C3 fails as stated: ten in the morning, Pacific, is not seven in the
    morning, Eastern. *)
Lemma example_timestamp_is_not_seven :
  format_timestamp ascii_runtime (ustr "10/2/02 10:00:00 AM")
  <> Ok (ustr "2002-10-02T07:00:00-05:00").
Proof. vm_compute. discriminate. Qed.

(** C3, amended: the timestamp normalizer maps ["10/2/02 10:00:00 AM"] to
    ["2002-10-02T13:00:00-05:00"]: ten in the morning at UTC-8 is one in the
    afternoon at UTC-5, the same calendar day. *)
Theorem example_timestamp_is_thirteen :
  forall rt : Runtime,
    format_timestamp rt (ustr "10/2/02 10:00:00 AM")
    = Ok (ustr "2002-10-02T13:00:00-05:00").
Proof. intros rt. vm_compute. reflexivity. Qed.

(** ** Rows with fewer than eight fields *)

Lemma process_rows_cons (rt : Runtime) (row : list pystr)
  (rest : list (list pystr)) (w : io) :
  process_rows rt (row :: rest) w
  = match clean_and_normalize_row rt row w with
    | (Ok normalized_data, w1) =>
        process_rows rt rest
          (match normalized_data with
           | Some data =>
               if truthy normalized_data then print (join [44] data) w1 else w1
           | None => w1
           end)
    | (Raise e, w1) => (Raise e, w1)
    end.
Proof. reflexivity. Qed.

(** C4 fails on the code: a row of seven well-formed fields raises
    [IndexError] at [row[7]]; the handler does not catch it, no warning is
    printed, the exception leaves [read_and_clean_file] and the rows that
    follow are never read. *)
Theorem short_row_aborts_run :
  forall (rt : Runtime) (header : list pystr) (later : list (list pystr)) (w : io),
    (List.length seven_field_row < 8)%nat /\
    clean_and_normalize_row rt seven_field_row w
      = (Raise (IndexError (ustr "list index out of range")), w) /\
    read_and_clean_file rt (header :: seven_field_row :: later) w
      = (Raise (IndexError (ustr "list index out of range")),
         print (join [44] header) w).
Proof.
  intros rt header later w.
  assert (H : forall w0, clean_and_normalize_row rt seven_field_row w0
                         = (Raise (IndexError (ustr "list index out of range")), w0)).
  { intros w0. unfold clean_and_normalize_row.
    replace (normalize_fields rt seven_field_row)
      with (@Raise (list pystr) (IndexError (ustr "list index out of range")))
      by (vm_compute; reflexivity).
    reflexivity. }
  split; [unfold seven_field_row; simpl; lia |]. split; [apply H |].
  unfold read_and_clean_file. rewrite process_rows_cons, H. reflexivity.
Qed.

(** ** The pattern matcher is sound *)

Lemma one_char_sound (A : Type) (p : Z -> bool) (s : pystr)
  (k : pystr -> pystr -> option A) (x : A) :
  one_char p s k = Some x ->
  exists c rest, s = c :: rest /\ p c = true /\ k [c] rest = Some x.
Proof.
  destruct s as [| c rest]; simpl; [discriminate |].
  destruct (p c) eqn:Hp; [| discriminate].
  intros H. now exists c, rest.
Qed.

Lemma plus_match_sound (A : Type) (p : Z -> bool) (s : pystr) :
  forall (k : pystr -> pystr -> option A) (x : A),
    plus_match p s k = Some x ->
    exists m rest, s = m ++ rest /\ m <> [] /\ Forall (fun c => p c = true) m
                   /\ k m rest = Some x.
Proof.
  induction s as [| c s' IH]; intros k x; simpl; [discriminate |].
  destruct (p c) eqn:Hp; [| discriminate].
  destruct (plus_match p s' (fun m r => k (c :: m) r)) as [y |] eqn:Hrec.
  - intros Hy. injection Hy as ->.
    destruct (IH _ _ Hrec) as (m & rest & -> & Hne & Hall & Hk).
    exists (c :: m), rest. repeat split; try assumption.
    + discriminate.
    + now constructor.
  - intros Hk. exists [c], s'. repeat split; try assumption.
    + discriminate.
    + now repeat constructor.
Qed.

Lemma rmatch_sound (rt : Runtime) (A : Type) (r : re) :
  forall (s : pystr) (caps : captures)
         (k : pystr -> captures -> pystr -> option A) (x : A),
    rmatch rt r s caps k = Some x ->
    exists m rest caps',
      s = m ++ rest /\ matches rt r m caps caps' /\ k m caps' rest = Some x.
Proof.
  induction r as [c | lo hi | | | a IHa b IHb | a IHa b IHb | g a IHa];
    intros s caps k x H; simpl in H.
  - apply one_char_sound in H. destruct H as (c0 & rest & -> & Hp & Hk).
    exists [c0], rest, caps. repeat split; try assumption.
    constructor. now apply Z.eqb_eq.
  - apply one_char_sound in H. destruct H as (c0 & rest & -> & Hp & Hk).
    exists [c0], rest, caps. repeat split; try assumption.
    constructor. lia.
  - apply one_char_sound in H. destruct H as (c0 & rest & -> & Hp & Hk).
    exists [c0], rest, caps. repeat split; try assumption.
    now constructor.
  - apply plus_match_sound in H. destruct H as (m & rest & -> & Hne & Hall & Hk).
    exists m, rest, caps. repeat split; try assumption.
    now constructor.
  - apply IHa in H. destruct H as (m1 & s1 & c1 & -> & Ha & H).
    apply IHb in H. destruct H as (m2 & s2 & c2 & -> & Hb & H).
    exists (m1 ++ m2), s2, c2. rewrite <- app_assoc. repeat split; try assumption.
    econstructor; eassumption.
  - destruct (rmatch rt a s caps k) as [y |] eqn:Ha.
    + injection H as ->. apply IHa in Ha.
      destruct Ha as (m & rest & c1 & -> & Hm & Hk).
      exists m, rest, c1. repeat split; try assumption. now apply M_alt_l.
    + apply IHb in H. destruct H as (m & rest & c1 & -> & Hm & Hk).
      exists m, rest, c1. repeat split; try assumption. now apply M_alt_r.
  - apply IHa in H. destruct H as (m & rest & c1 & -> & Hm & Hk).
    exists m, rest, ((g, m) :: c1). repeat split; try assumption.
    now constructor.
Qed.


(** ** The calendar *)

Lemma In_Zseq (lo : Z) (n : nat) (x : Z) :
  lo <= x < lo + Z.of_nat n -> In x (Zseq lo n).
Proof.
  intros H. unfold Zseq. apply in_map_iff. exists (Z.to_nat (x - lo)). split.
  - rewrite Z2Nat.id; lia.
  - apply in_seq. lia.
Qed.

Lemma date_eqb_eq (a b : Z * Z * Z) : date_eqb a b = true -> a = b.
Proof.
  destruct a as [[y m] d], b as [[y' m'] d']. simpl. intros H.
  apply andb_prop in H. destruct H as [H Hd].
  apply andb_prop in H. destruct H as [Hy Hm].
  apply Z.eqb_eq in Hy, Hm, Hd. now subst.
Qed.

Lemma all_dates_ok : forallb check_triple all_dates = true.
Proof. vm_compute. reflexivity. Qed.

Lemma check_date_true (yy m d : Z) :
  0 <= yy <= 99 -> 1 <= m <= 12 -> 1 <= d <= 31 -> check_date yy m d = true.
Proof.
  intros Hyy Hm Hd.
  apply (proj1 (forallb_forall check_triple all_dates) all_dates_ok (yy, (m, d))).
  unfold all_dates. apply in_prod; [| apply in_prod]; apply In_Zseq; lia.
Qed.

Lemma days_in_month_le_31 (y m : Z) : 1 <= m <= 12 -> days_in_month y m <= 31.
Proof.
  intros Hm. unfold days_in_month.
  destruct ((m =? 2) && is_leap y); [lia |].
  assert (Hc : m = 1 \/ m = 2 \/ m = 3 \/ m = 4 \/ m = 5 \/ m = 6 \/ m = 7
               \/ m = 8 \/ m = 9 \/ m = 10 \/ m = 11 \/ m = 12) by lia.
  repeat (destruct Hc as [-> | Hc]; [vm_compute; discriminate |]).
  subst m. vm_compute. discriminate.
Qed.

(** On the dates of 1969 to 2068: the months have the lengths of the
    calendar, [ord2ymd] inverts [ymd2ord], and the next ordinal is the next
    day. *)
Lemma date_facts (yy m d : Z) :
  0 <= yy <= 99 -> 1 <= m <= 12 -> 1 <= d <= days_in_month (full_year yy) m ->
  days_in_month (full_year yy) m = month_length (full_year yy) m /\
  first_ordinal <= ymd2ord (full_year yy) m d < last_ordinal /\
  ord2ymd (ymd2ord (full_year yy) m d) = (full_year yy, m, d) /\
  ord2ymd (ymd2ord (full_year yy) m d + 1) = next_day (full_year yy) m d /\
  ymd2ord (fst (fst (next_day (full_year yy) m d)))
          (snd (fst (next_day (full_year yy) m d)))
          (snd (next_day (full_year yy) m d))
    = ymd2ord (full_year yy) m d + 1.
Proof.
  intros Hyy Hm Hd.
  pose proof (days_in_month_le_31 (full_year yy) m Hm) as H31.
  pose proof (check_date_true yy m d Hyy Hm ltac:(lia)) as H.
  unfold check_date in H.
  apply andb_prop in H. destruct H as [Hlen H].
  apply Z.eqb_eq in Hlen.
  destruct (d <=? days_in_month (full_year yy) m) eqn:Hle;
    [| apply Z.leb_gt in Hle; lia].
  apply andb_prop in H. destruct H as [H Hnx].
  apply andb_prop in H. destruct H as [H Hn].
  apply andb_prop in H. destruct H as [H Ho].
  apply andb_prop in H. destruct H as [Hlo Hhi].
  apply Z.leb_le in Hlo. apply Z.ltb_lt in Hhi.
  apply date_eqb_eq in Ho, Hn.
  destruct (next_day (full_year yy) m d) as [[y1 m1] d1].
  apply Z.eqb_eq in Hnx. repeat split; assumption.
Qed.

(** ** Reading the pattern back *)

Lemma matches_chr_inv rt c m c0 c1 :
  matches rt (Chr c) m c0 c1 -> c1 = c0 /\ exists x, m = [x] /\ ascii_lower x = c.
Proof. intros H. inversion H; subst. split; [reflexivity | eauto]. Qed.

Lemma matches_rng_inv rt lo hi m c0 c1 :
  matches rt (Rng lo hi) m c0 c1 -> c1 = c0 /\ exists x, m = [x] /\ lo <= x <= hi.
Proof. intros H. inversion H; subst. split; [reflexivity | eauto]. Qed.

Lemma matches_dig_inv rt m c0 c1 :
  matches rt Dig m c0 c1 ->
  c1 = c0 /\ exists x, m = [x] /\ unicode_isdecimal rt x = true.
Proof. intros H. inversion H; subst. split; [reflexivity | eauto]. Qed.

Lemma matches_spaces_inv rt m c0 c1 :
  matches rt Spaces m c0 c1 -> c1 = c0 /\ blanks m.
Proof. intros H. inversion H; subst. now split. Qed.

Lemma matches_cat_inv rt a b m c0 c2 :
  matches rt (Cat a b) m c0 c2 ->
  exists m1 m2 c1, m = m1 ++ m2 /\ matches rt a m1 c0 c1 /\ matches rt b m2 c1 c2.
Proof. intros H. inversion H; subst. do 3 eexists. eauto. Qed.

Lemma matches_alt_inv rt a b m c0 c1 :
  matches rt (Alt a b) m c0 c1 -> matches rt a m c0 c1 \/ matches rt b m c0 c1.
Proof. intros H. inversion H; subst; [now left | now right]. Qed.

Lemma matches_grp_inv rt g a m c0 c1 :
  matches rt (Grp g a) m c0 c1 ->
  exists c, c1 = (g, m) :: c /\ matches rt a m c0 c.
Proof. intros H. inversion H; subst. now eexists. Qed.

Lemma ascii_lower_uncased (x c : Z) :
  ascii_lower x = c -> c < 97 \/ 122 < c -> x = c.
Proof.
  unfold ascii_lower. intros H Hc.
  destruct ((65 <=? x) && (x <=? 90)) eqn:E; [| assumption].
  apply andb_prop in E. destruct E as [E1 E2].
  apply Z.leb_le in E1, E2. lia.
Qed.

Ltac eval_chr :=
  repeat match goal with
         | H : context [chr_of ?a] |- _ =>
             let v := eval vm_compute in (chr_of a) in
             change (chr_of a) with v in H
         | |- context [chr_of ?a] =>
             let v := eval vm_compute in (chr_of a) in
             change (chr_of a) with v
         end.

Lemma cat_chr_rng_inv rt c lo hi m c0 c1 :
  matches rt (Cat (Chr c) (Rng lo hi)) m c0 c1 -> c < 97 \/ 122 < c ->
  c1 = c0 /\ exists x, m = [c; x] /\ lo <= x <= hi.
Proof.
  intros H Hc. apply matches_cat_inv in H.
  destruct H as (m1 & m2 & c' & -> & H1 & H2).
  apply matches_chr_inv in H1. destruct H1 as [-> (x & -> & Hx)].
  apply matches_rng_inv in H2. destruct H2 as [-> (y & -> & Hy)].
  apply ascii_lower_uncased in Hx; [| assumption]. subst x.
  split; [reflexivity |]. now exists y.
Qed.

Lemma cat_rng_dig_inv rt lo hi m c0 c1 :
  matches rt (Cat (Rng lo hi) Dig) m c0 c1 ->
  c1 = c0 /\ exists x y, m = [x; y] /\ lo <= x <= hi
                         /\ unicode_isdecimal rt y = true.
Proof.
  intros H. apply matches_cat_inv in H.
  destruct H as (m1 & m2 & c' & -> & H1 & H2).
  apply matches_rng_inv in H1. destruct H1 as [-> (x & -> & Hx)].
  apply matches_dig_inv in H2. destruct H2 as [-> (y & -> & Hy)].
  split; [reflexivity |]. now exists x, y.
Qed.

Lemma cat_dig_dig_inv rt m c0 c1 :
  matches rt (Cat Dig Dig) m c0 c1 ->
  c1 = c0 /\ exists x y, m = [x; y] /\ unicode_isdecimal rt x = true
                         /\ unicode_isdecimal rt y = true.
Proof.
  intros H. apply matches_cat_inv in H.
  destruct H as (m1 & m2 & c' & -> & H1 & H2).
  apply matches_dig_inv in H1. destruct H1 as [-> (x & -> & Hx)].
  apply matches_dig_inv in H2. destruct H2 as [-> (y & -> & Hy)].
  split; [reflexivity |]. now exists x, y.
Qed.

Lemma cat_chr_chr_inv rt a b m c0 c1 :
  matches rt (Cat (Chr a) (Chr b)) m c0 c1 ->
  c1 = c0 /\ exists x y, m = [x; y] /\ ascii_lower x = a /\ ascii_lower y = b.
Proof.
  intros H. apply matches_cat_inv in H.
  destruct H as (m1 & m2 & c' & -> & H1 & H2).
  apply matches_chr_inv in H1. destruct H1 as [-> (x & -> & Hx)].
  apply matches_chr_inv in H2. destruct H2 as [-> (y & -> & Hy)].
  split; [reflexivity |]. now exists x, y.
Qed.

Lemma one_to_twelve_inv rt m c0 c1 :
  matches rt re_1_to_12 m c0 c1 -> c1 = c0 /\ one_to_twelve_text m.
Proof.
  unfold re_1_to_12, one_to_twelve_text, digit_between. intros H. eval_chr.
  apply matches_alt_inv in H. destruct H as [H | H].
  { apply cat_chr_rng_inv in H; [| lia]. destruct H as [-> (x & -> & Hx)].
    split; [reflexivity |]. left. exists x. split; [reflexivity | lia]. }
  apply matches_alt_inv in H. destruct H as [H | H].
  { apply cat_chr_rng_inv in H; [| lia]. destruct H as [-> (x & -> & Hx)].
    split; [reflexivity |]. right. left. exists x. split; [reflexivity | lia]. }
  apply matches_rng_inv in H. destruct H as [-> (x & -> & Hx)].
  split; [reflexivity |]. right. right. exists x. split; [reflexivity | lia].
Qed.

Lemma day_inv rt m c0 c1 :
  matches rt re_d m c0 c1 -> c1 = (Gd, m) :: c0 /\ day_text rt m.
Proof.
  unfold re_d, day_text, digit_between. intros H. eval_chr.
  apply matches_grp_inv in H. destruct H as (c & -> & H).
  apply matches_alt_inv in H. destruct H as [H | H].
  { apply cat_chr_rng_inv in H; [| lia]. destruct H as [-> (x & -> & Hx)].
    split; [reflexivity |]. left. exists x. split; [reflexivity | lia]. }
  apply matches_alt_inv in H. destruct H as [H | H].
  { apply cat_rng_dig_inv in H. destruct H as [-> (x & y & -> & Hx & Hy)].
    split; [reflexivity |]. right. left. exists x, y.
    split; [reflexivity |]. split; [lia | assumption]. }
  apply matches_alt_inv in H. destruct H as [H | H].
  { apply cat_chr_rng_inv in H; [| lia]. destruct H as [-> (x & -> & Hx)].
    split; [reflexivity |]. right. right. left.
    exists x. split; [reflexivity | lia]. }
  apply matches_alt_inv in H. destruct H as [H | H].
  { apply matches_rng_inv in H. destruct H as [-> (x & -> & Hx)].
    split; [reflexivity |]. right. right. right. left.
    exists x. split; [reflexivity | lia]. }
  apply cat_chr_rng_inv in H; [| lia]. destruct H as [-> (x & -> & Hx)].
  split; [reflexivity |]. right. right. right. right.
  exists x. split; [reflexivity | lia].
Qed.

Lemma minute_alt_inv rt m c0 c1 :
  matches rt (Alt (Cat (Rng 48 53) Dig) Dig) m c0 c1 ->
  c1 = c0 /\ minute_text rt m.
Proof.
  unfold minute_text, digit_between. intros H.
  apply matches_alt_inv in H. destruct H as [H | H].
  { apply cat_rng_dig_inv in H. destruct H as [-> (x & y & -> & Hx & Hy)].
    split; [reflexivity |]. left. exists x, y.
    split; [reflexivity |]. split; [lia | assumption]. }
  apply matches_dig_inv in H. destruct H as [-> (x & -> & Hx)].
  split; [reflexivity |]. right. now exists x.
Qed.

Lemma minute_inv rt m c0 c1 :
  matches rt re_M m c0 c1 -> c1 = (GM, m) :: c0 /\ minute_text rt m.
Proof.
  unfold re_M. intros H. eval_chr.
  apply matches_grp_inv in H. destruct H as (c & -> & H).
  apply minute_alt_inv in H. destruct H as [-> H]. now split.
Qed.

Lemma second_inv rt m c0 c1 :
  matches rt re_S m c0 c1 -> c1 = (GS, m) :: c0 /\ second_text rt m.
Proof.
  unfold re_S, second_text, digit_between. intros H. eval_chr.
  apply matches_grp_inv in H. destruct H as (c & -> & H).
  apply matches_alt_inv in H. destruct H as [H | H].
  { apply cat_chr_rng_inv in H; [| lia]. destruct H as [-> (x & -> & Hx)].
    split; [reflexivity |]. left. exists x. split; [reflexivity | lia]. }
  apply minute_alt_inv in H. destruct H as [-> H].
  split; [reflexivity |]. now right.
Qed.

Lemma ampm_inv rt m c0 c1 :
  matches rt re_p m c0 c1 -> c1 = (Gp, m) :: c0 /\ ampm_text m.
Proof.
  unfold re_p, ampm_text. intros H. eval_chr.
  apply matches_grp_inv in H. destruct H as (c & -> & H).
  apply matches_alt_inv in H.
  destruct H as [H | H]; apply cat_chr_chr_inv in H;
    destruct H as [-> (x & y & -> & Hx & Hy)];
    (split; [reflexivity |]); [left | right];
    unfold lower_str; simpl; now rewrite Hx, Hy.
Qed.

Lemma chr_uncased_inv rt c m c0 c1 :
  matches rt (Chr c) m c0 c1 -> c < 97 \/ 122 < c -> c1 = c0 /\ m = [c].
Proof.
  intros H Hc. apply matches_chr_inv in H. destruct H as [-> (x & -> & Hx)].
  apply ascii_lower_uncased in Hx; [| assumption]. now subst.
Qed.

(** What the pattern of the script matches, and the groups it records. *)
Lemma format_regex_inv rt m c0 c1 :
  matches rt format_regex m c0 c1 ->
  exists mo d y w1 h mi se w2 p,
    m = mo ++ [47] ++ d ++ [47] ++ y ++ w1 ++ h ++ [58] ++ mi ++ [58] ++ se
        ++ w2 ++ p /\
    c1 = [(Gp, p); (GS, se); (GM, mi); (GI, h); (Gy, y); (Gd, d); (Gm, mo)] ++ c0 /\
    one_to_twelve_text mo /\ day_text rt d /\ year_text rt y /\ blanks w1 /\
    one_to_twelve_text h /\ minute_text rt mi /\ second_text rt se /\
    blanks w2 /\ ampm_text p.
Proof.
  unfold format_regex. intros H. eval_chr.
  apply matches_cat_inv in H. destruct H as (mo & r1 & k1 & -> & Hmo & H).
  apply matches_cat_inv in H. destruct H as (s1 & r2 & k2 & -> & Hs1 & H).
  apply matches_cat_inv in H. destruct H as (d & r3 & k3 & -> & Hd & H).
  apply matches_cat_inv in H. destruct H as (s2 & r4 & k4 & -> & Hs2 & H).
  apply matches_cat_inv in H. destruct H as (y & r5 & k5 & -> & Hy & H).
  apply matches_cat_inv in H. destruct H as (w1 & r6 & k6 & -> & Hw1 & H).
  apply matches_cat_inv in H. destruct H as (h & r7 & k7 & -> & Hh & H).
  apply matches_cat_inv in H. destruct H as (s3 & r8 & k8 & -> & Hs3 & H).
  apply matches_cat_inv in H. destruct H as (mi & r9 & k9 & -> & Hmi & H).
  apply matches_cat_inv in H. destruct H as (s4 & r10 & k10 & -> & Hs4 & H).
  apply matches_cat_inv in H. destruct H as (se & r11 & k11 & -> & Hse & H).
  apply matches_cat_inv in H. destruct H as (w2 & p & k12 & -> & Hw2 & Hp).
  unfold re_m in Hmo. apply matches_grp_inv in Hmo. destruct Hmo as (c & -> & Hmo).
  apply one_to_twelve_inv in Hmo. destruct Hmo as [-> Hmo].
  apply chr_uncased_inv in Hs1; [| lia]. destruct Hs1 as [-> ->].
  apply day_inv in Hd. destruct Hd as [-> Hd].
  apply chr_uncased_inv in Hs2; [| lia]. destruct Hs2 as [-> ->].
  unfold re_y in Hy. apply matches_grp_inv in Hy. destruct Hy as (c & -> & Hy).
  apply cat_dig_dig_inv in Hy. destruct Hy as [-> Hy].
  apply matches_spaces_inv in Hw1. destruct Hw1 as [-> Hw1].
  unfold re_I in Hh. apply matches_grp_inv in Hh. destruct Hh as (c & -> & Hh).
  apply one_to_twelve_inv in Hh. destruct Hh as [-> Hh].
  apply chr_uncased_inv in Hs3; [| lia]. destruct Hs3 as [-> ->].
  apply minute_inv in Hmi. destruct Hmi as [-> Hmi].
  apply chr_uncased_inv in Hs4; [| lia]. destruct Hs4 as [-> ->].
  apply second_inv in Hse. destruct Hse as [-> Hse].
  apply matches_spaces_inv in Hw2. destruct Hw2 as [-> Hw2].
  apply ampm_inv in Hp. destruct Hp as [-> Hp].
  exists mo, d, y, w1, h, mi, se, w2, p.
  split; [reflexivity |]. split; [reflexivity |].
  repeat (split; [assumption |]). assumption.
Qed.

(** ** [int] on the texts of the directives *)

Lemma unicode_decimal_range rt c d :
  unicode_decimal rt c = Some d -> 0 <= d <= 9.
Proof.
  unfold unicode_decimal, is_ascii_digit.
  destruct (c <? 128).
  - destruct ((48 <=? c) && (c <=? 57)) eqn:E; [| discriminate].
    intros H. injection H as <-. apply andb_prop in E. destruct E as [E1 E2].
    apply Z.leb_le in E1, E2. lia.
  - destruct (unicode_isspace c); [discriminate |].
    destruct (find _ _) as [z |] eqn:E; [| discriminate].
    intros H. injection H as <-. apply find_some in E. destruct E as [_ E].
    apply andb_prop in E. destruct E as [E1 E2].
    apply Z.leb_le in E1. apply Z.ltb_lt in E2. lia.
Qed.

Lemma unicode_decimal_ascii rt c :
  48 <= c <= 57 -> unicode_decimal rt c = Some (c - 48).
Proof.
  intros H. unfold unicode_decimal, is_ascii_digit.
  replace (c <? 128) with true by (symmetry; apply Z.ltb_lt; lia).
  replace (48 <=? c) with true by (symmetry; apply Z.leb_le; lia).
  replace (c <=? 57) with true by (symmetry; apply Z.leb_le; lia).
  reflexivity.
Qed.

Lemma unicode_isdecimal_value rt c :
  unicode_isdecimal rt c = true ->
  exists d, unicode_decimal rt c = Some d /\ 0 <= d <= 9.
Proof.
  unfold unicode_isdecimal. destruct (unicode_decimal rt c) as [d |] eqn:E;
    [| discriminate].
  intros _. exists d. split; [reflexivity |]. exact (unicode_decimal_range _ _ _ E).
Qed.

(** A decimal digit is either an ASCII digit or lies above ASCII and is no
    blank. *)
Lemma unicode_decimal_cases rt c d :
  unicode_decimal rt c = Some d ->
  (c = 48 + d /\ 0 <= d <= 9) \/ (128 <= c /\ unicode_isspace c = false).
Proof.
  intros H. pose proof (unicode_decimal_range _ _ _ H) as Hd.
  unfold unicode_decimal, is_ascii_digit in H.
  destruct (c <? 128) eqn:E.
  - destruct ((48 <=? c) && (c <=? 57)); [| discriminate].
    injection H as <-. left. lia.
  - apply Z.ltb_ge in E. right. split; [assumption |].
    destruct (unicode_isspace c); [discriminate | reflexivity].
Qed.

Lemma transform_chars_decimal rt c d rest :
  unicode_decimal rt c = Some d ->
  transform_chars rt (c :: rest) = (48 + d) :: transform_chars rt rest.
Proof.
  intros H. simpl. destruct (unicode_decimal_cases _ _ _ H) as [[-> Hd] | [Hc Hs]].
  - replace (48 + d <? 127) with true by (symmetry; apply Z.ltb_lt; lia).
    reflexivity.
  - replace (c <? 127) with false by (symmetry; apply Z.ltb_ge; lia).
    now rewrite Hs, H.
Qed.

Lemma transform_chars_ascii rt c rest :
  c < 127 -> transform_chars rt (c :: rest) = c :: transform_chars rt rest.
Proof.
  intros H. simpl.
  replace (c <? 127) with true by (symmetry; apply Z.ltb_lt; lia). reflexivity.
Qed.

Lemma transform_one_decimal rt a da :
  unicode_decimal rt a = Some da ->
  transform_decimal_and_space rt [a] = [48 + da].
Proof.
  intros Ha. unfold transform_decimal_and_space.
  destruct (forallb _ _) eqn:E.
  - simpl in E. rewrite andb_true_r in E. apply Z.ltb_lt in E.
    destruct (unicode_decimal_cases _ _ _ Ha) as [[-> _] | [Hc _]];
      [reflexivity | lia].
  - now rewrite (transform_chars_decimal _ _ _ _ Ha).
Qed.

Lemma transform_two_decimals rt a b da db :
  unicode_decimal rt a = Some da -> unicode_decimal rt b = Some db ->
  transform_decimal_and_space rt [a; b] = [48 + da; 48 + db].
Proof.
  intros Ha Hb. unfold transform_decimal_and_space.
  destruct (forallb _ _) eqn:E.
  - simpl in E. rewrite andb_true_r in E. apply andb_prop in E.
    destruct E as [E1 E2]. apply Z.ltb_lt in E1, E2.
    destruct (unicode_decimal_cases _ _ _ Ha) as [[-> _] | [Hc _]]; [| lia].
    destruct (unicode_decimal_cases _ _ _ Hb) as [[-> _] | [Hc _]]; [| lia].
    reflexivity.
  - rewrite (transform_chars_decimal _ _ _ _ Ha).
    now rewrite (transform_chars_decimal _ _ _ _ Hb).
Qed.

Lemma transform_space_digit rt b db :
  unicode_decimal rt b = Some db ->
  transform_decimal_and_space rt [32; b] = [32; 48 + db].
Proof.
  intros Hb. unfold transform_decimal_and_space.
  destruct (forallb _ _) eqn:E.
  - simpl in E. rewrite andb_true_r in E. apply Z.ltb_lt in E.
    destruct (unicode_decimal_cases _ _ _ Hb) as [[-> _] | [Hc _]]; [| lia].
    reflexivity.
  - rewrite transform_chars_ascii by lia.
    now rewrite (transform_chars_decimal _ _ _ _ Hb).
Qed.

Ltac enum_digit d :=
  let H := fresh in
  assert (H : d = 0 \/ d = 1 \/ d = 2 \/ d = 3 \/ d = 4 \/ d = 5 \/ d = 6
              \/ d = 7 \/ d = 8 \/ d = 9) by lia;
  repeat (destruct H as [H | H]; [subst d |]); [.. | subst d].

Lemma py_int_one_digit rt s d :
  transform_decimal_and_space rt s = [48 + d] -> 0 <= d <= 9 ->
  py_int rt s = Ok d.
Proof.
  intros H Hd. unfold py_int. rewrite H. clear H.
  enum_digit d; vm_compute; reflexivity.
Qed.

Lemma py_int_two_digits rt s d e :
  transform_decimal_and_space rt s = [48 + d; 48 + e] ->
  0 <= d <= 9 -> 0 <= e <= 9 ->
  py_int rt s = Ok (10 * d + e).
Proof.
  intros H Hd He. unfold py_int. rewrite H. clear H.
  enum_digit d; enum_digit e; vm_compute; reflexivity.
Qed.

Lemma py_int_space_digit rt s d :
  transform_decimal_and_space rt s = [32; 48 + d] -> 0 <= d <= 9 ->
  py_int rt s = Ok d.
Proof.
  intros H Hd. unfold py_int. rewrite H. clear H.
  enum_digit d; vm_compute; reflexivity.
Qed.

Lemma py_int_decimal rt a da :
  unicode_decimal rt a = Some da -> py_int rt [a] = Ok da.
Proof.
  intros Ha. apply py_int_one_digit.
  - now apply transform_one_decimal.
  - exact (unicode_decimal_range _ _ _ Ha).
Qed.

Lemma py_int_decimals rt a b da db :
  unicode_decimal rt a = Some da -> unicode_decimal rt b = Some db ->
  py_int rt [a; b] = Ok (10 * da + db).
Proof.
  intros Ha Hb. apply py_int_two_digits.
  - now apply transform_two_decimals.
  - exact (unicode_decimal_range _ _ _ Ha).
  - exact (unicode_decimal_range _ _ _ Hb).
Qed.

Lemma py_int_blank_decimal rt b db :
  unicode_decimal rt b = Some db -> py_int rt [32; b] = Ok db.
Proof.
  intros Hb. apply py_int_space_digit.
  - now apply transform_space_digit.
  - exact (unicode_decimal_range _ _ _ Hb).
Qed.

Lemma one_to_twelve_value rt t :
  one_to_twelve_text t -> exists v, py_int rt t = Ok v /\ 1 <= v <= 12.
Proof.
  unfold one_to_twelve_text, digit_between.
  intros [(x & -> & Hx) | [(x & -> & Hx) | (x & -> & Hx)]].
  - exists (10 * 1 + (x - 48)). split; [| lia].
    apply py_int_decimals; apply unicode_decimal_ascii; lia.
  - exists (10 * 0 + (x - 48)). split; [| lia].
    apply py_int_decimals; apply unicode_decimal_ascii; lia.
  - exists (x - 48). split; [| lia].
    apply py_int_decimal; apply unicode_decimal_ascii; lia.
Qed.

Lemma day_value rt t :
  day_text rt t -> exists v, py_int rt t = Ok v /\ 1 <= v <= 31.
Proof.
  unfold day_text, digit_between.
  intros [(x & -> & Hx) | [(x & y & -> & Hx & Hy) | [(x & -> & Hx)
          | [(x & -> & Hx) | (x & -> & Hx)]]]].
  - exists (10 * 3 + (x - 48)). split; [| lia].
    apply py_int_decimals; apply unicode_decimal_ascii; lia.
  - apply unicode_isdecimal_value in Hy. destruct Hy as (dy & Hy & Hr).
    exists (10 * (x - 48) + dy). split; [| lia].
    apply py_int_decimals; [apply unicode_decimal_ascii; lia | assumption].
  - exists (10 * 0 + (x - 48)). split; [| lia].
    apply py_int_decimals; apply unicode_decimal_ascii; lia.
  - exists (x - 48). split; [| lia].
    apply py_int_decimal; apply unicode_decimal_ascii; lia.
  - exists (x - 48). split; [| lia].
    apply py_int_blank_decimal; apply unicode_decimal_ascii; lia.
Qed.

Lemma year_value rt t :
  year_text rt t -> exists v, py_int rt t = Ok v /\ 0 <= v <= 99.
Proof.
  intros (x & y & -> & Hx & Hy).
  apply unicode_isdecimal_value in Hx, Hy.
  destruct Hx as (dx & Hx & Hrx). destruct Hy as (dy & Hy & Hry).
  exists (10 * dx + dy). split; [| lia]. now apply py_int_decimals.
Qed.

Lemma minute_value rt t :
  minute_text rt t -> exists v, py_int rt t = Ok v /\ 0 <= v <= 59.
Proof.
  unfold minute_text, digit_between.
  intros [(x & y & -> & Hx & Hy) | (x & -> & Hx)].
  - apply unicode_isdecimal_value in Hy. destruct Hy as (dy & Hy & Hr).
    exists (10 * (x - 48) + dy). split; [| lia].
    apply py_int_decimals; [apply unicode_decimal_ascii; lia | assumption].
  - apply unicode_isdecimal_value in Hx. destruct Hx as (dx & Hx & Hr).
    exists dx. split; [| lia]. now apply py_int_decimal.
Qed.

Lemma second_value rt t :
  second_text rt t -> exists v, py_int rt t = Ok v /\ 0 <= v <= 61.
Proof.
  unfold second_text, digit_between. intros [(x & -> & Hx) | H].
  - exists (10 * 6 + (x - 48)). split; [| lia].
    apply py_int_decimals; apply unicode_decimal_ascii; lia.
  - destruct (minute_value rt t H) as (v & Hv & Hr). exists v. split; [assumption | lia].
Qed.

(** ** [strptime] *)

Lemma py_int_raises rt s e :
  py_int rt s = Raise e -> exists msg, e = ValueError msg.
Proof.
  unfold py_int, int_invalid_literal, int_limit_exceeded.
  destruct (match lstrip py_isspace (transform_decimal_and_space rt s) with
            | 43 :: r => (false, r)
            | 45 :: r => (true, r)
            | _ => (false, lstrip py_isspace (transform_decimal_and_space rt s))
            end) as [neg b].
  assert (Hscan : match scan_digits b false 0 0 with
      | Some (v, nd, rest) =>
          if nd =? 0 then Raise (int_invalid_literal rt s)
          else if (640 <? nd) && (0 <? rt_int_max_str_digits rt)
                  && (rt_int_max_str_digits rt <? nd)
          then Raise (int_limit_exceeded rt nd)
          else match lstrip py_isspace rest with
               | [] => Ok (if neg then - v else v)
               | _ :: _ => Raise (int_invalid_literal rt s)
               end
      | None => Raise (int_invalid_literal rt s)
      end = Raise e -> exists msg, e = ValueError msg).
  { destruct (scan_digits b false 0 0) as [[[v nd] rest] |].
    - destruct (nd =? 0); [intros H; injection H as <-; eexists; reflexivity |].
      destruct ((640 <? nd) && (0 <? rt_int_max_str_digits rt)
                && (rt_int_max_str_digits rt <? nd));
        [intros H; injection H as <-; eexists; reflexivity |].
      destruct (lstrip py_isspace rest); [discriminate |].
      intros H; injection H as <-; eexists; reflexivity.
    - intros H; injection H as <-; eexists; reflexivity. }
  destruct b as [| c b']; [exact Hscan |].
  destruct (Z.eq_dec c 95) as [-> | Hne].
  - intros H; injection H as <-; eexists; reflexivity.
  - intros H. apply Hscan.
    destruct c as [| p | p]; try exact H.
    do 7 (destruct p as [p | p |]; try exact H). 
    all: try (exfalso; apply Hne; reflexivity).
Qed.

Lemma py_float_raises rt s e :
  py_float rt s = Raise e -> exists msg, e = ValueError msg.
Proof.
  unfold py_float, float_invalid.
  destruct (lstrip py_isspace (transform_decimal_and_space rt s)) as [| c b];
    [intros H; injection H as <-; eexists; reflexivity |].
  destruct (if contains 95 (rev (lstrip py_isspace (rev (c :: b))))
            then strip_underscores 0 (rev (lstrip py_isspace (rev (c :: b))))
            else Some (rev (lstrip py_isspace (rev (c :: b))))) as [b' |];
    [| intros H; injection H as <-; eexists; reflexivity].
  destruct (match parse_inf_or_nan b' with
            | Some r => Some r
            | None => parse_decimal b'
            end) as [[x [| c' r]] |];
    [discriminate | |]; intros H; injection H as <-; eexists; reflexivity.
Qed.

Lemma bind_ok {A B} (r : result A) (k : A -> result B) (b : B) :
  bind r k = Ok b -> exists a, r = Ok a /\ k a = Ok b.
Proof. destruct r as [a | e]; simpl; [| discriminate]. intros H. now exists a. Qed.

Lemma bind_raise {A B} (r : result A) (k : A -> result B) (e : exn) :
  bind r k = Raise e -> r = Raise e \/ exists a, r = Ok a /\ k a = Raise e.
Proof.
  destruct r as [a | e']; simpl; intros H.
  - right. now exists a.
  - left. now injection H as ->.
Qed.

Lemma re_match_shape rt s found rest :
  re_match rt format_regex s = Some (found, rest) ->
  exists mo d y w1 h mi se w2 p,
    s = (mo ++ [47] ++ d ++ [47] ++ y ++ w1 ++ h ++ [58] ++ mi ++ [58] ++ se
         ++ w2 ++ p) ++ rest /\
    found = [(Gp, p); (GS, se); (GM, mi); (GI, h); (Gy, y); (Gd, d); (Gm, mo)] /\
    one_to_twelve_text mo /\ day_text rt d /\ year_text rt y /\ blanks w1 /\
    one_to_twelve_text h /\ minute_text rt mi /\ second_text rt se /\
    blanks w2 /\ ampm_text p.
Proof.
  unfold re_match. intros H. apply rmatch_sound in H.
  destruct H as (m & rest' & caps & -> & Hm & Heq).
  injection Heq as -> ->.
  apply format_regex_inv in Hm.
  destruct Hm as (mo & d & y & w1 & h & mi & se & w2 & p & -> & -> & Hrest).
  exists mo, d, y, w1, h, mi, se, w2, p.
  split; [reflexivity |]. split; [reflexivity | exact Hrest].
Qed.

Lemma strptime_raises rt s e :
  strptime rt s = Raise e -> exists msg, e = ValueError msg.
Proof.
  unfold strptime.
  destruct (re_match rt format_regex s) as [[found rest] |];
    [| intros H; injection H as <-; eexists; reflexivity].
  destruct rest; [| intros H; injection H as <-; eexists; reflexivity].
  intros H.
  repeat (apply bind_raise in H;
          destruct H as [H | (? & _ & H)]; [exact (py_int_raises _ _ _ H) |]).
  destruct (negb _); [injection H as <-; eexists; reflexivity |].
  destruct (negb _); [injection H as <-; eexists; reflexivity | discriminate].
Qed.

Lemma full_year_code (y : Z) :
  (if y <=? 68 then y + 2000 else y + 1900) = full_year y.
Proof. unfold full_year. destruct (y <=? 68); lia. Qed.

Lemma strptime_ok rt s d :
  strptime rt s = Ok d -> strptime_shape rt s /\ parsed_fields d.
Proof.
  unfold strptime.
  destruct (re_match rt format_regex s) as [[found rest] |] eqn:E; [| discriminate].
  destruct rest as [| c rest]; [| discriminate].
  apply re_match_shape in E.
  destruct E as (mo & dd & y & w1 & h & mi & se & w2 & p & -> & -> & Hmo & Hd
                 & Hy & Hw1 & Hh & Hmi & Hse & Hw2 & Hp).
  rewrite app_nil_r.
  unfold group_or_empty. simpl group.
  destruct (one_to_twelve_value rt mo Hmo) as (vmo & -> & Rmo).
  destruct (day_value rt dd Hd) as (vd & -> & Rd).
  destruct (year_value rt y Hy) as (vy & -> & Ry).
  destruct (one_to_twelve_value rt h Hh) as (vh & -> & Rh).
  destruct (minute_value rt mi Hmi) as (vmi & -> & Rmi).
  destruct (second_value rt se Hse) as (vse & -> & Rse).
  simpl bind. rewrite full_year_code.
  destruct (negb ((1 <=? vd) && (vd <=? days_in_month (full_year vy) vmo))) eqn:Ed;
    [discriminate |].
  destruct (negb ((0 <=? vse) && (vse <=? 59))) eqn:Es; [discriminate |].
  intros H. injection H as <-.
  apply negb_false_iff in Ed, Es. apply andb_prop in Ed, Es.
  destruct Ed as [Ed1 Ed2]. destruct Es as [Es1 Es2].
  apply Z.leb_le in Ed1, Ed2, Es1, Es2.
  split.
  - exists mo, dd, y, w1, h, mi, se, w2, p. split; [reflexivity |].
    repeat (split; [assumption |]). assumption.
  - unfold parsed_fields. simpl.
    split; [exists vy; split; [assumption | reflexivity] |].
    repeat (split; [lia |]).
    split; [| split; [lia | split; [lia | reflexivity]]].
    destruct Hp as [-> | ->]; simpl; destruct (Z.eqb_spec vh 12); lia.
Qed.

(** ** Arithmetic on [datetime] values *)

Lemma first_ordinal_eq : first_ordinal = 718798.
Proof. reflexivity. Qed.

Lemma last_ordinal_eq : last_ordinal = 755323.
Proof. reflexivity. Qed.

(** [datetime_add] when the seconds of the day carry [q] days. *)
Lemma datetime_add_spec (d : datetime) (delta q hh : Z) :
  0 <= dt_minute d <= 59 -> 0 <= dt_second d <= 59 -> 0 <= hh <= 23 ->
  dt_hour d * 3600 + delta = q * 86400 + hh * 3600 ->
  0 < ymd2ord (dt_year d) (dt_month d) (dt_day d) + q <= MAXORDINAL ->
  datetime_add d delta
  = Ok {| dt_year := fst (fst (ord2ymd (ymd2ord (dt_year d) (dt_month d) (dt_day d) + q)));
          dt_month := snd (fst (ord2ymd (ymd2ord (dt_year d) (dt_month d) (dt_day d) + q)));
          dt_day := snd (ord2ymd (ymd2ord (dt_year d) (dt_month d) (dt_day d) + q));
          dt_hour := hh; dt_minute := dt_minute d; dt_second := dt_second d;
          dt_tzinfo := dt_tzinfo d |}.
Proof.
  intros Hmi Hse Hhh Heq Hrange. unfold datetime_add.
  set (total := dt_hour d * 3600 + dt_minute d * 60 + dt_second d + delta).
  assert (Ht : total = q * 86400 + (hh * 3600 + dt_minute d * 60 + dt_second d))
    by (unfold total; lia).
  assert (Hq : total / 86400 = q).
  { rewrite Ht. rewrite Z.div_add_l by lia. rewrite Z.div_small; lia. }
  assert (Hr : total mod 86400 = hh * 3600 + dt_minute d * 60 + dt_second d).
  { rewrite Ht. rewrite Z.add_comm, Z.mod_add by lia. apply Z.mod_small. lia. }
  rewrite Hq, Hr.
  assert (Hh : (hh * 3600 + dt_minute d * 60 + dt_second d) / 3600 = hh).
  { rewrite <- Z.add_assoc. rewrite Z.div_add_l by lia. rewrite Z.div_small; lia. }
  assert (Hm : (hh * 3600 + dt_minute d * 60 + dt_second d) mod 3600
               = dt_minute d * 60 + dt_second d).
  { rewrite <- Z.add_assoc. rewrite Z.add_comm, Z.mod_add by lia.
    apply Z.mod_small. lia. }
  rewrite Hh, Hm.
  assert (Hmin : (dt_minute d * 60 + dt_second d) / 60 = dt_minute d).
  { rewrite Z.div_add_l by lia. rewrite Z.div_small; lia. }
  assert (Hsec : (dt_minute d * 60 + dt_second d) mod 60 = dt_second d).
  { rewrite Z.add_comm, Z.mod_add by lia. apply Z.mod_small. lia. }
  rewrite Hmin, Hsec.
  replace (0 <? ymd2ord (dt_year d) (dt_month d) (dt_day d) + q) with true
    by (symmetry; apply Z.ltb_lt; lia).
  replace (ymd2ord (dt_year d) (dt_month d) (dt_day d) + q <=? MAXORDINAL) with true
    by (symmetry; apply Z.leb_le; lia).
  simpl andb. cbv iota.
  destruct (ord2ymd (ymd2ord (dt_year d) (dt_month d) (dt_day d) + q)) as [[y m] dd].
  reflexivity.
Qed.

Arguments ymd2ord : simpl never.
Arguments ord2ymd : simpl never.
Arguments next_day : simpl never.
Arguments datetime_add : simpl never.

Lemma datetime_add_same_day (y m dd h mi se : Z) (tz : option timezone) (delta hh : Z) :
  0 <= mi <= 59 -> 0 <= se <= 59 -> 0 <= hh <= 23 ->
  h * 3600 + delta = hh * 3600 ->
  0 < ymd2ord y m dd <= MAXORDINAL ->
  ord2ymd (ymd2ord y m dd) = (y, m, dd) ->
  datetime_add {| dt_year := y; dt_month := m; dt_day := dd; dt_hour := h;
                  dt_minute := mi; dt_second := se; dt_tzinfo := tz |} delta
  = Ok {| dt_year := y; dt_month := m; dt_day := dd; dt_hour := hh;
          dt_minute := mi; dt_second := se; dt_tzinfo := tz |}.
Proof.
  intros Hmi Hse Hhh Heq Hr Ho.
  rewrite (datetime_add_spec _ delta 0 hh); simpl; try lia.
  now rewrite Z.add_0_r, Ho.
Qed.

Lemma datetime_add_other_day (y m dd h mi se : Z) (tz : option timezone)
  (delta q hh y1 m1 d1 : Z) :
  0 <= mi <= 59 -> 0 <= se <= 59 -> 0 <= hh <= 23 ->
  h * 3600 + delta = q * 86400 + hh * 3600 ->
  0 < ymd2ord y m dd + q <= MAXORDINAL ->
  ord2ymd (ymd2ord y m dd + q) = (y1, m1, d1) ->
  datetime_add {| dt_year := y; dt_month := m; dt_day := dd; dt_hour := h;
                  dt_minute := mi; dt_second := se; dt_tzinfo := tz |} delta
  = Ok {| dt_year := y1; dt_month := m1; dt_day := d1; dt_hour := hh;
          dt_minute := mi; dt_second := se; dt_tzinfo := tz |}.
Proof.
  intros Hmi Hse Hhh Heq Hr Ho.
  rewrite (datetime_add_spec _ delta q hh); simpl; try lia.
  now rewrite Ho.
Qed.

(** Pacific wall-clock time read in the Eastern zone: three hours later. *)
Lemma astimezone_eastern (d : datetime) :
  parsed_fields d ->
  astimezone (replace_tzinfo d pacific_tz) (tz_offset pacific_tz) eastern_tz
  = Ok (eastern_of d).
Proof.
  intros ((yy & Hyy & Hy) & Hm & Hd & Hh & Hmi & Hse & Htz).
  rewrite Hy in Hd.
  destruct (date_facts yy (dt_month d) (dt_day d) Hyy Hm Hd)
    as (_ & Ho & Hsame & Hnext & Hback).
  rewrite <- Hy in Ho, Hsame, Hnext, Hback.
  rewrite first_ordinal_eq, last_ordinal_eq in Ho.
  assert (Hmax : MAXORDINAL = 3652059) by reflexivity.
  unfold astimezone, eastern_of, plus_three_hours, replace_tzinfo.
  change (tz_offset pacific_tz) with (-28800).
  change (tz_offset eastern_tz) with (-18000).
  change (- -28800) with 28800.
  destruct (next_day (dt_year d) (dt_month d) (dt_day d)) as [[y1 m1] d1] eqn:En.
  simpl fst in Hback. simpl snd in Hback.
  destruct (Z_lt_ge_dec (dt_hour d) 16) as [Hlt | Hge].
  - (* the same day in UTC *)
    rewrite (datetime_add_same_day _ _ _ _ _ _ _ 28800 (dt_hour d + 8));
      try assumption; try lia.
    simpl bind. unfold replace_tzinfo. simpl.
    rewrite (datetime_add_same_day _ _ _ _ _ _ _ (-18000) (dt_hour d + 3));
      try assumption; try lia.
    replace (dt_hour d + 3 <? 24) with true by (symmetry; apply Z.ltb_lt; lia).
    reflexivity.
  - (* the next day in UTC *)
    rewrite (datetime_add_other_day _ _ _ _ _ _ _ 28800 1 (dt_hour d - 16) y1 m1 d1);
      try assumption; try lia.
    simpl bind. unfold replace_tzinfo. simpl.
    destruct (Z_lt_ge_dec (dt_hour d) 21) as [Hlt | Hge'].
    + rewrite (datetime_add_other_day _ _ _ _ _ _ _ (-18000) (-1) (dt_hour d + 3)
                 (dt_year d) (dt_month d) (dt_day d));
        try assumption; try lia.
      * replace (dt_hour d + 3 <? 24) with true by (symmetry; apply Z.ltb_lt; lia).
        reflexivity.
      * rewrite Hback.
        replace (ymd2ord (dt_year d) (dt_month d) (dt_day d) + 1 + -1)
          with (ymd2ord (dt_year d) (dt_month d) (dt_day d)) by lia.
        exact Hsame.
    + rewrite (datetime_add_same_day _ _ _ _ _ _ _ (-18000) (dt_hour d + 3 - 24));
        try assumption; try lia.
      * replace (dt_hour d + 3 <? 24) with false by (symmetry; apply Z.ltb_ge; lia).
        reflexivity.
      * rewrite Hback. exact Hnext.
Qed.

(** ** [format_timestamp] *)

Lemma format_timestamp_of_strptime rt s :
  format_timestamp rt s
  = match strptime rt s with
    | Ok d => Ok (isoformat (eastern_of d))
    | Raise e => Raise e
    end.
Proof.
  unfold format_timestamp.
  destruct (strptime rt s) as [d | e] eqn:E; [| reflexivity].
  apply strptime_ok in E. destruct E as [_ Hf].
  cbv beta iota zeta delta [bind].
  rewrite (astimezone_eastern d Hf). reflexivity.
Qed.

(** The timestamp normalizer fails with [ValueError] only. *)
Lemma format_timestamp_raises rt s e :
  format_timestamp rt s = Raise e -> exists msg, e = ValueError msg.
Proof.
  rewrite format_timestamp_of_strptime.
  destruct (strptime rt s) as [d | e'] eqn:E; [discriminate |].
  intros H. injection H as ->. exact (strptime_raises _ _ _ E).
Qed.

Lemma format_timestamp_shape rt s out :
  format_timestamp rt s = Ok out -> strptime_shape rt s.
Proof.
  rewrite format_timestamp_of_strptime.
  destruct (strptime rt s) as [d | e'] eqn:E; [| discriminate].
  intros _. exact (proj1 (strptime_ok _ _ _ E)).
Qed.

(** ** The matcher on the texts of the two patterns *)

Lemma rmatch_cat rt (A : Type) (a b : re) (s : pystr) (caps : captures)
  (k : pystr -> captures -> pystr -> option A) :
  rmatch rt (Cat a b) s caps k
  = rmatch rt a s caps (fun m1 c1 s1 =>
      rmatch rt b s1 c1 (fun m2 c2 s2 => k (m1 ++ m2) c2 s2)).
Proof. reflexivity. Qed.

Lemma rmatch_slash rt (A : Type) (rest : pystr) (caps : captures)
  (k : pystr -> captures -> pystr -> option A) :
  rmatch rt (Chr (chr_of "/")) (47 :: rest) caps k = k [47] caps rest.
Proof. reflexivity. Qed.

Lemma rmatch_colon rt (A : Type) (rest : pystr) (caps : captures)
  (k : pystr -> captures -> pystr -> option A) :
  rmatch rt (Chr (chr_of ":")) (58 :: rest) caps k = k [58] caps rest.
Proof. reflexivity. Qed.

Lemma digit_not_space (c : Z) : 48 <= c <= 90 -> unicode_isspace c = false.
Proof.
  intros H. unfold unicode_isspace.
  repeat match goal with
         | |- context [?a <=? ?b] =>
             destruct (Z.leb_spec a b); try lia
         | |- context [?a =? ?b] =>
             destruct (Z.eqb_spec a b); try lia
         end; reflexivity.
Qed.

Lemma rmatch_one_space rt (A : Type) (c : Z) (rest : pystr) (caps : captures)
  (k : pystr -> captures -> pystr -> option A) :
  unicode_isspace c = false ->
  rmatch rt Spaces (32 :: c :: rest) caps k = k [32] caps (c :: rest).
Proof. intros H. simpl. now rewrite H. Qed.

Ltac enum_month n :=
  let H := fresh in
  assert (H : n = 1 \/ n = 2 \/ n = 3 \/ n = 4 \/ n = 5 \/ n = 6 \/ n = 7
              \/ n = 8 \/ n = 9 \/ n = 10 \/ n = 11 \/ n = 12) by lia;
  repeat (destruct H as [H | H]; [subst n |]); [.. | subst n].

Ltac run_matcher Hk :=
  vm_compute in Hk; vm_compute; rewrite Hk; reflexivity.

Lemma rmatch_month_text rt (A : Type) (n : Z) (padded : bool) (rest : pystr)
  (caps : captures) (k : pystr -> captures -> pystr -> option A) (x : A) :
  1 <= n <= 12 ->
  k ((if padded then two_digits else unpadded) n)
    ((Gm, (if padded then two_digits else unpadded) n) :: caps) (47 :: rest) = Some x ->
  rmatch rt re_m ((if padded then two_digits else unpadded) n ++ 47 :: rest) caps k
  = Some x.
Proof.
  intros Hn Hk. enum_month n; destruct padded; run_matcher Hk.
Qed.

Lemma two_digits_split (n : Z) :
  0 <= n <= 99 ->
  exists a b, 0 <= a <= 9 /\ 0 <= b <= 9 /\ n = 10 * a + b
              /\ two_digits n = [48 + a; 48 + b].
Proof.
  intros H. exists (n / 10), (n mod 10). unfold two_digits.
  repeat split; try reflexivity; Z.div_mod_to_equations; lia.
Qed.

Lemma rmatch_day_digits rt (A : Type) (a b : Z) (rest : pystr)
  (caps : captures) (k : pystr -> captures -> pystr -> option A) (x : A) :
  0 <= a <= 9 -> 0 <= b <= 9 -> 1 <= 10 * a + b <= 31 ->
  k [48 + a; 48 + b] ((Gd, [48 + a; 48 + b]) :: caps) (47 :: rest) = Some x ->
  rmatch rt re_d ([48 + a; 48 + b] ++ 47 :: rest) caps k = Some x.
Proof.
  intros Ha Hb Hn Hk. enum_digit a; enum_digit b; try lia; run_matcher Hk.
Qed.

Lemma rmatch_day_digit rt (A : Type) (a : Z) (rest : pystr)
  (caps : captures) (k : pystr -> captures -> pystr -> option A) (x : A) :
  1 <= a <= 9 ->
  k [48 + a] ((Gd, [48 + a]) :: caps) (47 :: rest) = Some x ->
  rmatch rt re_d ([48 + a] ++ 47 :: rest) caps k = Some x.
Proof.
  intros Ha Hk. enum_digit a; try lia; run_matcher Hk.
Qed.

Lemma rmatch_day_text rt (A : Type) (n : Z) (padded : bool) (rest : pystr)
  (caps : captures) (k : pystr -> captures -> pystr -> option A) (x : A) :
  1 <= n <= 31 ->
  k ((if padded then two_digits else unpadded) n)
    ((Gd, (if padded then two_digits else unpadded) n) :: caps) (47 :: rest) = Some x ->
  rmatch rt re_d ((if padded then two_digits else unpadded) n ++ 47 :: rest) caps k
  = Some x.
Proof.
  intros Hn.
  destruct (two_digits_split n ltac:(lia)) as (a & b & Ha & Hb & Hab & Htd).
  assert (Hcase : (if padded then two_digits else unpadded) n = [48 + a; 48 + b]
                  \/ ((if padded then two_digits else unpadded) n = [48 + n]
                      /\ n <= 9)).
  { destruct padded; [now left |]. unfold unpadded.
    destruct (Z.ltb_spec n 10); [right; split; [reflexivity | lia] | now left]. }
  destruct Hcase as [-> | [-> Hle]]; intros Hk.
  - apply rmatch_day_digits; try assumption; lia.
  - apply rmatch_day_digit; [lia | assumption].
Qed.

Lemma rmatch_year_digits rt (A : Type) (a b : Z) (rest : pystr)
  (caps : captures) (k : pystr -> captures -> pystr -> option A) :
  0 <= a <= 9 -> 0 <= b <= 9 ->
  rmatch rt re_y ((48 + a) :: (48 + b) :: rest) caps k
  = k [48 + a; 48 + b] ((Gy, [48 + a; 48 + b]) :: caps) rest.
Proof.
  intros Ha Hb. enum_digit a; enum_digit b; reflexivity.
Qed.

Lemma rmatch_hour_digits rt (A : Type) (a b : Z) (rest : pystr)
  (caps : captures) (k : pystr -> captures -> pystr -> option A) (x : A) :
  0 <= a <= 9 -> 0 <= b <= 9 -> 1 <= 10 * a + b <= 12 ->
  k [48 + a; 48 + b] ((GI, [48 + a; 48 + b]) :: caps) rest = Some x ->
  rmatch rt re_I ((48 + a) :: (48 + b) :: rest) caps k = Some x.
Proof.
  intros Ha Hb Hn Hk. enum_digit a; enum_digit b; try lia; run_matcher Hk.
Qed.

Lemma rmatch_minute_digits rt (A : Type) (a b : Z) (rest : pystr)
  (caps : captures) (k : pystr -> captures -> pystr -> option A) (x : A) :
  0 <= a <= 5 -> 0 <= b <= 9 ->
  k [48 + a; 48 + b] ((GM, [48 + a; 48 + b]) :: caps) rest = Some x ->
  rmatch rt re_M ((48 + a) :: (48 + b) :: rest) caps k = Some x.
Proof.
  intros Ha Hb Hk. enum_digit a; enum_digit b; try lia; run_matcher Hk.
Qed.

Lemma rmatch_second_digits rt (A : Type) (a b : Z) (rest : pystr)
  (caps : captures) (k : pystr -> captures -> pystr -> option A) (x : A) :
  0 <= a <= 5 -> 0 <= b <= 9 ->
  k [48 + a; 48 + b] ((GS, [48 + a; 48 + b]) :: caps) rest = Some x ->
  rmatch rt re_S ((48 + a) :: (48 + b) :: rest) caps k = Some x.
Proof.
  intros Ha Hb Hk. enum_digit a; enum_digit b; try lia; run_matcher Hk.
Qed.

Lemma rmatch_marker rt (A : Type) (pm : bool)
  (caps : captures) (k : pystr -> captures -> pystr -> option A) (x : A) :
  k (ampm_marker pm) ((Gp, ampm_marker pm) :: caps) [] = Some x ->
  rmatch rt re_p (ampm_marker pm) caps k = Some x.
Proof.
  intros Hk. destruct pm; run_matcher Hk.
Qed.

Lemma month_length_le_31 (y m : Z) : month_length y m <= 31.
Proof.
  unfold month_length.
  destruct (m =? 2); [destruct (is_leap y); lia |].
  destruct ((m =? 4) || (m =? 6) || (m =? 9) || (m =? 11)); lia.
Qed.

Lemma re_match_timestamp_text rt (padded : bool) (c : clock) :
  valid_clock c ->
  re_match rt format_regex (timestamp_text padded c)
  = Some ([(Gp, ampm_marker (c_pm c)); (GS, two_digits (c_second c));
           (GM, two_digits (c_minute c)); (GI, two_digits (c_hour c));
           (Gy, two_digits (c_yy c));
           (Gd, (if padded then two_digits else unpadded) (c_day c));
           (Gm, (if padded then two_digits else unpadded) (c_month c))], []).
Proof.
  intros (Hm & Hd & Hy & Hh & Hmi & Hs).
  pose proof (month_length_le_31 (full_year (c_yy c)) (c_month c)) as H31.
  destruct (two_digits_split (c_yy c) ltac:(lia)) as (y1 & y2 & Hy1 & Hy2 & _ & Ey).
  destruct (two_digits_split (c_hour c) ltac:(lia)) as (h1 & h2 & Hh1 & Hh2 & Eh' & Eh).
  destruct (two_digits_split (c_minute c) ltac:(lia)) as (m1 & m2 & Hm1 & Hm2 & Em' & Em).
  destruct (two_digits_split (c_second c) ltac:(lia)) as (s1 & s2 & Hs1 & Hs2 & Es' & Es).
  unfold re_match, format_regex, timestamp_text.
  rewrite Ey, Eh, Em, Es. cbn [app].
  rewrite rmatch_cat. apply rmatch_month_text; [lia |]. cbv beta.
  rewrite rmatch_cat, rmatch_slash. cbv beta.
  rewrite rmatch_cat. apply rmatch_day_text; [lia |]. cbv beta.
  rewrite rmatch_cat, rmatch_slash. cbv beta.
  rewrite rmatch_cat.
  rewrite (rmatch_year_digits rt _ y1 y2 (32 :: _)) by assumption. cbv beta.
  rewrite rmatch_cat, rmatch_one_space by (apply digit_not_space; lia). cbv beta.
  rewrite rmatch_cat.
  apply (rmatch_hour_digits rt _ h1 h2 (58 :: _)); try assumption; [lia |].
  cbv beta.
  rewrite rmatch_cat, rmatch_colon. cbv beta.
  rewrite rmatch_cat.
  apply (rmatch_minute_digits rt _ m1 m2 (58 :: _)); try assumption; [lia |].
  cbv beta.
  rewrite rmatch_cat, rmatch_colon. cbv beta.
  rewrite rmatch_cat.
  apply (rmatch_second_digits rt _ s1 s2 (32 :: _)); try assumption; [lia |].
  cbv beta.
  rewrite rmatch_cat.
  assert (Hp : exists p1 p2, ampm_marker (c_pm c) = [p1; p2] /\ 48 <= p1 <= 90).
  { destruct (c_pm c); [exists 80, 77 | exists 65, 77]; split; (reflexivity || lia). }
  destruct Hp as (p1 & p2 & Ep & Hp1).
  rewrite Ep. rewrite rmatch_one_space by (apply digit_not_space; lia).
  cbv beta. rewrite <- Ep.
  apply rmatch_marker. reflexivity.
Qed.

(** ** [strptime] on the texts of the two patterns *)

Lemma unicode_decimal_digit rt (a : Z) :
  0 <= a <= 9 -> unicode_decimal rt (48 + a) = Some a.
Proof.
  intros H. rewrite unicode_decimal_ascii by lia. f_equal. lia.
Qed.

Lemma py_int_two_digits_text rt (n : Z) :
  0 <= n <= 99 -> py_int rt (two_digits n) = Ok n.
Proof.
  intros H. destruct (two_digits_split n H) as (a & b & Ha & Hb & -> & ->).
  apply py_int_decimals; now apply unicode_decimal_digit.
Qed.

Lemma py_int_unpadded_text rt (n : Z) :
  0 <= n <= 99 -> py_int rt (unpadded n) = Ok n.
Proof.
  intros H. unfold unpadded. destruct (Z.ltb_spec n 10).
  - apply py_int_decimal. apply unicode_decimal_digit. lia.
  - now apply py_int_two_digits_text.
Qed.

Lemma py_int_padded_or_not rt (padded : bool) (n : Z) :
  0 <= n <= 99 -> py_int rt ((if padded then two_digits else unpadded) n) = Ok n.
Proof.
  destruct padded; [apply py_int_two_digits_text | apply py_int_unpadded_text].
Qed.

Lemma days_in_month_length (y m : Z) :
  1 <= m <= 12 -> days_in_month y m = month_length y m.
Proof.
  intros Hm. unfold days_in_month, month_length.
  enum_month m; destruct (is_leap y); reflexivity.
Qed.

(** [strptime] reads a text of either pattern as the wall-clock time that
    the text denotes. *)
Lemma strptime_timestamp_text rt (padded : bool) (c : clock) :
  valid_clock c ->
  strptime rt (timestamp_text padded c) = Ok (pacific_datetime c).
Proof.
  intros Hv. unfold strptime. rewrite (re_match_timestamp_text rt padded c Hv).
  destruct Hv as (Hm & Hd & Hy & Hh & Hmi & Hs).
  pose proof (month_length_le_31 (full_year (c_yy c)) (c_month c)) as H31.
  unfold group_or_empty. cbn [group gname_eqb].
  rewrite !py_int_padded_or_not by lia.
  rewrite !py_int_two_digits_text by lia.
  cbn [bind]. rewrite full_year_code.
  rewrite (days_in_month_length _ _ Hm).
  replace ((1 <=? c_day c)
           && (c_day c <=? month_length (full_year (c_yy c)) (c_month c)))
    with true
    by (symmetry; apply andb_true_intro; split; apply Z.leb_le; lia).
  replace ((0 <=? c_second c) && (c_second c <=? 59)) with true
    by (symmetry; apply andb_true_intro; split; apply Z.leb_le; lia).
  cbn [negb]. unfold pacific_datetime, hour24. do 2 f_equal.
  destruct (c_pm c); cbn; destruct (Z.eqb_spec (c_hour c) 12) as [-> | Hne];
    try reflexivity; rewrite Z.mod_small by lia; lia.
Qed.

(** ** The text of the result *)

Lemma str_eqb_eq (a : pystr) : forall b, str_eqb a b = true -> a = b.
Proof.
  induction a as [| x a IH]; intros [| y b] H; simpl in H; try discriminate.
  - reflexivity.
  - apply andb_prop in H. destruct H as [Hxy H]. apply Z.eqb_eq in Hxy.
    subst. f_equal. now apply IH.
Qed.

Lemma fmt_0d_two_digits_all :
  forallb (fun n => str_eqb (fmt_0d 2 n) (two_digits n)) (Zseq 0 100) = true.
Proof. vm_compute. reflexivity. Qed.

Lemma fmt_0d_four_digits_all :
  forallb (fun n => str_eqb (fmt_0d 4 n) (four_digits n)) (Zseq 1969 101) = true.
Proof. vm_compute. reflexivity. Qed.

Lemma fmt_0d_two_digits (n : Z) : 0 <= n <= 99 -> fmt_0d 2 n = two_digits n.
Proof.
  intros H. apply str_eqb_eq.
  apply (proj1 (forallb_forall _ _) fmt_0d_two_digits_all n).
  apply In_Zseq. lia.
Qed.

Lemma fmt_0d_four_digits (n : Z) : 1969 <= n <= 2069 -> fmt_0d 4 n = four_digits n.
Proof.
  intros H. apply str_eqb_eq.
  apply (proj1 (forallb_forall _ _) fmt_0d_four_digits_all n).
  apply In_Zseq. lia.
Qed.

Lemma full_year_range (yy : Z) : 0 <= yy <= 99 -> 1969 <= full_year yy <= 2068.
Proof. intros H. unfold full_year. destruct (Z.leb_spec yy 68); lia. Qed.

Lemma next_day_range (y m d : Z) :
  1969 <= y <= 2068 -> 1 <= m <= 12 -> 1 <= d <= month_length y m ->
  1969 <= fst (fst (next_day y m d)) <= 2069 /\
  1 <= snd (fst (next_day y m d)) <= 12 /\
  1 <= snd (next_day y m d) <= 31.
Proof.
  intros Hy Hm Hd. pose proof (month_length_le_31 y m) as H31.
  unfold next_day.
  destruct (Z.ltb_spec d (month_length y m)); [simpl; lia |].
  destruct (Z.ltb_spec m 12); simpl; lia.
Qed.

(** The fields of the Eastern time are those of a date and a time of
    day. *)
Lemma eastern_of_range (d : datetime) :
  parsed_fields d ->
  1969 <= dt_year (eastern_of d) <= 2069 /\
  1 <= dt_month (eastern_of d) <= 12 /\
  1 <= dt_day (eastern_of d) <= 31 /\
  0 <= dt_hour (eastern_of d) <= 23 /\
  dt_minute (eastern_of d) = dt_minute d /\
  dt_second (eastern_of d) = dt_second d /\
  dt_tzinfo (eastern_of d) = Some eastern_tz.
Proof.
  intros ((yy & Hyy & Hy) & Hm & Hd & Hh & Hmi & Hse & Htz).
  pose proof (full_year_range yy Hyy) as Hfy. rewrite <- Hy in Hfy.
  rewrite (days_in_month_length _ _ Hm) in Hd.
  pose proof (month_length_le_31 (dt_year d) (dt_month d)) as H31.
  pose proof (next_day_range _ _ _ Hfy Hm Hd) as Hn.
  unfold eastern_of, plus_three_hours.
  destruct (Z.ltb_spec (dt_hour d + 3) 24).
  - simpl. repeat (split; [lia |]). split; reflexivity.
  - destruct (next_day (dt_year d) (dt_month d) (dt_day d)) as [[y1 m1] d1].
    simpl in *. repeat (split; [lia |]). split; reflexivity.
Qed.

Lemma isoformat_eastern (d : datetime) :
  parsed_fields d -> isoformat (eastern_of d) = rfc3339_eastern (eastern_of d).
Proof.
  intros Hf. pose proof Hf as (_ & _ & _ & _ & Hmi & Hse & _).
  destruct (eastern_of_range d Hf) as (Hy & Hm & Hd & Hh & Emi & Ese & Etz).
  unfold isoformat, rfc3339_eastern. rewrite Etz.
  rewrite fmt_0d_four_digits by assumption.
  rewrite !fmt_0d_two_digits by lia.
  reflexivity.
Qed.

Lemma valid_clock_parsed (c : clock) :
  valid_clock c -> parsed_fields (pacific_datetime c).
Proof.
  intros (Hm & Hd & Hy & Hh & Hmi & Hs). unfold parsed_fields, pacific_datetime.
  simpl. split; [exists (c_yy c); split; [assumption | reflexivity] |].
  rewrite (days_in_month_length _ _ Hm).
  repeat (split; [lia |]).
  split; [| split; [lia | split; [lia | reflexivity]]].
  unfold hour24. destruct (c_pm c); Z.div_mod_to_equations; lia.
Qed.

(** The Eastern time is the same instant as the Pacific time. *)
Lemma eastern_same_instant (d : datetime) :
  parsed_fields d ->
  utc_seconds (eastern_of d) eastern_offset = utc_seconds d pacific_offset.
Proof.
  intros ((yy & Hyy & Hy) & Hm & Hd & Hh & Hmi & Hse & Htz).
  rewrite Hy in Hd.
  destruct (date_facts yy (dt_month d) (dt_day d) Hyy Hm Hd)
    as (_ & _ & _ & _ & Hback).
  rewrite <- Hy in Hback.
  unfold utc_seconds, eastern_of, plus_three_hours, eastern_offset, pacific_offset.
  destruct (Z.ltb_spec (dt_hour d + 3) 24).
  - simpl. lia.
  - destruct (next_day (dt_year d) (dt_month d) (dt_day d)) as [[y1 m1] d1].
    simpl in *. rewrite Hback. lia.
Qed.

Lemma last_timestamp_text (padded : bool) (c : clock) :
  last (timestamp_text padded c) 0 = 77.
Proof.
  unfold timestamp_text. rewrite !app_assoc.
  destruct (c_pm c); simpl ampm_marker.
  - change (ustr "PM") with ([80] ++ [77]). rewrite app_assoc. apply last_last.
  - change (ustr "AM") with ([65] ++ [77]). rewrite app_assoc. apply last_last.
Qed.

(** ** The timestamp normalizer *)

(** C2 fails as stated: a text with two blanks, one-digit hour, minute and
    second and a lower-case marker is of neither pattern, and the normalizer
    converts it all the same. *)
Lemma lenient_text_is_converted :
  (forall (padded : bool) (c : clock), timestamp_text padded c <> lenient_text) /\
  format_timestamp ascii_runtime lenient_text
  = Ok (ustr "2002-10-02T16:05:07-05:00").
Proof.
  split.
  - intros padded c H. apply (f_equal (fun s => last s 0)) in H.
    rewrite last_timestamp_text in H. vm_compute in H. discriminate H.
  - vm_compute. reflexivity.
Qed.

(** C2, amended: a text of the pattern [M/D/YY HH:MM:SS AM/PM] or
    [MM/DD/YY HH:MM:SS AM/PM] that names a date of the calendar and a time of
    the 12-hour clock is read as wall-clock time at UTC-8 and comes back as
    [YYYY-MM-DDTHH:MM:SS-05:00], three hours later on the wall clock, the
    same instant.  The normalizer accepts more than the two patterns: what it
    accepts has the shape [strptime_shape]: month, slash, day, slash, year,
    blanks, hour, colon, minute, colon, second, blanks, AM or PM in any
    case; the month and the hour are 1 to 12 in one or two digits, the day
    is 1 to 31 in one or two digits or a blank followed by one digit, the
    year has two digits, the minute is 0 to 59 and the second 0 to 61 in one
    or two digits; where the pattern of [strptime] has [\d], the digit is
    any Unicode decimal digit.  An accepted string is read as a time of the
    years 1969 to 2068 and converted in the same way.  Every string that is
    not of the shape fails, and every failure is a [ValueError]. *)
Theorem timestamp_conversion :
  forall rt : Runtime,
    (forall (padded : bool) (c : clock),
        valid_clock c ->
        format_timestamp rt (timestamp_text padded c)
        = Ok (rfc3339_eastern (eastern_of (pacific_datetime c))) /\
        utc_seconds (eastern_of (pacific_datetime c)) eastern_offset
        = utc_seconds (pacific_datetime c) pacific_offset) /\
    (forall s out : pystr,
        format_timestamp rt s = Ok out ->
        strptime_shape rt s /\
        exists d, strptime rt s = Ok d /\ parsed_fields d /\
                  out = rfc3339_eastern (eastern_of d)) /\
    (forall s : pystr,
        ~ strptime_shape rt s ->
        exists msg, format_timestamp rt s = Raise (ValueError msg)) /\
    (forall (s : pystr) (e : exn),
        format_timestamp rt s = Raise e -> exists msg, e = ValueError msg).
Proof.
  intros rt. split; [| split; [| split]].
  - intros padded c Hv. split.
    + rewrite format_timestamp_of_strptime, (strptime_timestamp_text rt padded c Hv).
      now rewrite (isoformat_eastern _ (valid_clock_parsed c Hv)).
    + exact (eastern_same_instant _ (valid_clock_parsed c Hv)).
  - intros s out H. split; [exact (format_timestamp_shape rt s out H) |].
    rewrite format_timestamp_of_strptime in H.
    destruct (strptime rt s) as [d | e] eqn:E; [| discriminate].
    injection H as <-. destruct (strptime_ok rt s d E) as [_ Hf].
    exists d. split; [reflexivity |]. split; [assumption |].
    now apply isoformat_eastern.
  - intros s Hs. destruct (format_timestamp rt s) as [out | e] eqn:E.
    + exfalso. apply Hs. exact (format_timestamp_shape rt s out E).
    + destruct (format_timestamp_raises rt s e E) as [msg ->]. now exists msg.
  - exact (format_timestamp_raises rt).
Qed.

Lemma timestamp_conversion_witness :
  (format_timestamp ascii_runtime (timestamp_text false example_clock)
   = Ok (rfc3339_eastern (eastern_of (pacific_datetime example_clock))) /\
   utc_seconds (eastern_of (pacific_datetime example_clock)) eastern_offset
   = utc_seconds (pacific_datetime example_clock) pacific_offset) /\
  (strptime_shape ascii_runtime lenient_text /\
   exists d, strptime ascii_runtime lenient_text = Ok d /\ parsed_fields d /\
             ustr "2002-10-02T16:05:07-05:00" = rfc3339_eastern (eastern_of d)) /\
  (exists msg, format_timestamp ascii_runtime [] = Raise (ValueError msg)) /\
  (exists msg, ValueError (ustr "second must be in 0..59") = ValueError msg).
Proof.
  split; [| split; [| split]].
  - apply (proj1 (timestamp_conversion ascii_runtime) false example_clock).
    unfold valid_clock. repeat split; vm_compute; discriminate.
  - apply (proj1 (proj2 (timestamp_conversion ascii_runtime)) lenient_text).
    vm_compute. reflexivity.
  - apply (proj1 (proj2 (proj2 (timestamp_conversion ascii_runtime))) []).
    intros (mo & d & y & w1 & h & mi & se & w2 & p & H & _).
    destruct mo; discriminate H.
  - apply (proj2 (proj2 (proj2 (timestamp_conversion ascii_runtime)))
             (ustr "12/31/99 11:59:60 PM")).
    vm_compute. reflexivity.
Defined.

(** ** [validate_zip] *)

Lemma validate_zip_of_py_int rt (zip_code : pystr) :
  validate_zip rt zip_code
  = match py_int rt zip_code with
    | Ok _ => Ok (repeat 48 (Z.to_nat (5 - len zip_code)) ++ zip_code)
    | Raise e => Raise e
    end.
Proof.
  unfold validate_zip. destruct (py_int rt zip_code) as [v | e]; [| reflexivity].
  cbv beta iota zeta delta [bind]. rewrite str_mul_char.
  destruct (Z.eqb_spec (5 - len zip_code) 0) as [E | E]; cbn [negb];
    [| reflexivity].
  rewrite E. reflexivity.
Qed.

Lemma getitem_nth_error (row : list pystr) (i : nat) (v : pystr) :
  nth_error row i = Some v -> getitem row i = Ok v.
Proof. unfold getitem. now intros ->. Qed.

(** A row whose zip raises a [ValueError] is dropped with one warning,
    whatever its other fields are. *)
Lemma bad_zip_row_dropped rt (row : list pystr) (zip : pystr) (msg : pystr) (w : io) :
  nth_error row 2 = Some zip ->
  validate_zip rt zip = Raise (ValueError msg) ->
  exists msg', clean_and_normalize_row rt row w = (Ok None, print_error msg' w).
Proof.
  intros Hrow Hzip.
  destruct row as [| r0 [| r1 [| r2 rest]]]; try discriminate Hrow.
  simpl in Hrow. injection Hrow as ->.
  unfold clean_and_normalize_row, normalize_fields, getitem. cbn [nth_error bind].
  destruct (format_timestamp rt r0) as [ts | e] eqn:Ets.
  - cbn [bind]. rewrite Hzip. cbn [bind]. now exists msg.
  - cbn [bind]. destruct (format_timestamp_raises rt r0 e Ets) as [m ->].
    now exists m.
Qed.

Lemma dropped_row_prints_warning rt (row : list pystr) (msg : pystr) (w : io)
  (rest : list (list pystr)) :
  clean_and_normalize_row rt row w = (Ok None, print_error msg w) ->
  process_rows rt (row :: rest) w = process_rows rt rest (print_error msg w).
Proof. intros H. rewrite process_rows_cons, H. reflexivity. Qed.

(** C6: a zip that [int] accepts and that is shorter than five characters
    gets zeros on the left up to the length five; one of five or more
    characters is returned as it is; a zip that [int] rejects makes the
    normalizer fail with the [ValueError] of [int].  ["123"] becomes
    ["00123"], ["12345"] stays, and a row whose zip is ["abc"] is dropped
    with one warning. *)
Theorem validate_zip_pads_to_five :
  forall (rt : Runtime) (zip_code : pystr),
    (forall v : Z,
        py_int rt zip_code = Ok v -> len zip_code < 5 ->
        validate_zip rt zip_code
        = Ok (repeat 48 (Z.to_nat (5 - len zip_code)) ++ zip_code) /\
        len (repeat 48 (Z.to_nat (5 - len zip_code)) ++ zip_code) = 5) /\
    (forall v : Z,
        py_int rt zip_code = Ok v -> 5 <= len zip_code ->
        validate_zip rt zip_code = Ok zip_code) /\
    (forall e : exn,
        py_int rt zip_code = Raise e ->
        validate_zip rt zip_code = Raise e /\ exists msg, e = ValueError msg) /\
    validate_zip rt (ustr "123") = Ok (ustr "00123") /\
    validate_zip rt (ustr "12345") = Ok (ustr "12345") /\
    (forall (row : list pystr) (w : io),
        nth_error row 2 = Some (ustr "abc") ->
        exists msg,
          clean_and_normalize_row rt row w = (Ok None, print_error msg w) /\
          process_rows rt [row] w = (Ok tt, print_error msg w)).
Proof.
  intros rt zip_code. split; [| split; [| split; [| split; [| split]]]].
  - intros v Hv Hlen. rewrite validate_zip_of_py_int, Hv. split; [reflexivity |].
    rewrite len_app, len_repeat. pose proof (len_nonneg zip_code). lia.
  - intros v Hv Hlen. rewrite validate_zip_of_py_int, Hv.
    replace (Z.to_nat (5 - len zip_code)) with 0%nat by lia. reflexivity.
  - intros e He. rewrite validate_zip_of_py_int, He. split; [reflexivity |].
    exact (py_int_raises rt zip_code e He).
  - vm_compute. reflexivity.
  - vm_compute. reflexivity.
  - intros row w Hrow.
    destruct (bad_zip_row_dropped rt row (ustr "abc")
                (ustr "invalid literal for int() with base 10: "
                 ++ firstn 200 (rt_repr rt (ustr "abc"))) w Hrow) as [msg Hmsg].
    { vm_compute. reflexivity. }
    exists msg. split; [exact Hmsg |].
    rewrite (dropped_row_prints_warning rt row msg w [] Hmsg). reflexivity.
Qed.

Lemma validate_zip_pads_to_five_witness :
  (validate_zip ascii_runtime (ustr "-12")
   = Ok (repeat 48 (Z.to_nat (5 - len (ustr "-12"))) ++ ustr "-12") /\
   len (repeat 48 (Z.to_nat (5 - len (ustr "-12"))) ++ ustr "-12") = 5) /\
  validate_zip ascii_runtime (ustr "1234567") = Ok (ustr "1234567") /\
  (validate_zip ascii_runtime (ustr "12 34")
   = Raise (ValueError (ustr "invalid literal for int() with base 10: '12 34'")) /\
   exists msg,
     ValueError (ustr "invalid literal for int() with base 10: '12 34'")
     = ValueError msg) /\
  (exists msg,
      clean_and_normalize_row ascii_runtime
        [ustr "10/2/02 10:00:00 AM"; ustr "1 Main St"; ustr "abc"] empty_io
      = (Ok None, print_error msg empty_io) /\
      process_rows ascii_runtime
        [[ustr "10/2/02 10:00:00 AM"; ustr "1 Main St"; ustr "abc"]] empty_io
      = (Ok tt, print_error msg empty_io)).
Proof.
  split; [| split; [| split]].
  - apply (proj1 (validate_zip_pads_to_five ascii_runtime (ustr "-12")) (-12)).
    + vm_compute. reflexivity.
    + vm_compute. reflexivity.
  - apply (proj1 (proj2 (validate_zip_pads_to_five ascii_runtime (ustr "1234567")))
             1234567).
    + vm_compute. reflexivity.
    + vm_compute. discriminate.
  - apply (proj1 (proj2 (proj2 (validate_zip_pads_to_five ascii_runtime
                                  (ustr "12 34"))))).
    vm_compute. reflexivity.
  - apply (proj2 (proj2 (proj2 (proj2 (proj2
             (validate_zip_pads_to_five ascii_runtime (ustr "abc"))))))).
    reflexivity.
Defined.

(** ** [convert_duration] *)

Lemma float_of_int_raises (z : Z) (e : exn) :
  float_of_int z = Raise e ->
  e = OverflowError (ustr "int too large to convert to float").
Proof.
  unfold float_of_int. destruct (z =? 0); [discriminate |].
  destruct (round_pos (Z.abs z) 1) as [m ex].
  destruct (971 <? ex); [| discriminate].
  intros H. now injection H as <-.
Qed.

Lemma unpack3_ok (parts : list pystr) (h m s : pystr) :
  unpack3 parts = Ok (h, m, s) <-> parts = [h; m; s].
Proof.
  split.
  - destruct parts as [| a [| b [| c [| d rest]]]]; simpl; try discriminate.
    intros H. now injection H as -> -> ->.
  - intros ->. reflexivity.
Qed.

Lemma unpack3_raises (parts : list pystr) (e : exn) :
  unpack3 parts = Raise e -> exists msg, e = ValueError msg.
Proof.
  destruct parts as [| a [| b [| c [| d rest]]]]; simpl; try discriminate;
    intros H; injection H as <-; eexists; reflexivity.
Qed.

(** The value of a duration of three parts that parse: the integer
    [hours * 3600 + minutes * 60], converted to a float, plus the seconds. *)
Lemma convert_duration_value rt (duration h m s : pystr) (hv mv : Z) (sv : pyfloat) :
  split_on 58 duration = [h; m; s] ->
  py_int rt h = Ok hv -> py_int rt m = Ok mv -> py_float rt s = Ok sv ->
  convert_duration rt duration = int_add_float (hv * 3600 + mv * 60) sv.
Proof.
  intros Hsplit Hh Hm Hs. unfold convert_duration.
  rewrite Hsplit. cbn [unpack3 bind]. rewrite Hh. cbn [bind].
  rewrite Hm. cbn [bind]. rewrite Hs. reflexivity.
Qed.

Lemma convert_duration_ok rt (duration : pystr) (x : pyfloat) :
  convert_duration rt duration = Ok x ->
  exists h m s hv mv sv f,
    split_on 58 duration = [h; m; s] /\ py_int rt h = Ok hv /\
    py_int rt m = Ok mv /\ py_float rt s = Ok sv /\
    float_of_int (hv * 3600 + mv * 60) = Ok f /\ x = float_add f sv.
Proof.
  unfold convert_duration. intros H.
  apply bind_ok in H. destruct H as ([[h m] s] & Hu & H).
  apply unpack3_ok in Hu.
  apply bind_ok in H. destruct H as (hv & Hh & H).
  apply bind_ok in H. destruct H as (mv & Hm & H).
  apply bind_ok in H. destruct H as (sv & Hs & H).
  unfold int_add_float in H.
  apply bind_ok in H. destruct H as (f & Hf & H). injection H as <-.
  exists h, m, s, hv, mv, sv, f. repeat (split; [assumption |]). reflexivity.
Qed.

(** A duration of another shape, or with a part that does not parse, fails
    with a [ValueError]; the only other failure is the overflow of the
    conversion of the integer part. *)
Lemma convert_duration_raises rt (duration : pystr) (e : exn) :
  convert_duration rt duration = Raise e ->
  (exists msg, e = ValueError msg) \/
  (e = OverflowError (ustr "int too large to convert to float") /\
   exists h m s hv mv sv,
     split_on 58 duration = [h; m; s] /\ py_int rt h = Ok hv /\
     py_int rt m = Ok mv /\ py_float rt s = Ok sv).
Proof.
  unfold convert_duration. intros H.
  apply bind_raise in H. destruct H as [H | ([[h m] s] & Hu & H)];
    [left; exact (unpack3_raises _ _ H) |].
  apply unpack3_ok in Hu.
  apply bind_raise in H. destruct H as [H | (hv & Hh & H)];
    [left; exact (py_int_raises _ _ _ H) |].
  apply bind_raise in H. destruct H as [H | (mv & Hm & H)];
    [left; exact (py_int_raises _ _ _ H) |].
  apply bind_raise in H. destruct H as [H | (sv & Hs & H)];
    [left; exact (py_float_raises _ _ _ H) |].
  unfold int_add_float in H.
  apply bind_raise in H. destruct H as [H | (f & Hf & H)]; [| discriminate].
  right. split; [exact (float_of_int_raises _ _ H) |].
  exists h, m, s, hv, mv, sv. repeat (split; [assumption |]). assumption.
Qed.

(** C5 fails on the code: the duration [overflow_duration] splits into
    three parts, its hours and minutes are integers and its seconds are a
    float, and [convert_duration] raises [OverflowError] instead of
    returning a value: the integer [hours * 3600 + minutes * 60] is too
    large for the conversion that the addition of the seconds starts
    with. *)
Theorem huge_hours_overflow :
  forall rt : Runtime,
    split_on 58 overflow_duration = [huge_hours; ustr "00"; ustr "00"] /\
    py_int rt huge_hours = Ok (10 ^ 305) /\
    py_int rt (ustr "00") = Ok 0 /\
    py_float rt (ustr "00") = Ok (float_zero false) /\
    convert_duration rt overflow_duration
    = Raise (OverflowError (ustr "int too large to convert to float")).
Proof.
  intros rt. repeat split; vm_compute; reflexivity.
Qed.

(** The example of the specification: the two durations and their sum. *)
Lemma duration_sum_example rt :
  convert_duration rt (ustr "1:02:03.5") = Ok (float_of_ratio false 7447 2) /\
  convert_duration rt (ustr "0:00:01.0") = Ok (float_of_ratio false 1 1) /\
  float_str (float_of_ratio false 7447 2) = ustr "3723.5" /\
  float_str (float_of_ratio false 1 1) = ustr "1.0" /\
  float_str (get_total_duration (float_of_ratio false 7447 2)
                                (float_of_ratio false 1 1)) = ustr "3724.5".
Proof. repeat split; vm_compute; reflexivity. Qed.

(** ** Rows of eight fields *)

(** A row of eight fields is accepted exactly when its four validated
    fields are, and the result is made of the fields 0 to 5 and 7. *)
Lemma eight_fields_accepted rt (f0 f1 f2 f3 f4 f5 f6 f7 : pystr) (out : list pystr) :
  normalize_fields rt [f0; f1; f2; f3; f4; f5; f6; f7] = Ok out <->
  exists ts zip foo bar,
    format_timestamp rt f0 = Ok ts /\ validate_zip rt f2 = Ok zip /\
    convert_duration rt f4 = Ok foo /\ convert_duration rt f5 = Ok bar /\
    out = [ts; clean_address f1; zip; format_full_name rt f3; float_str foo;
           float_str bar; float_str (get_total_duration foo bar); f7].
Proof.
  unfold normalize_fields, getitem. cbn [nth_error bind app]. split.
  - intros H.
    apply bind_ok in H. destruct H as (ts & Hts & H).
    apply bind_ok in H. destruct H as (zip & Hzip & H).
    apply bind_ok in H. destruct H as (foo & Hfoo & H).
    apply bind_ok in H. destruct H as (bar & Hbar & H).
    injection H as <-. exists ts, zip, foo, bar.
    repeat (split; [assumption |]). reflexivity.
  - intros (ts & zip & foo & bar & -> & -> & -> & -> & ->). reflexivity.
Qed.

(** A row of eight fields fails with a [ValueError] or with the overflow of
    a duration, and with nothing else. *)
Lemma eight_fields_raises rt (f0 f1 f2 f3 f4 f5 f6 f7 : pystr) (e : exn) :
  normalize_fields rt [f0; f1; f2; f3; f4; f5; f6; f7] = Raise e ->
  (exists msg, e = ValueError msg) \/
  e = OverflowError (ustr "int too large to convert to float").
Proof.
  unfold normalize_fields, getitem. cbn [nth_error bind app]. intros H.
  apply bind_raise in H. destruct H as [H | (ts & _ & H)];
    [left; exact (format_timestamp_raises _ _ _ H) |].
  apply bind_raise in H. destruct H as [H | (zip & _ & H)].
  { left. rewrite validate_zip_of_py_int in H.
    destruct (py_int rt f2) as [v | e'] eqn:E; [discriminate |].
    injection H as <-. exact (py_int_raises _ _ _ E). }
  apply bind_raise in H. destruct H as [H | (foo & _ & H)].
  { destruct (convert_duration_raises _ _ _ H) as [Hv | [Ho _]];
      [left | right]; assumption. }
  apply bind_raise in H. destruct H as [H | (bar & _ & H)]; [| discriminate].
  destruct (convert_duration_raises _ _ _ H) as [Hv | [Ho _]];
    [left | right]; assumption.
Qed.

(** A row that raises a [ValueError] prints nothing on the output and one
    line on the error channel: the prefix and the text of the error. *)
Lemma value_error_row_dropped rt (row : list pystr) (msg : pystr) (w : io)
  (rest : list (list pystr)) :
  normalize_fields rt row = Raise (ValueError msg) ->
  clean_and_normalize_row rt row w
  = (Ok None, {| std_out := std_out w;
                 std_err := std_err w ++ [warn_prefix ++ msg] |}) /\
  process_rows rt (row :: rest) w
  = process_rows rt rest {| std_out := std_out w;
                            std_err := std_err w ++ [warn_prefix ++ msg] |}.
Proof.
  intros H.
  assert (Hrow : clean_and_normalize_row rt row w
                 = (Ok None, {| std_out := std_out w;
                                std_err := std_err w ++ [warn_prefix ++ msg] |})).
  { unfold clean_and_normalize_row. rewrite H. reflexivity. }
  split; [exact Hrow |]. rewrite process_rows_cons, Hrow. reflexivity.
Qed.

(** C1 fails on the code: in the row [overflow_row] of eight fields the
    timestamp, the zip and both durations parse (the hours, minutes and
    seconds of the first duration are numbers), and the row yields neither a
    normalized row nor a warning: [OverflowError] is not caught, it leaves
    [read_and_clean_file], and the rows that follow are never read. *)
Theorem overflow_row_aborts_run :
  forall (rt : Runtime) (header : list pystr) (later : list (list pystr)) (w : io),
    List.length overflow_row = 8%nat /\
    format_timestamp rt (nth 0 overflow_row [])
      = Ok (ustr "2002-10-02T13:00:00-05:00") /\
    validate_zip rt (nth 2 overflow_row []) = Ok (ustr "00123") /\
    (split_on 58 (nth 4 overflow_row []) = [huge_hours; ustr "00"; ustr "00"] /\
     py_int rt huge_hours = Ok (10 ^ 305) /\
     py_int rt (ustr "00") = Ok 0 /\
     py_float rt (ustr "00") = Ok (float_zero false)) /\
    convert_duration rt (nth 5 overflow_row []) = Ok (float_of_ratio false 1 1) /\
    clean_and_normalize_row rt overflow_row w
      = (Raise (OverflowError (ustr "int too large to convert to float")), w) /\
    read_and_clean_file rt (header :: overflow_row :: later) w
      = (Raise (OverflowError (ustr "int too large to convert to float")),
         print (join [44] header) w).
Proof.
  intros rt header later w.
  assert (H : forall w0, clean_and_normalize_row rt overflow_row w0
            = (Raise (OverflowError (ustr "int too large to convert to float")), w0)).
  { intros w0. unfold clean_and_normalize_row.
    replace (normalize_fields rt overflow_row)
      with (@Raise (list pystr)
              (OverflowError (ustr "int too large to convert to float")))
      by (vm_compute; reflexivity).
    reflexivity. }
  split; [reflexivity |].
  split; [vm_compute; reflexivity |].
  split; [vm_compute; reflexivity |].
  split; [repeat split; vm_compute; reflexivity |].
  split; [vm_compute; reflexivity |].
  split; [apply H |].
  unfold read_and_clean_file. rewrite process_rows_cons, H. reflexivity.
Qed.

(** ** Rows of any length *)

Lemma format_timestamp_cases rt (s : pystr) :
  (exists ts, format_timestamp rt s = Ok ts) \/
  (exists msg, format_timestamp rt s = Raise (ValueError msg)).
Proof.
  destruct (format_timestamp rt s) as [ts | e] eqn:E; [left; now exists ts |].
  destruct (format_timestamp_raises rt s e E) as [msg ->]. right. now exists msg.
Qed.

Lemma validate_zip_cases rt (s : pystr) :
  (exists zip, validate_zip rt s = Ok zip) \/
  (exists msg, validate_zip rt s = Raise (ValueError msg)).
Proof.
  rewrite validate_zip_of_py_int.
  destruct (py_int rt s) as [v | e] eqn:E; [left; eexists; reflexivity |].
  destruct (py_int_raises rt s e E) as [msg ->]. right. now exists msg.
Qed.

Lemma convert_duration_cases rt (s : pystr) :
  (exists x, convert_duration rt s = Ok x) \/
  (exists msg, convert_duration rt s = Raise (ValueError msg)) \/
  convert_duration rt s = Raise overflow_error.
Proof.
  destruct (convert_duration rt s) as [x | e] eqn:E; [left; now exists x |].
  destruct (convert_duration_raises rt s e E) as [[msg ->] | [-> _]].
  - right. left. now exists msg.
  - right. right. reflexivity.
Qed.

(** The steps of [normalize_fields], one field at a time. *)
Ltac step_timestamp rt f :=
  let ts := fresh "ts" in let m := fresh "msg" in let H := fresh "Hts" in
  destruct (format_timestamp_cases rt f) as [[ts H] | [m H]];
  rewrite H; cbn [bind].

Ltac step_zip rt f :=
  let z := fresh "zip" in let m := fresh "msg" in let H := fresh "Hzip" in
  destruct (validate_zip_cases rt f) as [[z H] | [m H]];
  rewrite H; cbn [bind].

Ltac step_duration rt f :=
  let x := fresh "dur" in let m := fresh "msg" in let H := fresh "Hdur" in
  destruct (convert_duration_cases rt f) as [[x H] | [[m H] | H]];
  rewrite H; cbn [bind].

Lemma normalize_fields_ok rt (row out : list pystr) :
  normalize_fields rt row = Ok out <->
  (8 <= List.length row)%nat /\
  exists ts zip foo bar,
    format_timestamp rt (nth 0 row []) = Ok ts /\
    validate_zip rt (nth 2 row []) = Ok zip /\
    convert_duration rt (nth 4 row []) = Ok foo /\
    convert_duration rt (nth 5 row []) = Ok bar /\
    out = [ts; clean_address (nth 1 row []); zip;
           format_full_name rt (nth 3 row []); float_str foo; float_str bar;
           float_str (get_total_duration foo bar); nth 7 row []].
Proof.
  split.
  - intros H.
    destruct row as [| f0 [| f1 [| f2 [| f3 [| f4 [| f5 [| f6 [| f7 extra]]]]]]]];
      unfold normalize_fields, getitem in H; cbn [nth_error bind app] in H.
    1-8: exfalso;
      repeat (apply bind_ok in H; destruct H as (? & _ & H)); discriminate H.
    apply bind_ok in H. destruct H as (ts & Hts & H).
    apply bind_ok in H. destruct H as (zip & Hzip & H).
    apply bind_ok in H. destruct H as (foo & Hfoo & H).
    apply bind_ok in H. destruct H as (bar & Hbar & H).
    injection H as <-. split; [cbn [List.length]; lia |].
    exists ts, zip, foo, bar. cbn [nth].
    repeat (split; [assumption |]). reflexivity.
  - intros (Hlen & ts & zip & foo & bar & Hts & Hzip & Hfoo & Hbar & ->).
    destruct row as [| f0 [| f1 [| f2 [| f3 [| f4 [| f5 [| f6 [| f7 extra]]]]]]]];
      cbn [List.length] in Hlen; try lia.
    cbn [nth] in *.
    unfold normalize_fields, getitem. cbn [nth_error bind app].
    rewrite Hts. cbn [bind]. rewrite Hzip. cbn [bind].
    rewrite Hfoo. cbn [bind]. rewrite Hbar. reflexivity.
Qed.

Lemma normalize_fields_length rt (row out : list pystr) :
  normalize_fields rt row = Ok out -> List.length out = 8%nat.
Proof.
  intros H. apply normalize_fields_ok in H.
  destruct H as (_ & ts & zip & foo & bar & _ & _ & _ & _ & ->). reflexivity.
Qed.

Lemma normalize_fields_raises rt (row : list pystr) (e : exn) :
  normalize_fields rt row = Raise e ->
  (exists msg, e = ValueError msg) \/
  (e = index_error /\ (List.length row < 8)%nat) \/
  e = overflow_error.
Proof.
  intros H.
  destruct row as [| f0 [| f1 [| f2 [| f3 [| f4 [| f5 [| f6 [| f7 extra]]]]]]]];
    unfold normalize_fields, getitem in H; cbn [nth_error bind app] in H.
  all: try (injection H as <-; right; left; split;
            [reflexivity | cbn [List.length]; lia]).
  all: apply bind_raise in H; destruct H as [H | (ts & _ & H)];
    [left; exact (format_timestamp_raises _ _ _ H) |].
  all: try (injection H as <-; right; left; split;
            [reflexivity | cbn [List.length]; lia]).
  all: apply bind_raise in H; destruct H as [H | (zip & _ & H)];
    [left; destruct (validate_zip_cases rt f2) as [[z Hz] | [m Hz]];
     rewrite Hz in H; [discriminate H | injection H as <-; now exists m] |].
  all: try (injection H as <-; right; left; split;
            [reflexivity | cbn [List.length]; lia]).
  all: apply bind_raise in H; destruct H as [H | (foo & _ & H)];
    [destruct (convert_duration_raises _ _ _ H) as [Hv | [Ho _]];
     [left; exact Hv | right; right; exact Ho] |].
  all: try (injection H as <-; right; left; split;
            [reflexivity | cbn [List.length]; lia]).
  all: apply bind_raise in H; destruct H as [H | (bar & _ & H)];
    [destruct (convert_duration_raises _ _ _ H) as [Hv | [Ho _]];
     [left; exact Hv | right; right; exact Ho] |].
  all: try (injection H as <-; right; left; split;
            [reflexivity | cbn [List.length]; lia]).
  discriminate H.
Qed.

(** What one row does to the channels. *)
Lemma process_rows_step rt (row : list pystr) (rest : list (list pystr)) (w : io) :
  process_rows rt (row :: rest) w
  = match normalize_fields rt row with
    | Ok out => process_rows rt rest (print (join [44] out) w)
    | Raise (ValueError msg) => process_rows rt rest (print_error msg w)
    | Raise e => (Raise e, w)
    end.
Proof.
  rewrite process_rows_cons. unfold clean_and_normalize_row.
  destruct (normalize_fields rt row) as [out | [msg | msg | msg |]] eqn:E;
    try reflexivity.
  apply normalize_fields_ok in E.
  destruct E as (_ & ts & zip & foo & bar & _ & _ & _ & _ & ->). reflexivity.
Qed.

(** ** The loop over the data rows *)

(** X1: the loop over the data rows composes: the rows [first ++ second] are
    processed as [first] and then, when no exception has left the loop,
    [second], on the channels as [first] has left them; an exception raised
    in [first] ends the run and [second] is never read. *)
Theorem process_rows_app :
  forall (rt : Runtime) (first second : list (list pystr)) (w : io),
    process_rows rt (first ++ second) w
    = match process_rows rt first w with
      | (Ok _, w1) => process_rows rt second w1
      | (Raise e, w1) => (Raise e, w1)
      end.
Proof.
  intros rt first second. induction first as [| row rest IH]; intros w.
  - reflexivity.
  - rewrite <- app_comm_cons, !process_rows_step.
    destruct (normalize_fields rt row) as [out | [msg | msg | msg |]];
      try reflexivity; apply IH.
Qed.

Lemma process_rows_lines rt (rows : list (list pystr)) :
  forall w w' : io,
    process_rows rt rows w = (Ok tt, w') ->
    std_out w' = std_out w ++ flat_map (output_lines rt) rows /\
    std_err w' = std_err w ++ flat_map (warning_lines rt) rows /\
    (forall row, In row rows ->
       List.length (output_lines rt row ++ warning_lines rt row) = 1%nat).
Proof.
  induction rows as [| row rest IH]; intros w w' H.
  - injection H as <-. cbn [flat_map]. rewrite !app_nil_r.
    repeat split. intros row [].
  - rewrite process_rows_step in H. cbn [flat_map].
    unfold output_lines at 1, warning_lines at 1.
    destruct (normalize_fields rt row) as [out | [msg | msg | msg |]] eqn:E;
      try discriminate H;
      destruct (IH _ _ H) as (Ho & He & Hall);
      cbn [print print_error std_out std_err] in Ho, He;
      try rewrite <- app_assoc in Ho; try rewrite <- app_assoc in He;
      (split; [exact Ho |]); (split; [exact He |]);
      (intros r [<- | Hin]; [| now apply Hall]);
      unfold output_lines, warning_lines; rewrite E; reflexivity.
Qed.

(** X2: a run that ends without an exception has printed the header line and
    then, in the order of the input, one output line for each accepted data
    row, and on the error channel, in the order of the input, one warning
    for each dropped row; every data row has left exactly one line on
    exactly one of the two channels, so that the two channels have grown by
    as many lines as the input has rows. *)
Theorem completed_run_lines :
  forall (rt : Runtime) (header : list pystr) (rows : list (list pystr))
         (w w' : io),
    read_and_clean_file rt (header :: rows) w = (Ok tt, w') ->
    std_out w' = std_out w ++ join [44] header :: flat_map (output_lines rt) rows /\
    std_err w' = std_err w ++ flat_map (warning_lines rt) rows /\
    (forall row, In row rows ->
       List.length (output_lines rt row ++ warning_lines rt row) = 1%nat) /\
    (List.length (std_out w') + List.length (std_err w')
     = List.length (std_out w) + List.length (std_err w)
       + List.length (header :: rows))%nat.
Proof.
  intros rt header rows w w' H. unfold read_and_clean_file in H.
  destruct (process_rows_lines rt rows _ _ H) as (Ho & He & Hall).
  cbn [print std_out std_err] in Ho, He. rewrite <- app_assoc in Ho.
  split; [exact Ho |]. split; [exact He |]. split; [exact Hall |].
  rewrite Ho, He, !length_app. cbn [app List.length].
  assert (Hn : (List.length (flat_map (output_lines rt) rows)
                + List.length (flat_map (warning_lines rt) rows)
                = List.length rows)%nat).
  { clear - Hall. induction rows as [| row rest IH]; [reflexivity |].
    cbn [flat_map]. rewrite !length_app. cbn [List.length].
    pose proof (Hall row (or_introl eq_refl)) as H1.
    rewrite length_app in H1.
    assert (H2 := IH (fun r Hr => Hall r (or_intror Hr))). lia. }
  lia.
Qed.

Lemma completed_run_lines_witness :
  let header := [ustr "Timestamp"; ustr "Address"] in
  let rows := [sample_row; [ustr "yesterday"]; sample_row] in
  let w' := snd (read_and_clean_file ascii_runtime (header :: rows) empty_io) in
  std_out w'
  = std_out empty_io
    ++ join [44] header :: flat_map (output_lines ascii_runtime) rows /\
  std_err w' = std_err empty_io ++ flat_map (warning_lines ascii_runtime) rows /\
  (forall row, In row rows ->
     List.length (output_lines ascii_runtime row ++ warning_lines ascii_runtime row)
     = 1%nat) /\
  (List.length (std_out w') + List.length (std_err w')
   = List.length (std_out empty_io) + List.length (std_err empty_io)
     + List.length (header :: rows))%nat.
Proof.
  apply (completed_run_lines ascii_runtime [ustr "Timestamp"; ustr "Address"]
           [sample_row; [ustr "yesterday"]; sample_row] empty_io).
  vm_compute. reflexivity.
Defined.

Lemma process_rows_raise rt (rows : list (list pystr)) :
  forall (w w' : io) (e : exn),
    process_rows rt rows w = (Raise e, w') ->
    exists before bad after,
      rows = before ++ bad :: after /\
      process_rows rt before w = (Ok tt, w') /\
      normalize_fields rt bad = Raise e /\
      ((e = index_error /\ (List.length bad < 8)%nat) \/ e = overflow_error).
Proof.
  induction rows as [| row rest IH]; intros w w' e H; [discriminate H |].
  rewrite process_rows_step in H.
  assert (Hbad : forall e0, normalize_fields rt row = Raise e0 ->
                 (forall msg, e0 <> ValueError msg) ->
                 (Raise e0, w) = (@Raise unit e, w') ->
                 exists before bad after,
                   row :: rest = before ++ bad :: after /\
                   process_rows rt before w = (Ok tt, w') /\
                   normalize_fields rt bad = Raise e /\
                   ((e = index_error /\ (List.length bad < 8)%nat)
                    \/ e = overflow_error)).
  { intros e0 E Hne Heq. injection Heq as <- <-.
    exists [], row, rest. split; [reflexivity |]. split; [reflexivity |].
    split; [exact E |].
    destruct (normalize_fields_raises rt row e0 E) as [[msg ->] | [Hi | Ho]];
      [exfalso; now apply (Hne msg) | left; exact Hi | right; exact Ho]. }
  assert (Hgo : forall w1, process_rows rt [row] w = (Ok tt, w1) ->
                process_rows rt rest w1 = (Raise e, w') ->
                exists before bad after,
                  row :: rest = before ++ bad :: after /\
                  process_rows rt before w = (Ok tt, w') /\
                  normalize_fields rt bad = Raise e /\
                  ((e = index_error /\ (List.length bad < 8)%nat)
                   \/ e = overflow_error)).
  { intros w1 Hrow Hrest.
    destruct (IH _ _ _ Hrest) as (before & bad & after & -> & Hb & Hn & He).
    exists (row :: before), bad, after. split; [reflexivity |].
    split; [| split; assumption].
    change (row :: before) with ([row] ++ before).
    rewrite process_rows_step in Hrow. rewrite <- app_comm_cons, process_rows_step.
    cbn [app].
    destruct (normalize_fields rt row) as [out | [msg | msg | msg |]];
      try discriminate Hrow; cbn [process_rows] in Hrow; injection Hrow as <-;
      exact Hb. }
  destruct (normalize_fields rt row) as [out | [msg | msg | msg |]] eqn:E.
  - apply (Hgo (print (join [44] out) w)); [| exact H].
    rewrite process_rows_step, E. reflexivity.
  - apply (Hgo (print_error msg w)); [| exact H].
    rewrite process_rows_step, E. reflexivity.
  - apply (Hbad _ eq_refl); [discriminate | exact H].
  - apply (Hbad _ eq_refl); [discriminate | exact H].
  - apply (Hbad _ eq_refl); [discriminate | exact H].
Qed.

(** X3: for given rows, those that [csv.reader] has yielded, and channels on
    which every [print] succeeds: when an exception leaves the processing of
    the rows in [read_and_clean_file], either there is no row at all ([next]
    raises [StopIteration], nothing is printed), or a data row has raised
    [IndexError] (it has fewer than eight fields) or the [OverflowError] of a
    duration; no [ValueError] of the normalization of a row leaves it.  What
    has been printed is what the run on the header and the rows before that
    row prints.  The errors of reading, decoding and parsing the input and
    of writing to the streams are not modelled, and the statement is not
    about them. *)
Theorem run_failure_causes :
  forall (rt : Runtime) (csv_rows : list (list pystr)) (w w' : io) (e : exn),
    read_and_clean_file rt csv_rows w = (Raise e, w') ->
    (csv_rows = [] /\ e = StopIteration /\ w' = w) \/
    (exists header before bad after,
        csv_rows = header :: before ++ bad :: after /\
        read_and_clean_file rt (header :: before) w = (Ok tt, w') /\
        normalize_fields rt bad = Raise e /\
        ((e = index_error /\ (List.length bad < 8)%nat) \/ e = overflow_error)).
Proof.
  intros rt csv_rows w w' e H. destruct csv_rows as [| header rows].
  - left. injection H as <- <-. repeat split.
  - right. unfold read_and_clean_file in H.
    destruct (process_rows_raise rt rows _ _ _ H)
      as (before & bad & after & -> & Hb & Hn & He).
    exists header, before, bad, after. repeat split; assumption.
Qed.

Lemma run_failure_causes_witness :
  let csv_rows := [[ustr "Timestamp"]; sample_row; []; sample_row] in
  let w' := snd (read_and_clean_file ascii_runtime csv_rows empty_io) in
  (csv_rows = [] /\ index_error = StopIteration /\ w' = empty_io) \/
  (exists header before bad after,
      csv_rows = header :: before ++ bad :: after /\
      read_and_clean_file ascii_runtime (header :: before) empty_io = (Ok tt, w') /\
      normalize_fields ascii_runtime bad = Raise index_error /\
      ((index_error = index_error /\ (List.length bad < 8)%nat)
       \/ index_error = overflow_error)).
Proof.
  apply (run_failure_causes ascii_runtime
           [[ustr "Timestamp"]; sample_row; []; sample_row] empty_io).
  vm_compute. reflexivity.
Defined.

(** X4: a row of any length is accepted exactly when it has at least eight
    fields and its timestamp, its zip and its two durations are accepted;
    the result has the eight fields built from the fields 0 to 5 and 7 of
    the row, and nothing is printed.  The address, the name, field 6, the
    notes and the fields from 8 on never decide. *)
Theorem row_accepted_iff :
  forall (rt : Runtime) (row out : list pystr) (w w' : io),
    clean_and_normalize_row rt row w = (Ok (Some out), w') <->
    w' = w /\ (8 <= List.length row)%nat /\
    exists ts zip foo bar,
      format_timestamp rt (nth 0 row []) = Ok ts /\
      validate_zip rt (nth 2 row []) = Ok zip /\
      convert_duration rt (nth 4 row []) = Ok foo /\
      convert_duration rt (nth 5 row []) = Ok bar /\
      out = [ts; clean_address (nth 1 row []); zip;
             format_full_name rt (nth 3 row []); float_str foo; float_str bar;
             float_str (get_total_duration foo bar); nth 7 row []].
Proof.
  intros rt row out w w'. rewrite <- normalize_fields_ok.
  unfold clean_and_normalize_row.
  destruct (normalize_fields rt row) as [o | [msg | msg | msg |]]; split;
    try (intros H; discriminate H); try (intros [_ H]; discriminate H).
  - intros H. injection H as <- <-. split; reflexivity.
  - intros [-> H]. injection H as <-. reflexivity.
Qed.

Lemma row_accepted_iff_witness :
  clean_and_normalize_row ascii_runtime sample_row empty_io
  = (Ok (Some [ustr "2002-10-02T13:00:00-05:00";
               34 :: ustr "123 Main St, Apt 4" ++ [34]; ustr "00123";
               ustr "JANE DOE"; ustr "3723.5"; ustr "1.0"; ustr "3724.5";
               ustr "note"]), empty_io).
Proof.
  apply (proj2 (row_accepted_iff ascii_runtime sample_row _ empty_io empty_io)).
  split; [reflexivity |]. split; [simpl; lia |].
  exists (ustr "2002-10-02T13:00:00-05:00"), (ustr "00123"),
    (float_of_ratio false 7447 2), (float_of_ratio false 1 1).
  repeat split; vm_compute; reflexivity.
Defined.

(** X5: a row is dropped with a warning exactly when the first step that
    fails fails with a [ValueError], and the warning carries the text of
    that error: the timestamp of a row that has one; or the zip of a row of
    at least three fields whose timestamp is accepted; or the first duration
    of a row of at least five fields; or the second duration of a row of at
    least six fields, the earlier fields being accepted.  A bad timestamp is
    reported even when the row is too short to be accepted. *)
Theorem row_dropped_iff :
  forall (rt : Runtime) (row : list pystr) (w w' : io),
    clean_and_normalize_row rt row w = (Ok None, w') <->
    exists msg,
      w' = print_error msg w /\
      (((1 <= List.length row)%nat /\
        format_timestamp rt (nth 0 row []) = Raise (ValueError msg)) \/
       ((3 <= List.length row)%nat /\
        is_ok (format_timestamp rt (nth 0 row [])) = true /\
        validate_zip rt (nth 2 row []) = Raise (ValueError msg)) \/
       ((5 <= List.length row)%nat /\
        is_ok (format_timestamp rt (nth 0 row [])) = true /\
        is_ok (validate_zip rt (nth 2 row [])) = true /\
        convert_duration rt (nth 4 row []) = Raise (ValueError msg)) \/
       ((6 <= List.length row)%nat /\
        is_ok (format_timestamp rt (nth 0 row [])) = true /\
        is_ok (validate_zip rt (nth 2 row [])) = true /\
        is_ok (convert_duration rt (nth 4 row [])) = true /\
        convert_duration rt (nth 5 row []) = Raise (ValueError msg))).
Proof.
  intros rt row w w'.
  assert (Hrow : clean_and_normalize_row rt row w = (Ok None, w') <->
                 exists msg, w' = print_error msg w /\
                             normalize_fields rt row = Raise (ValueError msg)).
  { unfold clean_and_normalize_row.
    destruct (normalize_fields rt row) as [o | [msg | msg | msg |]]; split;
      try (intros H; discriminate H); try (intros (m & _ & H); discriminate H).
    - intros H. injection H as <-. now exists msg.
    - intros (m & -> & H). injection H as ->. reflexivity. }
  rewrite Hrow. clear Hrow.
  split; intros (msg & Hw & H); exists msg; (split; [exact Hw |]); clear Hw;
    revert H;
    destruct row as [| f0 [| f1 [| f2 [| f3 [| f4 [| f5 [| f6 [| f7 extra]]]]]]]];
    unfold normalize_fields, getitem; cbn [nth_error bind app nth List.length].
  all: try (step_timestamp rt f0).
  all: try (step_zip rt f2).
  all: try (step_duration rt f4).
  all: try (step_duration rt f5).
  all: cbn [is_ok].
  all: try (intros H; discriminate H).
  all: try (intros H; injection H as ->).
  all: try (intros [[Hl H] | [(Hl & H1 & H) | [(Hl & H1 & H2 & H) | (Hl & H1 & H2 & H3 & H)]]];
            try discriminate; try (exfalso; lia); try (injection H as ->; reflexivity)).
  all: try (left; split; [lia | reflexivity]).
  all: try (right; left; split; [lia | split; reflexivity]).
  all: try (right; right; left; split; [lia | repeat split; reflexivity]).
  all: try (right; right; right; split; [lia | repeat split; reflexivity]).
Qed.

Lemma row_dropped_iff_witness :
  clean_and_normalize_row ascii_runtime [ustr "yesterday"] empty_io
  = (Ok None,
     print_error
       (ustr "time data 'yesterday' does not match format '%m/%d/%y %I:%M:%S %p'")
       empty_io).
Proof.
  apply (proj2 (row_dropped_iff ascii_runtime [ustr "yesterday"] empty_io _)).
  exists (ustr "time data 'yesterday' does not match format '%m/%d/%y %I:%M:%S %p'").
  split; [reflexivity |]. left. split; [simpl; lia |]. vm_compute. reflexivity.
Defined.

(** ** [clean_address], continued *)

Lemma clean_address_inj (a b : pystr) :
  clean_address a = clean_address b -> a = b.
Proof.
  unfold clean_address.
  destruct (contains 44 a) eqn:Ea; destruct (contains 44 b) eqn:Eb; intros H.
  - injection H as H. now apply app_inv_tail in H.
  - exfalso. apply contains_In in Ea. apply contains_not_In in Eb. apply Eb.
    rewrite <- H. right. apply in_or_app. now left.
  - exfalso. apply contains_In in Eb. apply contains_not_In in Ea. apply Ea.
    rewrite H. right. apply in_or_app. now left.
  - exact H.
Qed.

(** X6: [clean_address] maps different addresses to different results, and
    its result contains a comma exactly when the address does. *)
Theorem clean_address_injective :
  forall a b : pystr,
    (a <> b -> clean_address a <> clean_address b) /\
    (In 44 (clean_address a) <-> In 44 a).
Proof.
  intros a b. split.
  - intros Hne Heq. apply Hne. now apply clean_address_inj.
  - unfold clean_address. destruct (contains 44 a) eqn:Ea; [| reflexivity].
    apply contains_In in Ea. split; [intros _; exact Ea |].
    intros _. right. apply in_or_app. now left.
Qed.

Lemma clean_address_injective_witness :
  clean_address (ustr "1 Main St, Apt 4")
  <> clean_address (34 :: ustr "1 Main St, Apt 4" ++ [34]).
Proof.
  apply (proj1 (clean_address_injective (ustr "1 Main St, Apt 4")
                  (34 :: ustr "1 Main St, Apt 4" ++ [34]))).
  discriminate.
Defined.

(** ** [split] and [join] *)

Lemma split_on_nonempty (sep : Z) (s : pystr) : split_on sep s <> [].
Proof.
  destruct s as [| c s]; simpl; [discriminate |].
  destruct (c =? sep); [discriminate |].
  destruct (split_on sep s); discriminate.
Qed.

Lemma split_on_cons_sep (sep : Z) (s : pystr) :
  split_on sep (sep :: s) = [] :: split_on sep s.
Proof. simpl. now rewrite Z.eqb_refl. Qed.

Lemma split_on_cons_other (sep c : Z) (s : pystr) :
  c <> sep ->
  split_on sep (c :: s)
  = (c :: hd [] (split_on sep s)) :: tl (split_on sep s).
Proof.
  intros Hc. simpl. destruct (Z.eqb_spec c sep) as [E | _]; [contradiction |].
  pose proof (split_on_nonempty sep s) as Hn.
  destruct (split_on sep s); [contradiction | reflexivity].
Qed.

Lemma split_on_length (sep : Z) (s : pystr) :
  List.length (split_on sep s) = S (count_char sep s).
Proof.
  unfold count_char.
  induction s as [| c s IH]; [reflexivity |].
  cbn [count_occ]. destruct (Z.eq_dec c sep) as [-> | Hc].
  - rewrite split_on_cons_sep. cbn [List.length]. now rewrite IH.
  - rewrite split_on_cons_other by assumption.
    pose proof (split_on_nonempty sep s) as Hn.
    destruct (split_on sep s); [contradiction |]. exact IH.
Qed.

Lemma split_on_no_sep (sep : Z) (s : pystr) :
  ~ In sep s -> split_on sep s = [s].
Proof.
  induction s as [| c s IH]; intros H; [reflexivity |].
  rewrite split_on_cons_other by (intros ->; apply H; now left).
  rewrite IH by (intros Hin; apply H; now right). reflexivity.
Qed.

Lemma split_on_app (sep : Z) (a b : pystr) :
  ~ In sep a -> split_on sep (a ++ sep :: b) = a :: split_on sep b.
Proof.
  induction a as [| c a IH]; intros H.
  - apply split_on_cons_sep.
  - rewrite <- app_comm_cons.
    rewrite split_on_cons_other by (intros ->; apply H; now left).
    rewrite IH by (intros Hin; apply H; now right). reflexivity.
Qed.

Lemma join_cons (sep p : pystr) (q : pystr) (rest : list pystr) :
  join sep (p :: q :: rest) = p ++ sep ++ join sep (q :: rest).
Proof. reflexivity. Qed.

Lemma split_on_pieces (sep : Z) (s : pystr) :
  Forall (fun p => ~ In sep p) (split_on sep s).
Proof.
  induction s as [| c s IH].
  - constructor; [intros [] | constructor].
  - destruct (Z.eq_dec c sep) as [-> | Hc].
    + rewrite split_on_cons_sep. constructor; [intros [] | exact IH].
    + rewrite split_on_cons_other by assumption.
      pose proof (split_on_nonempty sep s) as Hn.
      destruct (split_on sep s) as [| p ps]; [contradiction |].
      inversion IH as [| ? ? Hp Hps]; subst. cbn [hd tl].
      constructor; [| exact Hps].
      intros [E | Hin]; [now apply Hc | now apply Hp].
Qed.

Lemma join_split_on (sep : Z) (s : pystr) : join [sep] (split_on sep s) = s.
Proof.
  induction s as [| c s IH]; [reflexivity |].
  pose proof (split_on_nonempty sep s) as Hn.
  destruct (Z.eq_dec c sep) as [-> | Hc].
  - rewrite split_on_cons_sep.
    destruct (split_on sep s) as [| p ps] eqn:E; [contradiction |].
    rewrite join_cons, IH. reflexivity.
  - rewrite split_on_cons_other by assumption.
    destruct (split_on sep s) as [| p ps] eqn:E; [contradiction |].
    cbn [hd tl]. destruct ps as [| q ps].
    + simpl in IH. subst. reflexivity.
    + rewrite join_cons. rewrite join_cons in IH. rewrite <- IH. reflexivity.
Qed.

Lemma split_on_join (sep : Z) (parts : list pystr) :
  parts <> [] -> Forall (fun p => ~ In sep p) parts ->
  split_on sep (join [sep] parts) = parts.
Proof.
  intros Hne Hall. induction parts as [| p rest IH]; [contradiction |].
  inversion Hall as [| ? ? Hp Hrest]; subst.
  destruct rest as [| q rest].
  - simpl. now apply split_on_no_sep.
  - rewrite join_cons. cbn [app]. rewrite split_on_app by assumption.
    rewrite IH; [reflexivity | discriminate | assumption].
Qed.

(** X7: [split] and [join] on one separator are inverse to each other: the
    pieces of a string joined again give the string, no piece contains the
    separator, there is one piece more than there are separators, and a
    nonempty list of pieces without the separator comes back from its
    joined text.  So the colon-separated parts of a duration lose nothing,
    and a header whose fields have no comma can be read back from its
    printed line. *)
Theorem split_join_round_trip :
  forall (sep : Z) (s : pystr) (parts : list pystr),
    join [sep] (split_on sep s) = s /\
    Forall (fun p => ~ In sep p) (split_on sep s) /\
    List.length (split_on sep s) = S (count_char sep s) /\
    (parts <> [] -> Forall (fun p => ~ In sep p) parts ->
     split_on sep (join [sep] parts) = parts).
Proof.
  intros sep s parts. split; [| split; [| split]].
  - apply join_split_on.
  - apply split_on_pieces.
  - apply split_on_length.
  - apply split_on_join.
Qed.

Lemma split_join_round_trip_witness :
  split_on 44 (join [44] [ustr "Timestamp"; ustr "Address"; ustr ""; ustr "ZIP"])
  = [ustr "Timestamp"; ustr "Address"; ustr ""; ustr "ZIP"].
Proof.
  apply (proj2 (proj2 (proj2
           (split_join_round_trip 44 []
              [ustr "Timestamp"; ustr "Address"; ustr ""; ustr "ZIP"])))).
  - discriminate.
  - repeat constructor; simpl; intuition discriminate.
Defined.

(** ** [convert_duration], continued *)

Lemma float_add_comm (x y : pyfloat) : float_add x y = float_add y x.
Proof.
  unfold float_add.
  destruct x as [| a | a m e], y as [| b | b m' e']; try reflexivity.
  - destruct a, b; reflexivity.
  - rewrite (Z.add_comm ((if a then - m else m) * 2 ^ (e + 1074))).
    now rewrite (andb_comm a b).
Qed.

(** X8: if a row of eight fields is accepted, so is the row with its two
    durations exchanged; in its result the two durations are exchanged, and
    the total and the other fields are the same. *)
Theorem swapped_durations_same_total :
  forall (rt : Runtime) (f0 f1 f2 f3 f4 f5 f6 f7 : pystr) (out : list pystr),
    normalize_fields rt [f0; f1; f2; f3; f4; f5; f6; f7] = Ok out ->
    exists out',
      normalize_fields rt [f0; f1; f2; f3; f5; f4; f6; f7] = Ok out' /\
      nth 4 out' [] = nth 5 out [] /\
      nth 5 out' [] = nth 4 out [] /\
      nth 6 out' [] = nth 6 out [] /\
      firstn 4 out' = firstn 4 out /\
      nth 7 out' [] = nth 7 out [].
Proof.
  intros rt f0 f1 f2 f3 f4 f5 f6 f7 out H.
  apply eight_fields_accepted in H.
  destruct H as (ts & zip & foo & bar & Hts & Hzip & Hfoo & Hbar & ->).
  eexists. split.
  - apply eight_fields_accepted. exists ts, zip, bar, foo.
    repeat (split; [assumption |]). reflexivity.
  - cbn [nth firstn]. unfold get_total_duration.
    rewrite (float_add_comm bar foo). repeat split.
Qed.

Lemma swapped_durations_same_total_witness :
  exists out',
    normalize_fields ascii_runtime
      (map ustr ["10/2/02 10:00:00 AM"; "123 Main St, Apt 4"; "123"; "jane doe";
                 "0:00:01.0"; "1:02:03.5"; "junk"; "note"]%string) = Ok out' /\
    nth 4 out' [] = ustr "1.0" /\
    nth 5 out' [] = ustr "3723.5" /\
    nth 6 out' [] = ustr "3724.5" /\
    firstn 4 out'
    = [ustr "2002-10-02T13:00:00-05:00"; 34 :: ustr "123 Main St, Apt 4" ++ [34];
       ustr "00123"; ustr "JANE DOE"] /\
    nth 7 out' [] = ustr "note".
Proof.
  apply (swapped_durations_same_total ascii_runtime
           (ustr "10/2/02 10:00:00 AM") (ustr "123 Main St, Apt 4") (ustr "123")
           (ustr "jane doe") (ustr "1:02:03.5") (ustr "0:00:01.0") (ustr "junk")
           (ustr "note")
           [ustr "2002-10-02T13:00:00-05:00"; 34 :: ustr "123 Main St, Apt 4" ++ [34];
            ustr "00123"; ustr "JANE DOE"; ustr "3723.5"; ustr "1.0";
            ustr "3724.5"; ustr "note"]).
  vm_compute. reflexivity.
Defined.

(** X9: [convert_duration] accepts only strings with exactly two colons; with
    fewer it fails with the text of the unpacking that has not enough
    values, which names the number of parts found, with more with the
    [ValueError] of the unpacking that has too many. *)
Theorem convert_duration_two_colons :
  forall (rt : Runtime) (duration : pystr),
    (forall x, convert_duration rt duration = Ok x ->
               count_char 58 duration = 2%nat) /\
    ((count_char 58 duration < 2)%nat ->
     convert_duration rt duration
     = Raise (ValueError
                (ustr "not enough values to unpack (expected 3, got "
                 ++ str_of_int (Z.of_nat (S (count_char 58 duration)))
                 ++ ustr ")"))) /\
    ((2 < count_char 58 duration)%nat ->
     exists msg, convert_duration rt duration = Raise (ValueError msg)).
Proof.
  intros rt duration. pose proof (split_on_length 58 duration) as Hlen.
  split; [| split].
  - intros x H. apply convert_duration_ok in H.
    destruct H as (h & m & s & _ & _ & _ & _ & Hs & _).
    rewrite Hs in Hlen. cbn [List.length] in Hlen. lia.
  - intros Hc. unfold convert_duration.
    destruct (split_on 58 duration) as [| a [| b [| c rest]]];
      cbn [List.length] in Hlen; try lia; cbn [unpack3 bind List.length];
      rewrite Hlen; reflexivity.
  - intros Hc. unfold convert_duration.
    destruct (split_on 58 duration) as [| a [| b [| c [| d rest]]]];
      cbn [List.length] in Hlen; try lia. eexists. reflexivity.
Qed.

Lemma convert_duration_two_colons_witness :
  count_char 58 (ustr "1:02:03.5") = 2%nat /\
  convert_duration ascii_runtime (ustr "62:03.5")
  = Raise (ValueError
             (ustr "not enough values to unpack (expected 3, got "
              ++ str_of_int (Z.of_nat (S (count_char 58 (ustr "62:03.5"))))
              ++ ustr ")")) /\
  exists msg,
    convert_duration ascii_runtime (ustr "0:1:02:03.5") = Raise (ValueError msg).
Proof.
  split; [| split].
  - apply (proj1 (convert_duration_two_colons ascii_runtime (ustr "1:02:03.5"))
             (float_of_ratio false 7447 2)).
    vm_compute. reflexivity.
  - apply (proj1 (proj2 (convert_duration_two_colons ascii_runtime (ustr "62:03.5")))).
    vm_compute. lia.
  - apply (proj2 (proj2 (convert_duration_two_colons ascii_runtime
                           (ustr "0:1:02:03.5")))).
    vm_compute. lia.
Defined.

(** ** [int] on ASCII digits *)

Lemma ascii_digit_range (c : Z) : is_ascii_digit c = true <-> 48 <= c <= 57.
Proof.
  unfold is_ascii_digit. rewrite andb_true_iff, !Z.leb_le. reflexivity.
Qed.

Lemma ascii_digits_below_128 (z : pystr) :
  forallb is_ascii_digit z = true -> forallb (fun c => c <? 128) z = true.
Proof.
  rewrite !forallb_forall. intros H c Hc. apply H in Hc.
  apply ascii_digit_range in Hc. apply Z.ltb_lt. lia.
Qed.

Lemma transform_below_128 rt (s : pystr) :
  forallb (fun c => c <? 128) s = true -> transform_decimal_and_space rt s = s.
Proof. intros H. unfold transform_decimal_and_space. now rewrite H. Qed.

Lemma scan_digits_app (ds rest : pystr) :
  forallb is_ascii_digit ds = true ->
  match rest with
  | [] => True
  | c :: _ => is_ascii_digit c = false /\ c <> 95
  end ->
  forall acc nd,
    scan_digits (ds ++ rest) false acc nd
    = Some (fold_left (fun a c => a * 10 + (c - 48)) ds acc, nd + len ds, rest).
Proof.
  intros Hds Hrest. induction ds as [| c ds IH]; intros acc nd.
  - cbn [app fold_left]. unfold len. cbn [List.length]. rewrite Z.add_0_r.
    destruct rest as [| c r]; [reflexivity |]. destruct Hrest as [Hc H95].
    cbn [scan_digits]. rewrite Hc.
    destruct (Z.eqb_spec c 95); [contradiction | reflexivity].
  - cbn [forallb] in Hds. apply andb_prop in Hds. destruct Hds as [Hc Hds].
    cbn [app scan_digits fold_left]. rewrite Hc, (IH Hds).
    unfold len. cbn [List.length]. do 3 f_equal. lia.
Qed.

Lemma scan_digits_all (ds : pystr) :
  forallb is_ascii_digit ds = true ->
  scan_digits ds false 0 0 = Some (digits_value ds, len ds, []).
Proof.
  intros H. pose proof (scan_digits_app ds [] H I 0 0) as E.
  now rewrite app_nil_r in E.
Qed.

(** [int] on a text whose first character is a digit: no blank to skip and
    no sign. *)
Lemma py_int_digit_first rt (s b : pystr) (c : Z) :
  transform_decimal_and_space rt s = c :: b -> is_ascii_digit c = true ->
  py_int rt s
  = match scan_digits (c :: b) false 0 0 with
    | None => Raise (int_invalid_literal rt s)
    | Some (v, nd, rest) =>
        if nd =? 0 then Raise (int_invalid_literal rt s)
        else if (640 <? nd) && (0 <? rt_int_max_str_digits rt)
                && (rt_int_max_str_digits rt <? nd)
        then Raise (int_limit_exceeded rt nd)
        else match lstrip py_isspace rest with
             | [] => Ok v
             | _ => Raise (int_invalid_literal rt s)
             end
    end.
Proof.
  intros H Hc. apply ascii_digit_range in Hc.
  assert (Hd : exists d, 0 <= d <= 9 /\ c = 48 + d) by (exists (c - 48); lia).
  destruct Hd as (d & Hd & ->). clear Hc.
  unfold py_int. rewrite H.
  enum_digit d; reflexivity.
Qed.

(** [int] on a sign followed by a digit. *)
Lemma py_int_sign_first rt (s b : pystr) (sign c : Z) :
  transform_decimal_and_space rt s = sign :: c :: b ->
  sign = 43 \/ sign = 45 -> is_ascii_digit c = true ->
  py_int rt s
  = match scan_digits (c :: b) false 0 0 with
    | None => Raise (int_invalid_literal rt s)
    | Some (v, nd, rest) =>
        if nd =? 0 then Raise (int_invalid_literal rt s)
        else if (640 <? nd) && (0 <? rt_int_max_str_digits rt)
                && (rt_int_max_str_digits rt <? nd)
        then Raise (int_limit_exceeded rt nd)
        else match lstrip py_isspace rest with
             | [] => Ok (if sign =? 45 then - v else v)
             | _ => Raise (int_invalid_literal rt s)
             end
    end.
Proof.
  intros H Hs Hc. apply ascii_digit_range in Hc.
  assert (Hd : exists d, 0 <= d <= 9 /\ c = 48 + d) by (exists (c - 48); lia).
  destruct Hd as (d & Hd & ->). clear Hc.
  unfold py_int. rewrite H.
  destruct Hs as [-> | ->]; enum_digit d; reflexivity.
Qed.

Lemma len_cons (c : Z) (s : pystr) : len (c :: s) = 1 + len s.
Proof. unfold len. cbn [List.length]. lia. Qed.

Lemma py_int_digits rt (z : pystr) :
  forallb is_ascii_digit z = true -> 1 <= len z <= 640 ->
  py_int rt z = Ok (digits_value z).
Proof.
  intros Hz Hlen. destruct z as [| c z']; [unfold len in Hlen; simpl in Hlen; lia |].
  rewrite (py_int_digit_first rt (c :: z') z' c).
  - rewrite (scan_digits_all _ Hz).
    destruct (Z.eqb_spec (len (c :: z')) 0); [lia |].
    destruct (Z.ltb_spec 640 (len (c :: z'))); [lia |]. reflexivity.
  - apply transform_below_128. now apply ascii_digits_below_128.
  - cbn [forallb] in Hz. now apply andb_prop in Hz.
Qed.

Lemma forallb_repeat_digit (n : nat) : forallb is_ascii_digit (repeat 48 n) = true.
Proof. induction n as [| n IH]; [reflexivity | exact IH]. Qed.

Lemma digits_value_zeros (n : nat) (z : pystr) :
  digits_value (repeat 48 n ++ z) = digits_value z.
Proof.
  unfold digits_value. rewrite fold_left_app. f_equal.
  induction n as [| n IH]; [reflexivity | exact IH].
Qed.

(** ** [validate_zip], continued *)

(** X10: on a zip of 1 to 640 ASCII digits [validate_zip] succeeds; its result
    is the zip behind the zeros that bring it to five characters, consists
    of ASCII digits, denotes the same integer, and is returned unchanged by
    a second application. *)
Theorem digit_zip_normal_form :
  forall (rt : Runtime) (zip_code : pystr),
    forallb is_ascii_digit zip_code = true -> 1 <= len zip_code <= 640 ->
    let out := repeat 48 (Z.to_nat (5 - len zip_code)) ++ zip_code in
    validate_zip rt zip_code = Ok out /\
    len out = Z.max 5 (len zip_code) /\
    forallb is_ascii_digit out = true /\
    py_int rt out = py_int rt zip_code /\
    validate_zip rt out = Ok out.
Proof.
  intros rt zip_code Hz Hlen out.
  assert (Hout : forallb is_ascii_digit out = true).
  { unfold out. rewrite forallb_app, forallb_repeat_digit. exact Hz. }
  assert (Hl : len out = Z.max 5 (len zip_code)).
  { unfold out. rewrite len_app, len_repeat. lia. }
  assert (Hi : py_int rt out = Ok (digits_value zip_code)).
  { rewrite py_int_digits by (try assumption; lia).
    unfold out. now rewrite digits_value_zeros. }
  split; [| split; [| split; [| split]]].
  - rewrite validate_zip_of_py_int, py_int_digits by assumption. reflexivity.
  - exact Hl.
  - exact Hout.
  - rewrite Hi. symmetry. now apply py_int_digits.
  - rewrite validate_zip_of_py_int, Hi.
    replace (Z.to_nat (5 - len out)) with 0%nat by lia. reflexivity.
Qed.

Lemma digit_zip_normal_form_witness :
  let out := repeat 48 (Z.to_nat (5 - len (ustr "501"))) ++ ustr "501" in
  validate_zip ascii_runtime (ustr "501") = Ok out /\
  len out = Z.max 5 (len (ustr "501")) /\
  forallb is_ascii_digit out = true /\
  py_int ascii_runtime out = py_int ascii_runtime (ustr "501") /\
  validate_zip ascii_runtime out = Ok out.
Proof.
  apply (digit_zip_normal_form ascii_runtime (ustr "501")).
  - reflexivity.
  - vm_compute. split; discriminate.
Defined.

(** X11: [validate_zip] accepts a sign followed by one to three digits, since
    [int] does, and writes the zeros in front of the sign; the result has
    five characters and is no integer literal: [validate_zip] itself rejects
    it. *)
Theorem signed_zip_output_rejected :
  forall (rt : Runtime) (sign : Z) (digits : pystr),
    sign = 43 \/ sign = 45 ->
    forallb is_ascii_digit digits = true -> 1 <= len digits <= 3 ->
    let out := repeat 48 (Z.to_nat (4 - len digits)) ++ sign :: digits in
    validate_zip rt (sign :: digits) = Ok out /\
    len out = 5 /\
    validate_zip rt out = Raise (int_invalid_literal rt out).
Proof.
  intros rt sign digits Hs Hd Hlen out.
  assert (H128 : forallb (fun c => c <? 128) (sign :: digits) = true).
  { cbn [forallb]. rewrite (ascii_digits_below_128 _ Hd).
    destruct Hs as [-> | ->]; reflexivity. }
  assert (Hsign : is_ascii_digit sign = false /\ sign <> 95)
    by (destruct Hs as [-> | ->]; split; (reflexivity || discriminate)).
  split; [| split].
  - rewrite validate_zip_of_py_int.
    destruct digits as [| c ds]; [unfold len in Hlen; simpl in Hlen; lia |].
    rewrite (py_int_sign_first rt (sign :: c :: ds) ds sign c);
      [| now apply transform_below_128 | exact Hs
       | cbn [forallb] in Hd; now apply andb_prop in Hd].
    rewrite (scan_digits_all _ Hd).
    destruct (Z.eqb_spec (len (c :: ds)) 0); [lia |].
    destruct (Z.ltb_spec 640 (len (c :: ds))); [lia |]. cbn [andb lstrip].
    unfold out. rewrite len_cons. do 3 f_equal. lia.
  - unfold out. rewrite len_app, len_repeat, len_cons. lia.
  - rewrite validate_zip_of_py_int. unfold out.
    destruct (Z.to_nat (4 - len digits)) as [| k] eqn:Ek; [lia |].
    cbn [repeat app].
    rewrite (py_int_digit_first rt _ (repeat 48 k ++ sign :: digits) 48);
      [| apply transform_below_128; cbn [forallb]; rewrite forallb_app;
         rewrite (ascii_digits_below_128 _ (forallb_repeat_digit k));
         exact H128
       | reflexivity].
    change (48 :: repeat 48 k ++ sign :: digits)
      with (repeat 48 (S k) ++ sign :: digits).
    rewrite (scan_digits_app (repeat 48 (S k)) (sign :: digits)
               (forallb_repeat_digit (S k)) Hsign).
    rewrite len_repeat.
    destruct (Z.eqb_spec (0 + Z.of_nat (S k)) 0); [lia |].
    destruct (Z.ltb_spec 640 (0 + Z.of_nat (S k))); [lia |]. cbn [andb].
    assert (Hsp : lstrip py_isspace (sign :: digits) = sign :: digits)
      by (destruct Hs as [-> | ->]; reflexivity).
    rewrite Hsp. reflexivity.
Qed.

Lemma signed_zip_output_rejected_witness :
  let out := repeat 48 (Z.to_nat (4 - len (ustr "12"))) ++ 45 :: ustr "12" in
  validate_zip ascii_runtime (45 :: ustr "12") = Ok out /\
  len out = 5 /\
  validate_zip ascii_runtime out = Raise (int_invalid_literal ascii_runtime out).
Proof.
  apply (signed_zip_output_rejected ascii_runtime 45 (ustr "12")).
  - right. reflexivity.
  - reflexivity.
  - vm_compute. split; discriminate.
Defined.

(** ** [format_timestamp]: the text of the result *)

Lemma digit_char (n : Z) : 0 <= n <= 9 -> is_ascii_digit (48 + n) = true.
Proof. intros H. apply ascii_digit_range. lia. Qed.

(** X12: every result of [format_timestamp] has 25 characters: four digits, a
    hyphen, two digits, a hyphen, two digits, the letter T, two digits, a
    colon, two digits, a colon, two digits and the offset [-05:00]; it has no
    comma, so [clean_address] would leave it as it is. *)
Theorem format_timestamp_output_shape :
  forall (rt : Runtime) (timestamp out : pystr),
    format_timestamp rt timestamp = Ok out ->
    len out = 25 /\
    nth 4 out 0 = 45 /\ nth 7 out 0 = 45 /\ nth 10 out 0 = 84 /\
    nth 13 out 0 = 58 /\ nth 16 out 0 = 58 /\
    skipn 19 out = ustr "-05:00" /\
    forallb is_ascii_digit
      (firstn 4 out ++ firstn 2 (skipn 5 out) ++ firstn 2 (skipn 8 out)
       ++ firstn 2 (skipn 11 out) ++ firstn 2 (skipn 14 out)
       ++ firstn 2 (skipn 17 out)) = true /\
    clean_address out = out.
Proof.
  intros rt timestamp out H.
  rewrite format_timestamp_of_strptime in H.
  destruct (strptime rt timestamp) as [d | e] eqn:E; [| discriminate H].
  injection H as <-. destruct (strptime_ok rt timestamp d E) as [_ Hf].
  rewrite (isoformat_eastern d Hf).
  destruct (eastern_of_range d Hf) as (Hy & Hm & Hd & Hh & Emi & Ese & _).
  destruct Hf as (_ & _ & _ & _ & Hmi & Hse & _).
  rewrite <- Emi in Hmi. rewrite <- Ese in Hse.
  remember (eastern_of d) as t eqn:Et. clear Et Emi Ese E.
  unfold rfc3339_eastern, four_digits, two_digits.
  assert (D : forall n, 0 <= n <= 99 ->
                is_ascii_digit (48 + n / 10) = true /\
                is_ascii_digit (48 + n mod 10) = true).
  { intros n Hn. split; apply digit_char; Z.div_mod_to_equations; lia. }
  assert (Y : is_ascii_digit (48 + dt_year t / 1000) = true /\
              is_ascii_digit (48 + (dt_year t / 100) mod 10) = true /\
              is_ascii_digit (48 + (dt_year t / 10) mod 10) = true /\
              is_ascii_digit (48 + dt_year t mod 10) = true).
  { repeat split; apply digit_char; Z.div_mod_to_equations; lia. }
  destruct Y as (Y1 & Y2 & Y3 & Y4).
  destruct (D (dt_month t) ltac:(lia)) as [M1 M2].
  destruct (D (dt_day t) ltac:(lia)) as [D1 D2].
  destruct (D (dt_hour t) ltac:(lia)) as [H1 H2].
  destruct (D (dt_minute t) ltac:(lia)) as [I1 I2].
  destruct (D (dt_second t) ltac:(lia)) as [S1 S2].
  repeat (split; [reflexivity |]).
  split.
  - cbn [app firstn skipn forallb].
    rewrite Y1, Y2, Y3, Y4, M1, M2, D1, D2, H1, H2, I1, I2, S1, S2. reflexivity.
  - apply clean_address_without_comma. cbn [app].
    apply ascii_digit_range in Y1, Y2, Y3, Y4, M1, M2, D1, D2, H1, H2, I1, I2, S1, S2.
    cbn [In ustr map list_ascii_of_string].
    intros Hin.
    repeat (destruct Hin as [Hin | Hin];
            [first [lia | discriminate Hin] |]).
    exact Hin.
Qed.

Lemma format_timestamp_output_shape_witness :
  let out := ustr "2003-01-01T02:59:59-05:00" in
  len out = 25 /\
  nth 4 out 0 = 45 /\ nth 7 out 0 = 45 /\ nth 10 out 0 = 84 /\
  nth 13 out 0 = 58 /\ nth 16 out 0 = 58 /\
  skipn 19 out = ustr "-05:00" /\
  forallb is_ascii_digit
    (firstn 4 out ++ firstn 2 (skipn 5 out) ++ firstn 2 (skipn 8 out)
     ++ firstn 2 (skipn 11 out) ++ firstn 2 (skipn 14 out)
     ++ firstn 2 (skipn 17 out)) = true /\
  clean_address out = out.
Proof.
  apply (format_timestamp_output_shape ascii_runtime (ustr "12/31/02 11:59:59 PM")).
  vm_compute. reflexivity.
Defined.

(** ** Seconds that are not numbers *)

Lemma float_of_int_finite (z : Z) (f : pyfloat) :
  float_of_int z = Ok f -> exists neg m e, f = Ffin neg m e.
Proof.
  unfold float_of_int, float_zero. destruct (z =? 0).
  - intros H. injection H as <-. now exists false, 0, (-1074).
  - destruct (round_pos (Z.abs z) 1) as [m e]. destruct (971 <? e); [discriminate |].
    intros H. injection H as <-. now exists (z <? 0), m, e.
Qed.

Lemma split_three (h m s : pystr) :
  ~ In 58 h -> ~ In 58 m -> ~ In 58 s ->
  split_on 58 (h ++ 58 :: m ++ 58 :: s) = [h; m; s].
Proof.
  intros Hh Hm Hs. rewrite split_on_app by assumption.
  rewrite split_on_app by assumption. now rewrite split_on_no_sep.
Qed.

(** X13: the seconds of a duration may be [nan], [inf] or [-inf], which [float]
    accepts: with hours and minutes that are integers of a size that a float
    can hold, the duration is accepted and is not a number or infinite; it
    is printed as [nan], [inf] or [-inf]; a total with [nan] is [nan], and
    the total of [inf] and [-inf] is [nan]. *)
Theorem nonfinite_seconds_accepted :
  forall (rt : Runtime) (h m : pystr) (hv mv : Z) (whole : pyfloat),
    ~ In 58 h -> ~ In 58 m ->
    py_int rt h = Ok hv -> py_int rt m = Ok mv ->
    float_of_int (hv * 3600 + mv * 60) = Ok whole ->
    convert_duration rt (h ++ 58 :: m ++ 58 :: ustr "nan") = Ok Fnan /\
    convert_duration rt (h ++ 58 :: m ++ 58 :: ustr "inf") = Ok (Finf false) /\
    convert_duration rt (h ++ 58 :: m ++ 58 :: ustr "-inf") = Ok (Finf true) /\
    float_str Fnan = ustr "nan" /\
    float_str (Finf false) = ustr "inf" /\
    float_str (Finf true) = ustr "-inf" /\
    (forall other, get_total_duration Fnan other = Fnan) /\
    (forall other, get_total_duration other Fnan = Fnan) /\
    get_total_duration (Finf false) (Finf true) = Fnan.
Proof.
  intros rt h m hv mv whole Hh Hm Ehv Emv Ew.
  destruct (float_of_int_finite _ _ Ew) as (neg & mm & e & ->).
  assert (Hc : forall s x, ~ In 58 s -> py_float rt s = Ok x ->
               convert_duration rt (h ++ 58 :: m ++ 58 :: s)
               = Ok (float_add (Ffin neg mm e) x)).
  { intros s x Hs Ex.
    rewrite (convert_duration_value rt _ h m s hv mv x (split_three h m s Hh Hm Hs)
               Ehv Emv Ex).
    unfold int_add_float. rewrite Ew. reflexivity. }
  split; [| split; [| split]].
  - rewrite (Hc (ustr "nan") Fnan); [reflexivity | | vm_compute; reflexivity].
    simpl. intuition discriminate.
  - rewrite (Hc (ustr "inf") (Finf false)); [reflexivity | | vm_compute; reflexivity].
    simpl. intuition discriminate.
  - rewrite (Hc (ustr "-inf") (Finf true)); [reflexivity | | vm_compute; reflexivity].
    simpl. intuition discriminate.
  - repeat split; try reflexivity.
    intros other. destruct other; reflexivity.
Qed.

Lemma nonfinite_seconds_accepted_witness :
  convert_duration ascii_runtime (ustr "1" ++ 58 :: ustr "02" ++ 58 :: ustr "nan")
  = Ok Fnan /\
  convert_duration ascii_runtime (ustr "1" ++ 58 :: ustr "02" ++ 58 :: ustr "inf")
  = Ok (Finf false) /\
  convert_duration ascii_runtime (ustr "1" ++ 58 :: ustr "02" ++ 58 :: ustr "-inf")
  = Ok (Finf true) /\
  float_str Fnan = ustr "nan" /\
  float_str (Finf false) = ustr "inf" /\
  float_str (Finf true) = ustr "-inf" /\
  (forall other, get_total_duration Fnan other = Fnan) /\
  (forall other, get_total_duration other Fnan = Fnan) /\
  get_total_duration (Finf false) (Finf true) = Fnan.
Proof.
  apply (nonfinite_seconds_accepted ascii_runtime (ustr "1") (ustr "02") 1 2
           (float_of_ratio false 3720 1)).
  - simpl. intuition discriminate.
  - simpl. intuition discriminate.
  - vm_compute. reflexivity.
  - vm_compute. reflexivity.
  - vm_compute. reflexivity.
Defined.

(** ** The texts of the errors *)

Lemma py_int_raise_forms rt s e :
  py_int rt s = Raise e ->
  e = int_invalid_literal rt s \/
  exists nd, 640 < nd /\ 0 < rt_int_max_str_digits rt < nd /\
             e = int_limit_exceeded rt nd.
Proof.
  unfold py_int.
  destruct (match lstrip py_isspace (transform_decimal_and_space rt s) with
            | 43 :: r => (false, r)
            | 45 :: r => (true, r)
            | _ => (false, lstrip py_isspace (transform_decimal_and_space rt s))
            end) as [neg b].
  assert (Hscan : match scan_digits b false 0 0 with
      | Some (v, nd, rest) =>
          if nd =? 0 then Raise (int_invalid_literal rt s)
          else if (640 <? nd) && (0 <? rt_int_max_str_digits rt)
                  && (rt_int_max_str_digits rt <? nd)
          then Raise (int_limit_exceeded rt nd)
          else match lstrip py_isspace rest with
               | [] => Ok (if neg then - v else v)
               | _ :: _ => Raise (int_invalid_literal rt s)
               end
      | None => Raise (int_invalid_literal rt s)
      end = Raise e ->
      e = int_invalid_literal rt s \/
      exists nd, 640 < nd /\ 0 < rt_int_max_str_digits rt < nd /\
                 e = int_limit_exceeded rt nd).
  { destruct (scan_digits b false 0 0) as [[[v nd] rest] |].
    - destruct (nd =? 0); [intros H; injection H as <-; now left |].
      destruct ((640 <? nd) && (0 <? rt_int_max_str_digits rt)
                && (rt_int_max_str_digits rt <? nd)) eqn:El.
      + intros H; injection H as <-. right. exists nd.
        apply andb_prop in El. destruct El as [El E3].
        apply andb_prop in El. destruct El as [E1 E2].
        apply Z.ltb_lt in E1, E2, E3. repeat split; assumption.
      + destruct (lstrip py_isspace rest); [discriminate |].
        intros H; injection H as <-; now left.
    - intros H; injection H as <-; now left. }
  destruct b as [| c b']; [exact Hscan |].
  destruct (Z.eq_dec c 95) as [-> | Hne].
  - intros H; injection H as <-; now left.
  - intros H. apply Hscan.
    destruct c as [| p | p]; try exact H.
    do 7 (destruct p as [p | p |]; try exact H).
    all: try (exfalso; apply Hne; reflexivity).
Qed.

Lemma py_float_raise_form rt s e :
  py_float rt s = Raise e -> e = float_invalid rt s.
Proof.
  unfold py_float.
  destruct (lstrip py_isspace (transform_decimal_and_space rt s)) as [| c b];
    [intros H; now injection H as <- |].
  destruct (if contains 95 (rev (lstrip py_isspace (rev (c :: b))))
            then strip_underscores 0 (rev (lstrip py_isspace (rev (c :: b))))
            else Some (rev (lstrip py_isspace (rev (c :: b))))) as [b' |];
    [| intros H; now injection H as <-].
  destruct (match parse_inf_or_nan b' with
            | Some r => Some r
            | None => parse_decimal b'
            end) as [[x [| c' r]] |];
    [discriminate | |]; intros H; now injection H as <-.
Qed.

Lemma one_to_twelve_first (t : pystr) :
  one_to_twelve_text t ->
  exists c rest, t = c :: rest /\ (rest = [] \/ exists x, rest = [x]).
Proof.
  intros [(x & -> & _) | [(x & -> & _) | (x & -> & _)]]; eauto 6.
Qed.

(** The text of a result is not a text that [strptime] accepts: its first
    slash would have to be the second or the third character. *)
Lemma rfc3339_no_prefix_shape rt (t : datetime) (prefix rest : pystr) :
  1969 <= dt_year t <= 2069 ->
  rfc3339_eastern t = prefix ++ rest -> ~ strptime_shape rt prefix.
Proof.
  intros Hy Heq (mo & d & y & w1 & h & mi & se & w2 & p & -> & Hmo & _).
  unfold rfc3339_eastern, four_digits in Heq.
  destruct (one_to_twelve_first mo Hmo) as (c & r & -> & [-> | (x & ->)]).
  - apply (f_equal (fun l => nth 1 l 0)) in Heq. cbn [app nth] in Heq.
    Z.div_mod_to_equations. lia.
  - apply (f_equal (fun l => nth 2 l 0)) in Heq. cbn [app nth] in Heq.
    Z.div_mod_to_equations. lia.
Qed.

Lemma strptime_no_match rt (s : pystr) :
  (forall prefix rest, s = prefix ++ rest -> ~ strptime_shape rt prefix) ->
  strptime rt s = Raise (no_match_error rt s).
Proof.
  intros Hno. unfold strptime.
  destruct (re_match rt format_regex s) as [[found rest] |] eqn:E; [| reflexivity].
  exfalso. apply re_match_shape in E.
  destruct E as (mo & d & y & w1 & h & mi & se & w2 & p & Hs & _ & Hshape).
  apply (Hno _ _ Hs). exists mo, d, y, w1, h, mi, se, w2, p.
  split; [reflexivity | exact Hshape].
Qed.

Lemma format_timestamp_result rt (s out : pystr) :
  format_timestamp rt s = Ok out ->
  exists t, out = rfc3339_eastern t /\ 1969 <= dt_year t <= 2069.
Proof.
  intros H. rewrite format_timestamp_of_strptime in H.
  destruct (strptime rt s) as [d | e] eqn:E; [| discriminate H].
  injection H as <-. destruct (strptime_ok rt s d E) as [_ Hf].
  exists (eastern_of d). split; [now apply isoformat_eastern |].
  exact (proj1 (eastern_of_range d Hf)).
Qed.

(** ** A second pass over the output *)

(** X14: the output is no input: the first field of an accepted row's result
    is a text that [strptime] does not match, so the result, read as a data
    row, is dropped with the warning that the time data does not match the
    format. *)
Theorem output_row_rejected_on_second_pass :
  forall (rt : Runtime) (row out : list pystr) (w : io),
    normalize_fields rt row = Ok out ->
    format_timestamp rt (nth 0 out []) = Raise (no_match_error rt (nth 0 out [])) /\
    exists msg,
      no_match_error rt (nth 0 out []) = ValueError msg /\
      clean_and_normalize_row rt out w = (Ok None, print_error msg w) /\
      process_rows rt [out] w = (Ok tt, print_error msg w).
Proof.
  intros rt row out w H. apply normalize_fields_ok in H.
  destruct H as (_ & ts & zip & foo & bar & Hts & _ & _ & _ & ->).
  cbn [nth].
  destruct (format_timestamp_result rt _ _ Hts) as (t & -> & Hy).
  assert (Hf : format_timestamp rt (rfc3339_eastern t)
               = Raise (no_match_error rt (rfc3339_eastern t))).
  { rewrite format_timestamp_of_strptime, strptime_no_match; [reflexivity |].
    intros prefix rest Heq. now apply (rfc3339_no_prefix_shape rt t prefix rest). }
  split; [exact Hf |].
  exists (ustr "time data " ++ rt_repr rt (rfc3339_eastern t)
          ++ ustr " does not match format " ++ rt_repr rt timestamp_format).
  split; [reflexivity |].
  apply value_error_row_dropped.
  unfold normalize_fields, getitem. cbn [nth_error bind]. rewrite Hf. reflexivity.
Qed.

Lemma output_row_rejected_on_second_pass_witness :
  let out := [ustr "2002-10-02T13:00:00-05:00"; 34 :: ustr "123 Main St, Apt 4" ++ [34];
              ustr "00123"; ustr "JANE DOE"; ustr "3723.5"; ustr "1.0";
              ustr "3724.5"; ustr "note"] in
  format_timestamp ascii_runtime (nth 0 out [])
  = Raise (no_match_error ascii_runtime (nth 0 out [])) /\
  exists msg,
    no_match_error ascii_runtime (nth 0 out []) = ValueError msg /\
    clean_and_normalize_row ascii_runtime out empty_io
    = (Ok None, print_error msg empty_io) /\
    process_rows ascii_runtime [out] empty_io = (Ok tt, print_error msg empty_io).
Proof.
  apply (output_row_rejected_on_second_pass ascii_runtime sample_row).
  vm_compute. reflexivity.
Defined.

(** X15: the errors of [validate_zip] are those of [int]: the literal is
    invalid for base 10, with the first 200 characters of the [repr] of the
    zip, or a zip of more than 640 digits exceeds the limit of the
    interpreter for the conversion of strings to integers. *)
Theorem validate_zip_error_texts :
  forall (rt : Runtime) (zip_code : pystr) (e : exn),
    validate_zip rt zip_code = Raise e ->
    e = int_invalid_literal rt zip_code \/
    exists nd, 640 < nd /\ 0 < rt_int_max_str_digits rt < nd /\
               e = int_limit_exceeded rt nd.
Proof.
  intros rt zip_code e H. rewrite validate_zip_of_py_int in H.
  destruct (py_int rt zip_code) as [v | e'] eqn:E; [discriminate H |].
  injection H as ->. exact (py_int_raise_forms rt zip_code e E).
Qed.

Lemma validate_zip_error_texts_witness :
  int_invalid_literal ascii_runtime (ustr "9021O")
  = int_invalid_literal ascii_runtime (ustr "9021O") \/
  exists nd, 640 < nd /\ 0 < rt_int_max_str_digits ascii_runtime < nd /\
             int_invalid_literal ascii_runtime (ustr "9021O")
             = int_limit_exceeded ascii_runtime nd.
Proof.
  apply (validate_zip_error_texts ascii_runtime (ustr "9021O")).
  vm_compute. reflexivity.
Defined.

(** X16: the errors of [convert_duration]: with a number of colons other than
    two, the [ValueError] of the unpacking; with two colons, the duration is
    [h:m:s] with no colon in [h], [m] and [s], and the error is that of [int]
    on [h], or that of [int] on [m], or that of [float] on [s], or, all
    three being converted, the overflow of the conversion of the whole
    seconds to a float. *)
Theorem convert_duration_error_causes :
  forall (rt : Runtime) (duration : pystr) (e : exn),
    convert_duration rt duration = Raise e ->
    (count_char 58 duration <> 2%nat /\ exists msg, e = ValueError msg) \/
    (exists h m s,
        duration = h ++ 58 :: m ++ 58 :: s /\
        ~ In 58 h /\ ~ In 58 m /\ ~ In 58 s /\
        (e = int_invalid_literal rt h \/
         (exists nd, e = int_limit_exceeded rt nd) \/
         (is_ok (py_int rt h) = true /\ e = int_invalid_literal rt m) \/
         (is_ok (py_int rt h) = true /\ is_ok (py_int rt m) = true /\
          e = float_invalid rt s) \/
         (is_ok (py_int rt h) = true /\ is_ok (py_int rt m) = true /\
          is_ok (py_float rt s) = true /\ e = overflow_error))).
Proof.
  intros rt duration e H.
  pose proof (split_on_length 58 duration) as Hlen.
  pose proof (join_split_on 58 duration) as Hjoin.
  pose proof (split_on_pieces 58 duration) as Hall.
  unfold convert_duration in H.
  destruct (split_on 58 duration) as [| h [| m [| s [| x rest]]]] eqn:Es;
    cbn [List.length] in Hlen.
  - discriminate Hlen.
  - left. split; [lia |]. cbn [unpack3 bind] in H. injection H as <-.
    eexists. reflexivity.
  - left. split; [lia |]. cbn [unpack3 bind] in H. injection H as <-.
    eexists. reflexivity.
  - right. exists h, m, s. split; [symmetry; exact Hjoin |].
    inversion Hall as [| ? ? Ph Hall1]; subst.
    inversion Hall1 as [| ? ? Pm Hall2]; subst.
    inversion Hall2 as [| ? ? Ps _]; subst.
    repeat (split; [assumption |]). cbn [unpack3 bind] in H.
    apply bind_raise in H. destruct H as [H | (hv & Ehv & H)].
    { destruct (py_int_raise_forms _ _ _ H) as [-> | (nd & _ & _ & ->)];
        [now left | right; left; now exists nd]. }
    rewrite Ehv. cbn [is_ok].
    apply bind_raise in H. destruct H as [H | (mv & Emv & H)].
    { destruct (py_int_raise_forms _ _ _ H) as [-> | (nd & _ & _ & ->)];
        [right; right; left; now split | right; left; now exists nd]. }
    rewrite Emv. cbn [is_ok].
    apply bind_raise in H. destruct H as [H | (sv & Esv & H)].
    { right. right. right. left. repeat split.
      exact (py_float_raise_form _ _ _ H). }
    rewrite Esv. cbn [is_ok].
    unfold int_add_float in H.
    apply bind_raise in H. destruct H as [H | (f & _ & H)]; [| discriminate H].
    right. right. right. right. repeat split. exact (float_of_int_raises _ _ H).
  - left. split; [lia |]. cbn [unpack3 bind] in H. injection H as <-.
    eexists. reflexivity.
Qed.

Lemma convert_duration_error_causes_witness :
  let duration := ustr "1:xx:03.5" in
  let e := int_invalid_literal ascii_runtime (ustr "xx") in
  (count_char 58 duration <> 2%nat /\ exists msg, e = ValueError msg) \/
  (exists h m s,
      duration = h ++ 58 :: m ++ 58 :: s /\
      ~ In 58 h /\ ~ In 58 m /\ ~ In 58 s /\
      (e = int_invalid_literal ascii_runtime h \/
       (exists nd, e = int_limit_exceeded ascii_runtime nd) \/
       (is_ok (py_int ascii_runtime h) = true
        /\ e = int_invalid_literal ascii_runtime m) \/
       (is_ok (py_int ascii_runtime h) = true
        /\ is_ok (py_int ascii_runtime m) = true
        /\ e = float_invalid ascii_runtime s) \/
       (is_ok (py_int ascii_runtime h) = true
        /\ is_ok (py_int ascii_runtime m) = true
        /\ is_ok (py_float ascii_runtime s) = true /\ e = overflow_error))).
Proof.
  apply (convert_duration_error_causes ascii_runtime (ustr "1:xx:03.5")).
  vm_compute. reflexivity.
Defined.

(** ** Whole numbers as floats *)

Lemma round_pos_exact (n j : Z) :
  0 < n < 2 ^ 53 -> 0 <= j ->
  round_pos (n * 2 ^ j) (2 ^ j) = (n * 2 ^ (52 - Z.log2 n), Z.log2 n - 52).
Proof.
  intros Hn Hj.
  assert (Hk : 0 <= Z.log2 n <= 52).
  { split; [apply Z.log2_nonneg |]. apply Z.lt_succ_r.
    apply Z.log2_lt_pow2; lia. }
  destruct (Z.log2_spec n (proj1 Hn)) as [Hlo Hhi].
  assert (Hj2 : 0 < 2 ^ j) by (apply Z.pow_pos_nonneg; lia).
  unfold round_pos. cbv zeta.
  rewrite Z.log2_mul_pow2 by lia. rewrite Z.log2_pow2 by lia.
  replace (j + Z.log2 n - j) with (Z.log2 n) by lia.
  remember (Z.log2 n) as k eqn:Ek. clear Ek.
  rewrite (Z.max_l k 0), (Z.max_r (- k) 0) by lia.
  assert (Hle : 2 ^ j * 2 ^ k <= n * 2 ^ j * 2 ^ 0) by (rewrite Z.pow_0_r; nia).
  destruct (Z.leb_spec (2 ^ j * 2 ^ k) (n * 2 ^ j * 2 ^ 0)) as [_ | Hc]; [| lia].
  rewrite (Z.max_l (k - 52) (-1074)) by lia.
  rewrite (Z.max_l (- (k - 52)) 0), (Z.max_r (k - 52) 0) by lia.
  rewrite Z.pow_0_r, Z.mul_1_r.
  replace (- (k - 52)) with (52 - k) by lia.
  assert (Hp : 0 < 2 ^ (52 - k)) by (apply Z.pow_pos_nonneg; lia).
  replace (n * 2 ^ j * 2 ^ (52 - k)) with (n * 2 ^ (52 - k) * 2 ^ j) by ring.
  rewrite Z.div_mul by lia. rewrite Z.mod_mul by lia.
  destruct (Z.ltb_spec (2 ^ j) (2 * 0)) as [Hc | _]; [lia |].
  destruct (Z.eqb_spec (2 * 0) (2 ^ j)) as [Hc | _]; [lia |].
  cbn [orb andb].
  assert (Hq : n * 2 ^ (52 - k) < 2 ^ 53).
  { replace 53 with (Z.succ k + (52 - k)) by lia.
    rewrite Z.pow_add_r by lia. nia. }
  destruct (Z.eqb_spec (n * 2 ^ (52 - k)) (2 ^ 53)) as [Hc | _]; [lia |].
  reflexivity.
Qed.

Lemma whole_float_fin (n : Z) :
  0 <= n < 2 ^ 53 ->
  exists m e, whole_float n = Ffin false m e /\ m * 2 ^ (e + 1074) = n * 2 ^ 1074.
Proof.
  intros Hn. unfold whole_float. destruct (Z.eqb_spec n 0) as [-> | Hne].
  - exists 0, (-1074). split; reflexivity.
  - exists (n * 2 ^ (52 - Z.log2 n)), (Z.log2 n - 52). split; [reflexivity |].
    assert (Hk : 0 <= Z.log2 n <= 52).
    { split; [apply Z.log2_nonneg |]. apply Z.lt_succ_r.
      apply Z.log2_lt_pow2; lia. }
    rewrite <- Z.mul_assoc, <- Z.pow_add_r by lia. do 2 f_equal. lia.
Qed.

Lemma float_of_ratio_whole (n j : Z) :
  0 <= n < 2 ^ 53 -> 0 <= j ->
  float_of_ratio false (n * 2 ^ j) (2 ^ j) = whole_float n.
Proof.
  intros Hn Hj. unfold float_of_ratio, whole_float.
  assert (Hj2 : 0 < 2 ^ j) by (apply Z.pow_pos_nonneg; lia).
  destruct (Z.eqb_spec n 0) as [-> | Hne]; [reflexivity |].
  destruct (Z.eqb_spec (n * 2 ^ j) 0) as [Hc | _]; [nia |].
  rewrite round_pos_exact by lia.
  assert (Hk : Z.log2 n <= 52).
  { apply Z.lt_succ_r. apply Z.log2_lt_pow2; lia. }
  destruct (Z.ltb_spec 971 (Z.log2 n - 52)) as [Hc | _]; [lia | reflexivity].
Qed.

Lemma float_of_int_whole (n : Z) :
  0 <= n < 2 ^ 53 -> float_of_int n = Ok (whole_float n).
Proof.
  intros Hn. unfold float_of_int, whole_float.
  destruct (Z.eqb_spec n 0) as [-> | Hne]; [reflexivity |].
  rewrite Z.abs_eq by lia.
  pose proof (round_pos_exact n 0) as E. rewrite Z.pow_0_r, Z.mul_1_r in E.
  rewrite E by lia.
  assert (Hk : Z.log2 n <= 52).
  { apply Z.lt_succ_r. apply Z.log2_lt_pow2; lia. }
  destruct (Z.ltb_spec 971 (Z.log2 n - 52)) as [Hc | _]; [lia |].
  destruct (Z.ltb_spec n 0) as [Hc | _]; [lia | reflexivity].
Qed.

Lemma float_add_whole (a b : Z) :
  0 <= a -> 0 <= b -> a + b < 2 ^ 53 ->
  float_add (whole_float a) (whole_float b) = whole_float (a + b).
Proof.
  intros Ha Hb Hab.
  destruct (whole_float_fin a) as (ma & ea & -> & Ea); [lia |].
  destruct (whole_float_fin b) as (mb & eb & -> & Eb); [lia |].
  unfold float_add. rewrite Ea, Eb, <- Z.mul_add_distr_r.
  assert (Hp : 0 < 2 ^ 1074) by (apply Z.pow_pos_nonneg; lia).
  destruct (Z.eqb_spec ((a + b) * 2 ^ 1074) 0) as [E0 | Hne].
  - assert (a + b = 0) as -> by nia. reflexivity.
  - destruct (Z.ltb_spec ((a + b) * 2 ^ 1074) 0) as [Hc | _]; [nia |].
    rewrite Z.abs_eq by nia. apply float_of_ratio_whole; lia.
Qed.

(** ** [float] on ASCII digits *)

Lemma digit_not_blank (c : Z) : is_ascii_digit c = true -> py_isspace c = false.
Proof.
  intros H. apply ascii_digit_range in H. unfold py_isspace.
  destruct (Z.leb_spec 9 c), (Z.leb_spec c 13), (Z.eqb_spec c 32);
    try reflexivity; lia.
Qed.

Lemma lstrip_digit_first (c : Z) (s : pystr) :
  is_ascii_digit c = true -> lstrip py_isspace (c :: s) = c :: s.
Proof. intros H. cbn [lstrip]. now rewrite digit_not_blank. Qed.

Lemma rstrip_digits (s : pystr) :
  forallb is_ascii_digit s = true -> rev (lstrip py_isspace (rev s)) = s.
Proof.
  intros H. destruct (rev s) as [| c r] eqn:E.
  - apply (f_equal (@rev Z)) in E. rewrite rev_involutive in E. now subst.
  - rewrite lstrip_digit_first; [rewrite <- E; apply rev_involutive |].
    rewrite forallb_forall in H. apply H. apply in_rev. rewrite E. now left.
Qed.

Lemma digits_no_underscore (s : pystr) :
  forallb is_ascii_digit s = true -> contains 95 s = false.
Proof.
  intros H. apply contains_not_In. intros Hin.
  rewrite forallb_forall in H. apply H in Hin. discriminate Hin.
Qed.

Lemma take_digits_all (s : pystr) :
  forallb is_ascii_digit s = true -> take_digits s = (s, []).
Proof.
  induction s as [| c s IH]; intros H; [reflexivity |].
  cbn [forallb] in H. apply andb_prop in H. destruct H as [Hc Hs].
  cbn [take_digits]. rewrite Hc, (IH Hs). reflexivity.
Qed.

Lemma len_lstrip (p : Z -> bool) (s : pystr) : len (lstrip p s) <= len s.
Proof.
  induction s as [| c s IH]; [reflexivity |].
  cbn [lstrip]. destruct (p c); [| lia]. rewrite len_cons. lia.
Qed.

Lemma parse_digits (c : Z) (s : pystr) :
  is_ascii_digit c = true ->
  parse_inf_or_nan (c :: s) = None /\ split_sign (c :: s) = (false, c :: s).
Proof.
  intros Hc. apply ascii_digit_range in Hc.
  assert (Hd : exists d, 0 <= d <= 9 /\ c = 48 + d) by (exists (c - 48); lia).
  destruct Hd as (d & Hd & ->). clear Hc.
  enum_digit d; split; reflexivity.
Qed.

Lemma py_float_digits rt (s : pystr) :
  forallb is_ascii_digit s = true -> 1 <= len s <= 640 ->
  py_float rt s = Ok (float_of_ratio false (digits_value s) 1).
Proof.
  intros Hs Hlen. unfold py_float.
  rewrite transform_below_128 by now apply ascii_digits_below_128.
  destruct s as [| c s'] eqn:Es; [unfold len in Hlen; simpl in Hlen; lia |].
  assert (Hc : is_ascii_digit c = true)
    by (cbn [forallb] in Hs; now apply andb_prop in Hs).
  rewrite lstrip_digit_first by assumption. cbv iota beta zeta.
  rewrite rstrip_digits by assumption.
  rewrite digits_no_underscore by assumption.
  destruct (parse_digits c s' Hc) as [Hinf Hsign]. rewrite Hinf.
  unfold parse_decimal. rewrite Hsign, take_digits_all by assumption.
  cbv iota beta zeta. rewrite app_nil_r.
  pose proof (len_lstrip (Z.eqb 48) (c :: s')) as Hl.
  destruct (Z.ltb_spec 1000000000 (len (lstrip (Z.eqb 48) (c :: s'))));
    [lia |].
  cbn [orb]. change (1000000000 <? len []) with false. cbv iota.
  cbn [parse_exponent]. unfold float_of_decimal.
  change (0 - len []) with 0. cbn [Z.leb Z.compare].
  rewrite Z.pow_0_r, Z.mul_1_r. reflexivity.
Qed.

(** ** Durations of whole seconds *)

Lemma digits_value_nonneg (s : pystr) :
  forallb is_ascii_digit s = true -> 0 <= digits_value s.
Proof.
  unfold digits_value. intros H.
  assert (G : forall acc, 0 <= acc ->
                0 <= fold_left (fun a c => a * 10 + (c - 48)) s acc).
  { induction s as [| c s IH]; intros acc Hacc; [exact Hacc |].
    cbn [forallb] in H. apply andb_prop in H. destruct H as [Hc Hs].
    apply ascii_digit_range in Hc. cbn [fold_left]. apply (IH Hs). lia. }
  apply G. lia.
Qed.

Lemma digits_no_colon (s : pystr) :
  forallb is_ascii_digit s = true -> ~ In 58 s.
Proof.
  intros H Hin. rewrite forallb_forall in H. apply H in Hin. discriminate Hin.
Qed.

(** X17: a duration whose hours, minutes and seconds are written with ASCII
    digits only and whose number of seconds is below [2^53] is converted
    without rounding: the result is the finite float whose value is
    [hours * 3600 + minutes * 60 + seconds]; and its total with another
    whole number of seconds is the float of the sum, as long as the sum is
    below [2^53]. *)
Theorem whole_seconds_exact :
  forall (rt : Runtime) (h m s : pystr),
    forallb is_ascii_digit h = true -> 1 <= len h <= 640 ->
    forallb is_ascii_digit m = true -> 1 <= len m <= 640 ->
    forallb is_ascii_digit s = true -> 1 <= len s <= 640 ->
    let total := digits_value h * 3600 + digits_value m * 60 + digits_value s in
    total < 2 ^ 53 ->
    convert_duration rt (h ++ 58 :: m ++ 58 :: s) = Ok (whole_float total) /\
    (exists mant e,
        whole_float total = Ffin false mant e /\
        mant * 2 ^ (e + 1074) = total * 2 ^ 1074) /\
    (forall other : Z,
        0 <= other -> total + other < 2 ^ 53 ->
        get_total_duration (whole_float total) (whole_float other)
        = whole_float (total + other)).
Proof.
  intros rt h m s Hh Lh Hm Lm Hs Ls total Ht.
  pose proof (digits_value_nonneg h Hh) as Nh.
  pose proof (digits_value_nonneg m Hm) as Nm.
  pose proof (digits_value_nonneg s Hs) as Ns.
  split; [| split; [apply whole_float_fin; unfold total in *; lia |
                    intros other Ho Hsum; apply float_add_whole;
                    unfold total in *; lia]].
  rewrite (convert_duration_value rt _ h m s (digits_value h) (digits_value m)
             (whole_float (digits_value s))).
  - unfold int_add_float. rewrite float_of_int_whole by (unfold total in Ht; lia).
    cbn [bind]. rewrite float_add_whole by (unfold total in Ht; lia).
    reflexivity.
  - apply split_three; now apply digits_no_colon.
  - now apply py_int_digits.
  - now apply py_int_digits.
  - rewrite py_float_digits by assumption. f_equal.
    pose proof (float_of_ratio_whole (digits_value s) 0) as E.
    rewrite Z.pow_0_r, Z.mul_1_r in E. apply E; unfold total in Ht; lia.
Qed.

Lemma whole_seconds_exact_witness :
  let total := digits_value (ustr "1") * 3600 + digits_value (ustr "02") * 60
               + digits_value (ustr "03") in
  convert_duration ascii_runtime (ustr "1" ++ 58 :: ustr "02" ++ 58 :: ustr "03")
  = Ok (whole_float total) /\
  (exists mant e,
      whole_float total = Ffin false mant e /\
      mant * 2 ^ (e + 1074) = total * 2 ^ 1074) /\
  (forall other : Z,
      0 <= other -> total + other < 2 ^ 53 ->
      get_total_duration (whole_float total) (whole_float other)
      = whole_float (total + other)).
Proof.
  apply (whole_seconds_exact ascii_runtime (ustr "1") (ustr "02") (ustr "03")).
  - reflexivity.
  - vm_compute. split; discriminate.
  - reflexivity.
  - vm_compute. split; discriminate.
  - reflexivity.
  - vm_compute. split; discriminate.
  - vm_compute. reflexivity.
Defined.

(** ** The matcher finds the fields of a well-shaped timestamp *)

Lemma space_not_decimal rt (c : Z) :
  unicode_isspace c = true -> unicode_isdecimal rt c = false.
Proof.
  intros Hs. unfold unicode_isdecimal, unicode_decimal.
  destruct (c <? 128).
  - destruct (is_ascii_digit c) eqn:Ed; [| reflexivity].
    apply ascii_digit_range in Ed.
    rewrite digit_not_space in Hs by lia. discriminate Hs.
  - now rewrite Hs.
Qed.

Lemma decimal_not_space rt (c : Z) :
  unicode_isdecimal rt c = true -> unicode_isspace c = false.
Proof.
  intros Hd. destruct (unicode_isspace c) eqn:Hs; [| reflexivity].
  rewrite (space_not_decimal rt c Hs) in Hd. discriminate Hd.
Qed.

Lemma space_not_digit (c lo hi : Z) :
  unicode_isspace c = true -> 48 <= lo -> hi <= 57 ->
  (lo <=? c) && (c <=? hi) = false.
Proof.
  intros Hs Hlo Hhi.
  destruct (Z.leb_spec lo c); [| reflexivity].
  destruct (Z.leb_spec c hi); [| reflexivity].
  rewrite digit_not_space in Hs by lia. discriminate Hs.
Qed.

Lemma plus_match_greedy (A : Type) (p : Z -> bool) (w rest : pystr) (x : A) :
  w <> [] -> Forall (fun c => p c = true) w ->
  match rest with [] => True | c :: _ => p c = false end ->
  forall k : pystr -> pystr -> option A,
    k w rest = Some x -> plus_match p (w ++ rest) k = Some x.
Proof.
  intros Hne Hall Hrest. induction w as [| c w IH]; [contradiction |].
  intros k Hk. inversion Hall as [| ? ? Hc Hw]; subst.
  cbn [app plus_match]. rewrite Hc. destruct w as [| c' w'].
  - cbn [app].
    assert (Hnone : plus_match p rest (fun m r => k (c :: m) r) = None).
    { destruct rest as [| r rs]; [reflexivity |]. cbn [plus_match]. now rewrite Hrest. }
    rewrite Hnone. exact Hk.
  - rewrite (IH ltac:(discriminate) Hw (fun m r => k (c :: m) r) Hk). reflexivity.
Qed.

Lemma rmatch_spaces_greedy rt (A : Type) (w rest : pystr) (caps : captures)
  (k : pystr -> captures -> pystr -> option A) (x : A) :
  blanks w ->
  match rest with [] => True | c :: _ => unicode_isspace c = false end ->
  k w caps rest = Some x -> rmatch rt Spaces (w ++ rest) caps k = Some x.
Proof.
  intros [Hne Hall] Hrest Hk. cbn [rmatch].
  now apply plus_match_greedy.
Qed.

Ltac enum_between x :=
  match goal with
  | H : digit_between ?lo ?hi x |- _ =>
      unfold digit_between in H;
      let E := fresh in
      assert (E : x = 48 \/ x = 49 \/ x = 50 \/ x = 51 \/ x = 52 \/ x = 53
                  \/ x = 54 \/ x = 55 \/ x = 56 \/ x = 57) by lia;
      repeat (destruct E as [E | E]; [subst x |]); [.. | subst x]; try lia;
      clear H
  end.

Lemma rmatch_one_to_twelve rt (A : Type) (g : gname) (t rest : pystr) (sep : Z)
  (caps : captures) (k : pystr -> captures -> pystr -> option A) (x : A) :
  one_to_twelve_text t -> sep = 47 \/ sep = 58 ->
  k t ((g, t) :: caps) (sep :: rest) = Some x ->
  rmatch rt (Grp g re_1_to_12) (t ++ sep :: rest) caps k = Some x.
Proof.
  intros [(c & -> & Hc) | [(c & -> & Hc) | (c & -> & Hc)]] [-> | ->] Hk;
    enum_between c; run_matcher Hk.
Qed.

Lemma rmatch_day rt (A : Type) (t rest : pystr)
  (caps : captures) (k : pystr -> captures -> pystr -> option A) (x : A) :
  day_text rt t ->
  k t ((Gd, t) :: caps) (47 :: rest) = Some x ->
  rmatch rt re_d (t ++ 47 :: rest) caps k = Some x.
Proof.
  intros [(c & -> & Hc) | [(c & y & -> & Hc & Hy) | [(c & -> & Hc)
         | [(c & -> & Hc) | (c & -> & Hc)]]]] Hk.
  - enum_between c; run_matcher Hk.
  - enum_between c; simpl; rewrite Hy; simpl; rewrite Hk; reflexivity.
  - enum_between c; run_matcher Hk.
  - enum_between c; run_matcher Hk.
  - enum_between c; run_matcher Hk.
Qed.

Lemma rmatch_year rt (A : Type) (t rest : pystr)
  (caps : captures) (k : pystr -> captures -> pystr -> option A) :
  year_text rt t ->
  rmatch rt re_y (t ++ rest) caps k = k t ((Gy, t) :: caps) rest.
Proof.
  intros (a & b & -> & Ha & Hb). simpl. rewrite Ha, Hb. reflexivity.
Qed.

Lemma rmatch_minute rt (A : Type) (t rest : pystr)
  (caps : captures) (k : pystr -> captures -> pystr -> option A) (x : A) :
  minute_text rt t ->
  k t ((GM, t) :: caps) (58 :: rest) = Some x ->
  rmatch rt re_M (t ++ 58 :: rest) caps k = Some x.
Proof.
  intros [(c & y & -> & Hc & Hy) | (c & -> & Hc)] Hk.
  - enum_between c; simpl; rewrite Hy; simpl; rewrite Hk; reflexivity.
  - simpl. rewrite Hc, Hk.
    destruct ((chr_of "0" <=? c) && (c <=? chr_of "5")); reflexivity.
Qed.

Lemma rmatch_second rt (A : Type) (t rest : pystr) (b : Z)
  (caps : captures) (k : pystr -> captures -> pystr -> option A) (x : A) :
  second_text rt t -> unicode_isspace b = true ->
  k t ((GS, t) :: caps) (b :: rest) = Some x ->
  rmatch rt re_S (t ++ b :: rest) caps k = Some x.
Proof.
  intros [(c & -> & Hc) | [(c & y & -> & Hc & Hy) | (c & -> & Hc)]] Hb Hk.
  - enum_between c; simpl; rewrite Hk; reflexivity.
  - enum_between c; simpl; rewrite Hy; simpl; rewrite Hk; reflexivity.
  - simpl. rewrite Hc, Hk, (space_not_decimal rt b Hb).
    change (chr_of "0") with 48. change (chr_of "1") with 49.
    change (chr_of "5") with 53. change (chr_of "6") with 54.
    rewrite (space_not_digit b 48 49 Hb) by lia.
    destruct (ascii_lower c =? 54); destruct ((48 <=? c) && (c <=? 53));
      reflexivity.
Qed.

Lemma ampm_chars (p : pystr) :
  ampm_text p ->
  exists a m, p = [a; m] /\ ascii_lower m = 109 /\
              (ascii_lower a = 97 \/ ascii_lower a = 112).
Proof.
  unfold ampm_text, lower_str.
  intros [H | H]; destruct p as [| a [| m [| z p']]]; try discriminate H;
    simpl in H; injection H as Ha Hm; exists a, m;
    (split; [reflexivity |]); (split; [exact Hm |]); [left | right]; exact Ha.
Qed.

Lemma rmatch_ampm rt (A : Type) (p rest : pystr)
  (caps : captures) (k : pystr -> captures -> pystr -> option A) (x : A) :
  ampm_text p ->
  k p ((Gp, p) :: caps) rest = Some x ->
  rmatch rt re_p (p ++ rest) caps k = Some x.
Proof.
  intros Hp Hk. destruct (ampm_chars p Hp) as (a & m & -> & Hm & [Ha | Ha]);
    simpl; rewrite Ha, Hm; simpl; rewrite Hk; reflexivity.
Qed.

Lemma one_to_twelve_head (t rest : pystr) :
  one_to_twelve_text t ->
  match t ++ rest with [] => True | c :: _ => unicode_isspace c = false end.
Proof.
  intros [(c & -> & Hc) | [(c & -> & Hc) | (c & -> & Hc)]]; cbn [app];
    try reflexivity.
  unfold digit_between in Hc. apply digit_not_space. lia.
Qed.

Lemma ampm_head (p rest : pystr) :
  ampm_text p ->
  match p ++ rest with [] => True | c :: _ => unicode_isspace c = false end.
Proof.
  intros Hp. destruct (ampm_chars p Hp) as (a & m & -> & _ & Ha). cbn [app].
  assert (Hr : 48 <= a <= 90 \/ 97 <= a <= 122).
  { unfold ascii_lower in Ha.
    destruct ((65 <=? a) && (a <=? 90)) eqn:E.
    - apply andb_prop in E. destruct E as [E1 E2].
      apply Z.leb_le in E1, E2. lia.
    - lia. }
  destruct Hr as [Hr | Hr]; [now apply digit_not_space |].
  unfold unicode_isspace.
  repeat match goal with
         | |- context [?a <=? ?b] => destruct (Z.leb_spec a b); try lia
         | |- context [?a =? ?b] => destruct (Z.eqb_spec a b); try lia
         end; reflexivity.
Qed.

Lemma blanks_head (w rest : pystr) :
  blanks w -> exists b w', w = b :: w' /\ unicode_isspace b = true.
Proof.
  intros [Hne Hall]. destruct w as [| b w']; [contradiction |].
  inversion Hall; subst. now exists b, w'.
Qed.

(** The matcher on a string that starts with a text of the shape that
    [strptime] accepts: the first match is that text, with its fields as the
    groups. *)
Lemma re_match_shape_prefix rt (mo d y w1 h mi se w2 p rest : pystr) :
  one_to_twelve_text mo -> day_text rt d -> year_text rt y -> blanks w1 ->
  one_to_twelve_text h -> minute_text rt mi -> second_text rt se ->
  blanks w2 -> ampm_text p ->
  re_match rt format_regex
    ((mo ++ [47] ++ d ++ [47] ++ y ++ w1 ++ h ++ [58] ++ mi ++ [58] ++ se
      ++ w2 ++ p) ++ rest)
  = Some ([(Gp, p); (GS, se); (GM, mi); (GI, h); (Gy, y); (Gd, d); (Gm, mo)],
          rest).
Proof.
  intros Hmo Hd Hy Hw1 Hh Hmi Hse Hw2 Hp.
  unfold re_match, format_regex. rewrite <- !app_assoc. cbn [app].
  rewrite rmatch_cat. apply (rmatch_one_to_twelve rt _ Gm); [assumption | now left |].
  cbv beta. rewrite rmatch_cat, rmatch_slash. cbv beta.
  rewrite rmatch_cat. apply rmatch_day; [assumption |].
  cbv beta. rewrite rmatch_cat, rmatch_slash. cbv beta.
  rewrite rmatch_cat, rmatch_year by assumption. cbv beta.
  rewrite rmatch_cat. apply rmatch_spaces_greedy;
    [assumption | now apply one_to_twelve_head |].
  cbv beta. rewrite rmatch_cat.
  apply (rmatch_one_to_twelve rt _ GI); [assumption | now right |].
  cbv beta. rewrite rmatch_cat, rmatch_colon. cbv beta.
  rewrite rmatch_cat. apply rmatch_minute; [assumption |].
  cbv beta. rewrite rmatch_cat, rmatch_colon. cbv beta.
  rewrite rmatch_cat.
  destruct (blanks_head w2 p Hw2) as (b & w2' & Ew2 & Hb).
  rewrite Ew2. cbn [app]. apply rmatch_second; [assumption | assumption |].
  cbv beta. rewrite rmatch_cat.
  change (b :: w2' ++ p ++ rest) with ((b :: w2') ++ p ++ rest). rewrite <- Ew2.
  apply rmatch_spaces_greedy; [assumption | now apply ampm_head |].
  cbv beta. apply rmatch_ampm; [assumption |]. reflexivity.
Qed.

Lemma re_match_shape_complete rt (mo d y w1 h mi se w2 p : pystr) :
  one_to_twelve_text mo -> day_text rt d -> year_text rt y -> blanks w1 ->
  one_to_twelve_text h -> minute_text rt mi -> second_text rt se ->
  blanks w2 -> ampm_text p ->
  re_match rt format_regex
    (mo ++ [47] ++ d ++ [47] ++ y ++ w1 ++ h ++ [58] ++ mi ++ [58] ++ se
     ++ w2 ++ p)
  = Some ([(Gp, p); (GS, se); (GM, mi); (GI, h); (Gy, y); (Gd, d); (Gm, mo)], []).
Proof.
  intros Hmo Hd Hy Hw1 Hh Hmi Hse Hw2 Hp.
  pose proof (re_match_shape_prefix rt mo d y w1 h mi se w2 p [] Hmo Hd Hy Hw1
                Hh Hmi Hse Hw2 Hp) as E.
  now rewrite app_nil_r in E.
Qed.

Lemma re_match_none rt (s prefix rest : pystr) :
  re_match rt format_regex s = None -> s = prefix ++ rest ->
  ~ strptime_shape rt prefix.
Proof.
  intros Hn -> (mo & d & y & w1 & h & mi & se & w2 & p & -> & Hmo & Hd & Hy
                & Hw1 & Hh & Hmi & Hse & Hw2 & Hp).
  rewrite re_match_shape_prefix in Hn by assumption. discriminate Hn.
Qed.

Lemma strptime_fields rt (mo d y w1 h mi se w2 p : pystr) (vmo vd vy vh vmi vse : Z) :
  one_to_twelve_text mo -> day_text rt d -> year_text rt y -> blanks w1 ->
  one_to_twelve_text h -> minute_text rt mi -> second_text rt se ->
  blanks w2 -> ampm_text p ->
  py_int rt mo = Ok vmo -> py_int rt d = Ok vd -> py_int rt y = Ok vy ->
  py_int rt h = Ok vh -> py_int rt mi = Ok vmi -> py_int rt se = Ok vse ->
  strptime rt (mo ++ [47] ++ d ++ [47] ++ y ++ w1 ++ h ++ [58] ++ mi ++ [58]
               ++ se ++ w2 ++ p)
  = if negb ((1 <=? vd) && (vd <=? days_in_month (full_year vy) vmo)) then
      Raise (ValueError (ustr "day is out of range for month"))
    else if negb ((0 <=? vse) && (vse <=? 59)) then
      Raise (ValueError (ustr "second must be in 0..59"))
    else Ok (fields_datetime vmo vd vy vh vmi vse p).
Proof.
  intros Hmo Hd Hy Hw1 Hh Hmi Hse Hw2 Hp Emo Ed Ey Eh Emi Ese.
  unfold strptime.
  rewrite (re_match_shape_complete rt mo d y w1 h mi se w2 p) by assumption.
  unfold group_or_empty. cbn [group gname_eqb].
  rewrite Emo, Ed, Ey, Eh, Emi, Ese. cbn [bind]. rewrite full_year_code.
  destruct (negb ((1 <=? vd) && (vd <=? days_in_month (full_year vy) vmo)));
    [reflexivity |].
  destruct (negb ((0 <=? vse) && (vse <=? 59))); [reflexivity |].
  unfold fields_datetime, hour_of. do 2 f_equal.
  destruct (one_to_twelve_value rt h Hh) as (v & Ev & Rv).
  rewrite Eh in Ev. injection Ev as <-.
  destruct Hp as [Hp | Hp]; rewrite Hp; cbn [str_eqb orb];
    change (str_eqb (ustr "am") []) with false;
    change (str_eqb (ustr "am") (ustr "am")) with true;
    change (str_eqb (ustr "pm") []) with false;
    change (str_eqb (ustr "pm") (ustr "am")) with false;
    change (str_eqb (ustr "am") (ustr "pm")) with false;
    change (str_eqb (ustr "pm") (ustr "pm")) with true; cbn [orb];
    destruct (Z.eqb_spec vh 12) as [-> | Hne]; try reflexivity;
    rewrite Z.mod_small by lia; lia.
Qed.

(** X18: [format_timestamp] accepts exactly the strings that consist of a
    month from 1 to 12, a slash, a day, a slash, two digits of a year,
    blanks, an hour from 1 to 12, a colon, a minute, a colon, a second,
    blanks and AM or PM in any case (one or two digits each, the day
    possibly behind a blank), whose day exists in the month and whose second
    is at most 59; the result is then the text of the Eastern time of the
    wall-clock time that the fields denote. *)
Theorem timestamp_accepted_iff :
  forall (rt : Runtime) (timestamp out : pystr),
    format_timestamp rt timestamp = Ok out <->
    exists mo d y w1 h mi se w2 p vmo vd vy vh vmi vse,
      timestamp = mo ++ [47] ++ d ++ [47] ++ y ++ w1 ++ h ++ [58] ++ mi
                  ++ [58] ++ se ++ w2 ++ p /\
      (one_to_twelve_text mo /\ day_text rt d /\ year_text rt y /\ blanks w1 /\
       one_to_twelve_text h /\ minute_text rt mi /\ second_text rt se /\
       blanks w2 /\ ampm_text p) /\
      (py_int rt mo = Ok vmo /\ py_int rt d = Ok vd /\ py_int rt y = Ok vy /\
       py_int rt h = Ok vh /\ py_int rt mi = Ok vmi /\ py_int rt se = Ok vse) /\
      vd <= days_in_month (full_year vy) vmo /\ vse <= 59 /\
      out = rfc3339_eastern
              (eastern_of (fields_datetime vmo vd vy vh vmi vse p)).
Proof.
  intros rt s out. rewrite format_timestamp_of_strptime. split.
  - destruct (strptime rt s) as [d0 | e] eqn:E; [| discriminate].
    intros H. injection H as <-.
    destruct (strptime_ok rt s d0 E) as [Hshape Hf].
    destruct Hshape as (mo & d & y & w1 & h & mi & se & w2 & p & -> & Hmo & Hd
                        & Hy & Hw1 & Hh & Hmi & Hse & Hw2 & Hp).
    destruct (one_to_twelve_value rt mo Hmo) as (vmo & Emo & Rmo).
    destruct (day_value rt d Hd) as (vd & Ed & Rd).
    destruct (year_value rt y Hy) as (vy & Ey & Ry).
    destruct (one_to_twelve_value rt h Hh) as (vh & Eh & Rh).
    destruct (minute_value rt mi Hmi) as (vmi & Emi & Rmi).
    destruct (second_value rt se Hse) as (vse & Ese & Rse).
    rewrite (strptime_fields rt mo d y w1 h mi se w2 p vmo vd vy vh vmi vse)
      in E by assumption.
    destruct (Z.leb_spec 1 vd) as [_ | Hc]; [| lia].
    destruct (Z.leb_spec vd (days_in_month (full_year vy) vmo)) as [Hdm | Hdm];
      cbn [andb negb] in E; [| discriminate E].
    destruct (Z.leb_spec 0 vse) as [_ | Hc]; [| lia].
    destruct (Z.leb_spec vse 59) as [Hs | Hs]; cbn [andb negb] in E;
      [| discriminate E].
    injection E as <-.
    exists mo, d, y, w1, h, mi, se, w2, p, vmo, vd, vy, vh, vmi, vse.
    split; [reflexivity |].
    split; [repeat (split; [assumption |]); assumption |].
    split; [repeat (split; [assumption |]); assumption |].
    split; [assumption |]. split; [assumption |].
    now apply isoformat_eastern.
  - intros (mo & d & y & w1 & h & mi & se & w2 & p & vmo & vd & vy & vh & vmi
            & vse & -> & (Hmo & Hd & Hy & Hw1 & Hh & Hmi & Hse & Hw2 & Hp)
            & (Emo & Ed & Ey & Eh & Emi & Ese) & Hdm & Hs & ->).
    destruct (day_value rt d Hd) as (v & Ev & Rv).
    rewrite Ed in Ev. injection Ev as <-.
    destruct (second_value rt se Hse) as (v & Ev & Rv').
    rewrite Ese in Ev. injection Ev as <-.
    pose proof (strptime_fields rt mo d y w1 h mi se w2 p vmo vd vy vh vmi vse
                  Hmo Hd Hy Hw1 Hh Hmi Hse Hw2 Hp Emo Ed Ey Eh Emi Ese) as E.
    destruct (Z.leb_spec 1 vd) as [_ | Hc]; [| lia].
    destruct (Z.leb_spec vd (days_in_month (full_year vy) vmo)) as [_ | Hc];
      [| lia].
    destruct (Z.leb_spec 0 vse) as [_ | Hc]; [| lia].
    destruct (Z.leb_spec vse 59) as [_ | Hc]; [| lia].
    cbn [andb negb] in E. rewrite E. f_equal.
    apply isoformat_eastern. exact (proj2 (strptime_ok rt _ _ E)).
Qed.

Lemma timestamp_accepted_iff_witness :
  format_timestamp ascii_runtime (ustr "2/ 9/69  12:5:07  pM")
  = Ok (ustr "1969-02-09T15:05:07-05:00").
Proof.
  apply (proj2 (timestamp_accepted_iff ascii_runtime
                  (ustr "2/ 9/69  12:5:07  pM")
                  (ustr "1969-02-09T15:05:07-05:00"))).
  exists (ustr "2"), (ustr " 9"), (ustr "69"), (ustr "  "), (ustr "12"),
    (ustr "5"), (ustr "07"), (ustr "  "), (ustr "pM"), 2, 9, 69, 12, 5, 7.
  split; [reflexivity |].
  split.
  { unfold one_to_twelve_text, day_text, year_text, minute_text, second_text,
      blanks, ampm_text, digit_between.
    split; [right; right; exists 50; split; [reflexivity | lia] |].
    split; [do 4 right; exists 57; split; [reflexivity | lia] |].
    split; [exists 54, 57; repeat split |].
    split; [split; [discriminate | repeat constructor] |].
    split; [left; exists 50; split; [reflexivity | lia] |].
    split; [right; exists 53; split; reflexivity |].
    split; [right; left; exists 48, 55; repeat split; lia |].
    split; [split; [discriminate | repeat constructor] |].
    right. reflexivity. }
  split; [repeat split; vm_compute; reflexivity |].
  split; [vm_compute; discriminate |]. split; [lia |].
  vm_compute. reflexivity.
Defined.

(** X19: the errors of [format_timestamp]: the time data does not match the
    format, when no prefix of the string has the shape that [strptime]
    accepts; or unconverted data remains, when a proper prefix of the string
    has that shape; or the whole string has that shape, its fields are
    converted by [int] without an error, and the day is beyond the length of
    the month or the second is beyond 59.  The arithmetic on the time zones
    never fails. *)
Theorem format_timestamp_error_causes :
  forall (rt : Runtime) (timestamp : pystr) (e : exn),
    format_timestamp rt timestamp = Raise e ->
    (e = no_match_error rt timestamp /\
     forall prefix rest,
       timestamp = prefix ++ rest -> ~ strptime_shape rt prefix) \/
    (exists prefix rest,
        timestamp = prefix ++ rest /\ rest <> [] /\ strptime_shape rt prefix /\
        e = ValueError (ustr "unconverted data remains: " ++ rest)) \/
    (strptime_shape rt timestamp /\
     exists mo d y w1 h mi se w2 p vmo vd vy vse,
       timestamp = mo ++ [47] ++ d ++ [47] ++ y ++ w1 ++ h ++ [58] ++ mi
                   ++ [58] ++ se ++ w2 ++ p /\
       py_int rt mo = Ok vmo /\ py_int rt d = Ok vd /\ py_int rt y = Ok vy /\
       py_int rt se = Ok vse /\
       (days_in_month (full_year vy) vmo < vd \/ 59 < vse) /\
       exists msg, e = ValueError msg).
Proof.
  intros rt s e H. rewrite format_timestamp_of_strptime in H.
  destruct (strptime rt s) as [d | e'] eqn:E; [discriminate H |].
  injection H as ->. unfold strptime in E.
  destruct (re_match rt format_regex s) as [[found rest] |] eqn:Em.
  2:{ left. injection E as <-. split; [reflexivity |].
      intros prefix rest. now apply re_match_none. }
  right. apply re_match_shape in Em.
  destruct Em as (mo & dd & y & w1 & h & mi & se & w2 & p & -> & -> & Hmo & Hd
                  & Hy & Hw1 & Hh & Hmi & Hse & Hw2 & Hp).
  assert (Hshape : strptime_shape rt (mo ++ [47] ++ dd ++ [47] ++ y ++ w1 ++ h
                                      ++ [58] ++ mi ++ [58] ++ se ++ w2 ++ p)).
  { exists mo, dd, y, w1, h, mi, se, w2, p. split; [reflexivity |].
    repeat (split; [assumption |]). assumption. }
  destruct rest as [| c rest].
  - right. rewrite app_nil_r. split; [exact Hshape |].
    revert E. unfold group_or_empty. simpl group.
    destruct (one_to_twelve_value rt mo Hmo) as (vmo & Emo & Rmo).
    destruct (day_value rt dd Hd) as (vd & Ed & Rd).
    destruct (year_value rt y Hy) as (vy & Ey & Ry).
    destruct (one_to_twelve_value rt h Hh) as (vh & Eh & Rh).
    destruct (minute_value rt mi Hmi) as (vmi & Emi & Rmi).
    destruct (second_value rt se Hse) as (vse & Ese & Rse).
    rewrite Emo, Ed, Ey, Eh, Emi, Ese.
    simpl bind. rewrite full_year_code.
    intros E. exists mo, dd, y, w1, h, mi, se, w2, p, vmo, vd, vy, vse.
    split; [reflexivity |]. repeat (split; [assumption |]).
    destruct (Z.leb_spec 1 vd) as [_ | Hc]; [| lia].
    destruct (Z.leb_spec vd (days_in_month (full_year vy) vmo)) as [Hdm | Hdm];
      cbn [andb negb] in E.
    + destruct (Z.leb_spec 0 vse) as [_ | Hc]; [| lia].
      destruct (Z.leb_spec vse 59) as [Hs | Hs]; cbn [andb negb] in E;
        [discriminate E |].
      split; [right; lia |]. injection E as <-. eexists. reflexivity.
    + split; [left; lia |]. injection E as <-. eexists. reflexivity.
  - left. injection E as <-. eexists _, (c :: rest).
    split; [reflexivity |]. split; [discriminate |]. split; [exact Hshape |].
    reflexivity.
Qed.

Lemma format_timestamp_error_causes_witness :
  let timestamp := ustr "2/30/02 10:00:00 AM" in
  let e := ValueError (ustr "day is out of range for month") in
  (e = no_match_error ascii_runtime timestamp /\
   forall prefix rest,
     timestamp = prefix ++ rest -> ~ strptime_shape ascii_runtime prefix) \/
  (exists prefix rest,
      timestamp = prefix ++ rest /\ rest <> [] /\
      strptime_shape ascii_runtime prefix /\
      e = ValueError (ustr "unconverted data remains: " ++ rest)) \/
  (strptime_shape ascii_runtime timestamp /\
   exists mo d y w1 h mi se w2 p vmo vd vy vse,
     timestamp = mo ++ [47] ++ d ++ [47] ++ y ++ w1 ++ h ++ [58] ++ mi
                 ++ [58] ++ se ++ w2 ++ p /\
     py_int ascii_runtime mo = Ok vmo /\ py_int ascii_runtime d = Ok vd /\
     py_int ascii_runtime y = Ok vy /\ py_int ascii_runtime se = Ok vse /\
     (days_in_month (full_year vy) vmo < vd \/ 59 < vse) /\
     exists msg, e = ValueError msg).
Proof.
  apply (format_timestamp_error_causes ascii_runtime (ustr "2/30/02 10:00:00 AM")).
  vm_compute. reflexivity.
Defined.

(** ** Texts without a comma *)

Lemma comma_free_app (a b : pystr) :
  comma_free (a ++ b) <-> comma_free a /\ comma_free b.
Proof. apply Forall_app. Qed.

Lemma comma_free_digits (s : pystr) :
  forallb is_ascii_digit s = true -> comma_free s.
Proof.
  intros H. apply Forall_forall. intros c Hc.
  rewrite forallb_forall in H. apply H, ascii_digit_range in Hc. lia.
Qed.

Lemma comma_free_count (s : pystr) : comma_free s -> count_char 44 s = 0%nat.
Proof.
  intros H. unfold count_char. apply count_occ_not_In.
  intros Hin. unfold comma_free in H. rewrite Forall_forall in H.
  now apply (H 44 Hin).
Qed.

Lemma dec_rev_digits (fuel : nat) :
  forall n, 0 <= n -> forallb is_ascii_digit (dec_rev fuel n) = true.
Proof.
  induction fuel as [| f IH]; intros n Hn; [reflexivity |].
  cbn [dec_rev]. destruct (Z.ltb_spec n 10).
  - cbn [forallb]. rewrite andb_true_r. apply digit_char. lia.
  - cbn [forallb]. rewrite IH by (Z.div_mod_to_equations; lia).
    rewrite andb_true_r. apply digit_char. Z.div_mod_to_equations. lia.
Qed.

Lemma forallb_rev {A} (p : A -> bool) (l : list A) :
  forallb p (rev l) = forallb p l.
Proof.
  induction l as [| x l IH]; [reflexivity |].
  cbn [rev forallb]. rewrite forallb_app, IH. cbn [forallb].
  rewrite andb_true_r. apply andb_comm.
Qed.

Lemma str_of_nonneg_digits (n : Z) :
  0 <= n -> forallb is_ascii_digit (str_of_nonneg n) = true.
Proof.
  intros Hn. unfold str_of_nonneg. rewrite forallb_rev. now apply dec_rev_digits.
Qed.

Lemma fmt_0d_digits (w n : Z) :
  0 <= n -> forallb is_ascii_digit (fmt_0d w n) = true.
Proof.
  intros Hn. unfold fmt_0d. destruct (Z.ltb_spec n 0); [lia |].
  rewrite forallb_app, str_mul_char, forallb_repeat_digit.
  now apply str_of_nonneg_digits.
Qed.

Lemma strip_trailing_zeros_rev_digits (r : pystr) :
  forallb is_ascii_digit r = true ->
  forallb is_ascii_digit (strip_trailing_zeros_rev r) = true.
Proof.
  induction r as [| c r IH]; intros H; [reflexivity |].
  cbn [forallb] in H. apply andb_prop in H. destruct H as [Hc Hr].
  cbn [strip_trailing_zeros_rev].
  destruct (Z.eq_dec c 48) as [-> | Hne].
  - destruct r as [| c' r']; [reflexivity |]. now apply IH.
  - assert (E : strip_trailing_zeros_rev (c :: r) = c :: r).
    { cbn [strip_trailing_zeros_rev].
      destruct c as [| p | p]; try reflexivity.
      do 6 (destruct p as [p | p |]; try reflexivity).
      exfalso. now apply Hne. }
    cbn [strip_trailing_zeros_rev] in E. rewrite E.
    cbn [forallb]. now rewrite Hc, Hr.
Qed.

Lemma shortest_at_nonneg (m e k n c : Z) :
  0 <= m -> shortest_at m e k n = Some c -> 0 <= c.
Proof.
  intros Hm. unfold shortest_at.
  set (xn := m * 2 ^ Z.max e 0). set (xd := 2 ^ Z.max (- e) 0).
  set (num := if 0 <=? n - k then xn * 10 ^ (n - k) else xn).
  set (den := if 0 <=? n - k then xd else xd * 10 ^ (k - n)).
  assert (Hxn : 0 <= xn) by (unfold xn; apply Z.mul_nonneg_nonneg;
                             [lia | apply Z.pow_nonneg; lia]).
  assert (Hnum : 0 <= num).
  { unfold num. destruct (0 <=? n - k); [| exact Hxn].
    apply Z.mul_nonneg_nonneg; [exact Hxn | apply Z.pow_nonneg; lia]. }
  assert (Hlo : 0 <= num / den).
  { destruct (Z.eq_dec den 0) as [-> | Hd]; [now rewrite Z.div_0_r |].
    assert (0 <= den).
    { unfold den, xd. destruct (0 <=? n - k);
        [apply Z.pow_nonneg; lia |].
      apply Z.mul_nonneg_nonneg; apply Z.pow_nonneg; lia. }
    apply Z.div_pos; lia. }
  intros H.
  repeat match type of H with
         | (if ?b then _ else _) = _ => destruct b
         end; try discriminate H; injection H as <-; lia.
Qed.

Lemma shortest_from_nonneg (fuel : nat) (m e k : Z) :
  0 <= m -> forall n, 0 <= fst (shortest_from fuel m e k n).
Proof.
  intros Hm. induction fuel as [| f IH]; intros n.
  - cbn [shortest_from fst].
    assert (H1 : 0 <= m * 2 ^ Z.max e 0 * 10 ^ Z.max (n - k) 0)
      by (repeat apply Z.mul_nonneg_nonneg; try lia; apply Z.pow_nonneg; lia).
    assert (H2 : 0 <= 2 ^ Z.max (- e) 0 * 10 ^ Z.max (k - n) 0)
      by (apply Z.mul_nonneg_nonneg; apply Z.pow_nonneg; lia).
    destruct (Z.eq_dec (2 ^ Z.max (- e) 0 * 10 ^ Z.max (k - n) 0) 0) as [E | E];
      [rewrite E; now rewrite Z.div_0_r | apply Z.div_pos; lia].
  - cbn [shortest_from]. destruct (shortest_at m e k n) as [c |] eqn:E.
    + cbn [fst]. exact (shortest_at_nonneg m e k n c Hm E).
    + apply IH.
Qed.

Lemma shortest_digits_digits (m e : Z) :
  0 <= m -> forallb is_ascii_digit (fst (shortest_digits m e)) = true.
Proof.
  intros Hm. unfold shortest_digits.
  pose proof (shortest_from_nonneg 17 m e
                (decimal_point (m * 2 ^ Z.max e 0) (2 ^ Z.max (- e) 0)) Hm 1) as Hc.
  destruct (shortest_from 17 m e _ 1) as [c n]. cbn [fst] in *.
  rewrite forallb_rev. apply strip_trailing_zeros_rev_digits.
  rewrite forallb_rev. now apply str_of_nonneg_digits.
Qed.

Lemma comma_free_format_repr (neg : bool) (ds : pystr) (decpt : Z) :
  forallb is_ascii_digit ds = true -> comma_free (format_repr neg ds decpt).
Proof.
  intros Hds. pose proof (comma_free_digits ds Hds) as Hcf.
  assert (Hsign : comma_free (if neg then [45] else []))
    by (destruct neg; repeat constructor; discriminate).
  assert (Hz : forall k, comma_free (str_mul [48] k)).
  { intros k. rewrite str_mul_char. apply comma_free_digits.
    apply forallb_repeat_digit. }
  unfold format_repr.
  destruct ((decpt <=? -4) || (16 <? decpt)).
  - apply comma_free_app. split; [exact Hsign |].
    apply comma_free_app. split.
    + destruct ds as [| d [| d' tl]]; try exact Hcf.
      inversion Hcf as [| ? ? Hd Htl]; subst.
      constructor; [exact Hd |]. constructor; [discriminate | exact Htl].
    + apply comma_free_app. split; [repeat constructor; discriminate |].
      apply comma_free_app. split.
      * destruct (decpt - 1 <? 0); repeat constructor; discriminate.
      * apply comma_free_digits, fmt_0d_digits. lia.
  - destruct (decpt <=? 0).
    + apply comma_free_app. split; [exact Hsign |].
      apply comma_free_app. split; [repeat constructor; discriminate |].
      apply comma_free_app. split; [apply Hz | exact Hcf].
    + destruct (len ds <=? decpt).
      * apply comma_free_app. split; [exact Hsign |].
        apply comma_free_app. split; [exact Hcf |].
        apply comma_free_app. split; [apply Hz |].
        repeat constructor; discriminate.
      * rewrite <- (firstn_skipn (Z.to_nat decpt) ds) in Hcf.
        apply comma_free_app in Hcf. destruct Hcf as [Hf Hs].
        apply comma_free_app. split; [exact Hsign |].
        apply comma_free_app. split; [exact Hf |].
        apply comma_free_app. split; [repeat constructor; discriminate | exact Hs].
Qed.

(** A finite float of the interpreter has a significand that is not
    negative; the floats that the durations give are of this kind. *)
Lemma comma_free_float_str (x : pyfloat) :
  match x with Ffin _ m _ => 0 <= m | _ => True end ->
  comma_free (float_str x).
Proof.
  intros Hx. unfold float_str. destruct x as [| neg | neg m e].
  - repeat constructor; discriminate.
  - destruct neg; repeat constructor; discriminate.
  - destruct (m =? 0); [now apply comma_free_format_repr |].
    pose proof (shortest_digits_digits m e Hx) as Hd.
    destruct (shortest_digits m e) as [ds decpt]. cbn [fst] in Hd.
    now apply comma_free_format_repr.
Qed.

Lemma round_pos_nonneg (n d : Z) : 0 <= n -> 0 <= d -> 0 <= fst (round_pos n d).
Proof.
  intros Hn Hd. unfold round_pos. cbv zeta.
  set (e := Z.max ((if d * 2 ^ Z.max (Z.log2 n - Z.log2 d) 0
                       <=? n * 2 ^ Z.max (- (Z.log2 n - Z.log2 d)) 0
                    then Z.log2 n - Z.log2 d else Z.log2 n - Z.log2 d - 1) - 52)
                  (-1074)).
  set (num := n * 2 ^ Z.max (- e) 0). set (den := d * 2 ^ Z.max e 0).
  assert (Hnum : 0 <= num)
    by (unfold num; apply Z.mul_nonneg_nonneg; [lia | apply Z.pow_nonneg; lia]).
  assert (Hden : 0 <= den)
    by (unfold den; apply Z.mul_nonneg_nonneg; [lia | apply Z.pow_nonneg; lia]).
  assert (Hq : 0 <= num / den).
  { destruct (Z.eq_dec den 0) as [-> | Hne]; [now rewrite Z.div_0_r |].
    apply Z.div_pos; lia. }
  destruct ((den <? 2 * (num mod den))
            || ((2 * (num mod den) =? den) && Z.odd (num / den)));
    match goal with
    | |- context [if ?b then _ else _] => destruct b
    end; cbn [fst]; lia.
Qed.

Lemma float_of_ratio_significand (neg : bool) (n d : Z) :
  0 <= n -> 0 <= d ->
  match float_of_ratio neg n d with Ffin _ m _ => 0 <= m | _ => True end.
Proof.
  intros Hn Hd. unfold float_of_ratio, float_zero.
  destruct (n =? 0); [lia |].
  pose proof (round_pos_nonneg n d Hn Hd) as H.
  destruct (round_pos n d) as [m e]. cbn [fst] in H.
  destruct (971 <? e); [exact I | exact H].
Qed.

Lemma float_add_significand (x y : pyfloat) :
  match float_add x y with Ffin _ m _ => 0 <= m | _ => True end.
Proof.
  unfold float_add. destruct x as [| a | a m e], y as [| b | b m' e'];
    try exact I; try (destruct (Bool.eqb a b); exact I).
  match goal with
  | |- context [if ?c then _ else _] => destruct c
  end; [unfold float_zero; lia |].
  apply float_of_ratio_significand; [apply Z.abs_nonneg | apply Z.pow_nonneg; lia].
Qed.

Lemma convert_duration_significand rt (duration : pystr) (x : pyfloat) :
  convert_duration rt duration = Ok x ->
  match x with Ffin _ m _ => 0 <= m | _ => True end.
Proof.
  intros H. apply convert_duration_ok in H.
  destruct H as (h & m & s & hv & mv & sv & f & _ & _ & _ & _ & _ & ->).
  apply float_add_significand.
Qed.

(** ** [int] accepts no comma *)

Lemma lstrip_split (p : Z -> bool) (s : pystr) :
  exists pre, s = pre ++ lstrip p s /\ Forall (fun c => p c = true) pre.
Proof.
  induction s as [| c s IH]; [exists []; split; [reflexivity | constructor] |].
  cbn [lstrip]. destruct (p c) eqn:E.
  - destruct IH as (pre & Hs & Hpre). exists (c :: pre).
    split; [cbn [app]; now rewrite <- Hs | now constructor].
  - exists []. split; [reflexivity | constructor].
Qed.

Lemma lstrip_nil (p : Z -> bool) (s : pystr) :
  lstrip p s = [] -> Forall (fun c => p c = true) s.
Proof.
  intros H. destruct (lstrip_split p s) as (pre & Hs & Hpre).
  rewrite H, app_nil_r in Hs. now subst.
Qed.

Lemma scan_digits_split (s : pystr) :
  forall us acc nd v nd' rest,
    scan_digits s us acc nd = Some (v, nd', rest) ->
    exists pre, s = pre ++ rest /\
                Forall (fun c => is_ascii_digit c = true \/ c = 95) pre.
Proof.
  induction s as [| c s IH]; intros us acc nd v nd' rest H.
  - cbn [scan_digits] in H. destruct us; [discriminate H |].
    injection H as _ _ <-. exists []. split; [reflexivity | constructor].
  - cbn [scan_digits] in H. destruct (is_ascii_digit c) eqn:Ed.
    + destruct (IH _ _ _ _ _ _ H) as (pre & -> & Hpre).
      exists (c :: pre). split; [reflexivity |]. constructor; [now left | exact Hpre].
    + destruct (Z.eqb_spec c 95) as [-> | Hne].
      * destruct us; [discriminate H |].
        destruct (IH _ _ _ _ _ _ H) as (pre & -> & Hpre).
        exists (95 :: pre). split; [reflexivity |].
        constructor; [now right | exact Hpre].
      * destruct us; [discriminate H |]. injection H as _ _ <-.
        exists []. split; [reflexivity | constructor].
Qed.

Lemma blank_not_comma (c : Z) : py_isspace c = true -> c <> 44 /\ c <> 63.
Proof.
  unfold py_isspace. intros H.
  destruct (Z.leb_spec 9 c), (Z.leb_spec c 13), (Z.eqb_spec c 32);
    try discriminate H; lia.
Qed.

Lemma sign_split (b0 : pystr) :
  exists neg b,
    match b0 with
    | 43 :: r => (false, r)
    | 45 :: r => (true, r)
    | _ => (false, b0)
    end = (neg, b) /\
    (b0 = b \/ b0 = 43 :: b \/ b0 = 45 :: b).
Proof.
  destruct b0 as [| c r]; [exists false, []; split; [reflexivity | now left] |].
  destruct c as [| p | p];
    try (exists false; eexists; split; [reflexivity | now left]).
  do 6 (destruct p as [p | p |];
        try (exists false; eexists; split; [reflexivity | now left])).
  all: first [ exists false, r; split; [reflexivity | right; left; reflexivity]
             | exists true, r; split; [reflexivity | right; right; reflexivity] ].
Qed.

(** The characters of a text that [int] accepts, after the transformation
    of its digits and blanks: digits, underscores, blanks and signs. *)
Lemma py_int_ok_chars rt (s : pystr) (v : Z) :
  py_int rt s = Ok v ->
  Forall (fun c => c <> 44 /\ c <> 63) (transform_decimal_and_space rt s).
Proof.
  unfold py_int.
  destruct (lstrip_split py_isspace (transform_decimal_and_space rt s))
    as (pre & Ht & Hpre).
  destruct (sign_split (lstrip py_isspace (transform_decimal_and_space rt s)))
    as (neg & b & -> & Hb0).
  intros H.
  assert (Hscan : exists v' nd rest,
             scan_digits b false 0 0 = Some (v', nd, rest) /\
             lstrip py_isspace rest = []).
  { assert (Hs : match scan_digits b false 0 0 with
                 | Some (v0, nd, rest) =>
                     if nd =? 0 then Raise (int_invalid_literal rt s)
                     else if (640 <? nd) && (0 <? rt_int_max_str_digits rt)
                             && (rt_int_max_str_digits rt <? nd)
                     then Raise (int_limit_exceeded rt nd)
                     else match lstrip py_isspace rest with
                          | [] => Ok (if neg then - v0 else v0)
                          | _ :: _ => Raise (int_invalid_literal rt s)
                          end
                 | None => Raise (int_invalid_literal rt s)
                 end = Ok v ->
                 exists v' nd rest,
                   scan_digits b false 0 0 = Some (v', nd, rest) /\
                   lstrip py_isspace rest = []).
    { destruct (scan_digits b false 0 0) as [[[v0 nd] rest] |]; [| discriminate].
      destruct (nd =? 0); [discriminate |].
      destruct ((640 <? nd) && (0 <? rt_int_max_str_digits rt)
                && (rt_int_max_str_digits rt <? nd)); [discriminate |].
      destruct (lstrip py_isspace rest) eqn:El; [| discriminate].
      intros _. now exists v0, nd, rest. }
    revert H. destruct b as [| c b']; [exact Hs |].
    destruct (Z.eq_dec c 95) as [-> | Hne]; [discriminate |].
    intros H. apply Hs.
    destruct c as [| p | p]; try exact H.
    do 7 (destruct p as [p | p |]; try exact H).
    all: try (exfalso; apply Hne; reflexivity). }
  destruct Hscan as (v' & nd & rest & Hscan & Hrest).
  destruct (scan_digits_split _ _ _ _ _ _ _ Hscan) as (pre2 & -> & Hpre2).
  apply lstrip_nil in Hrest.
  assert (Hb : Forall (fun c => c <> 44 /\ c <> 63) (pre2 ++ rest)).
  { apply Forall_app. split.
    - eapply Forall_impl; [| exact Hpre2]. intros c [Hc | ->]; [| lia].
      apply ascii_digit_range in Hc. lia.
    - eapply Forall_impl; [| exact Hrest]. intros c Hc. now apply blank_not_comma. }
  rewrite Ht. apply Forall_app. split.
  - eapply Forall_impl; [| exact Hpre]. intros c Hc. now apply blank_not_comma.
  - destruct Hb0 as [-> | [-> | ->]]; [exact Hb | |];
      (constructor; [lia | exact Hb]).
Qed.

Lemma transform_chars_comma rt (s : pystr) :
  In 44 s -> In 44 (transform_chars rt s) \/ In 63 (transform_chars rt s).
Proof.
  induction s as [| c s IH]; intros H; [destruct H |].
  cbn [transform_chars]. destruct (Z.ltb_spec c 127).
  - destruct H as [-> | H]; [left; now left |].
    destruct (IH H) as [H' | H']; [left | right]; now right.
  - destruct H as [-> | H]; [lia |].
    destruct (unicode_isspace c).
    + destruct (IH H) as [H' | H']; [left | right]; now right.
    + destruct (unicode_decimal rt c).
      * destruct (IH H) as [H' | H']; [left | right]; now right.
      * right. now left.
Qed.

Lemma py_int_comma_free rt (s : pystr) (v : Z) :
  py_int rt s = Ok v -> comma_free s.
Proof.
  intros H. apply py_int_ok_chars in H. unfold comma_free.
  apply Forall_forall. intros c Hc ->.
  rewrite Forall_forall in H.
  unfold transform_decimal_and_space in H.
  destruct (forallb (fun c => c <? 128) s).
  - destruct (H 44 Hc) as [H1 _]. now apply H1.
  - destruct (transform_chars_comma rt s Hc) as [H1 | H1];
      destruct (H _ H1) as [H2 H3]; [now apply H2 | now apply H3].
Qed.

Lemma validate_zip_comma_free rt (zip_code out : pystr) :
  validate_zip rt zip_code = Ok out -> comma_free out.
Proof.
  rewrite validate_zip_of_py_int.
  destruct (py_int rt zip_code) as [v |] eqn:E; [| discriminate].
  intros H. injection H as <-. apply comma_free_app. split.
  - apply comma_free_digits, forallb_repeat_digit.
  - exact (py_int_comma_free rt zip_code v E).
Qed.

Lemma format_timestamp_comma_free rt (s out : pystr) :
  format_timestamp rt s = Ok out -> comma_free out.
Proof.
  intros H. rewrite format_timestamp_of_strptime in H.
  destruct (strptime rt s) as [d | e] eqn:E; [| discriminate H].
  injection H as <-. destruct (strptime_ok rt s d E) as [_ Hf].
  rewrite (isoformat_eastern d Hf).
  destruct (eastern_of_range d Hf) as (Hy & Hm & Hd & Hh & Emi & Ese & _).
  destruct Hf as (_ & _ & _ & _ & Hmi & Hse & _).
  rewrite <- Emi in Hmi. rewrite <- Ese in Hse.
  remember (eastern_of d) as t eqn:Et. clear Et Emi Ese E.
  unfold rfc3339_eastern, four_digits, two_digits. cbn [app].
  repeat (constructor; [first [discriminate | Z.div_mod_to_equations; lia] |]).
  constructor.
Qed.

(** ** The printed line of an accepted row *)

Lemma count_char_app (c : Z) (a b : pystr) :
  count_char c (a ++ b) = (count_char c a + count_char c b)%nat.
Proof. unfold count_char. apply count_occ_app. Qed.

Lemma count_char_zero (s : pystr) : count_char 44 s = 0%nat <-> comma_free s.
Proof.
  unfold count_char, comma_free. rewrite <- count_occ_not_In, Forall_forall.
  split.
  - intros H c Hc ->. now apply H.
  - intros H Hin. now apply (H 44 Hin).
Qed.

Lemma clean_address_commas (address : pystr) :
  count_char 44 (clean_address address) = count_char 44 address.
Proof.
  unfold clean_address. destruct (contains 44 address); [| reflexivity].
  change (dquote :: address ++ [dquote]) with ([dquote] ++ address ++ [dquote]).
  rewrite !count_char_app. unfold count_char at 1 3. cbn. lia.
Qed.

(** X20: the printed line of an accepted row ends with the notes as they
    are, behind a comma, and has exactly seven commas and those of the
    address, of the name in upper case and of the notes: the timestamp, the
    zip and the three durations of the result never contain a comma.  So
    the line has exactly eight comma-separated parts when these three fields
    are without a comma, and more otherwise: the name and the notes are
    never quoted. *)
Theorem printed_line_commas :
  forall (rt : Runtime) (row out : list pystr),
    normalize_fields rt row = Ok out ->
    (exists before, join [44%Z] out = before ++ 44%Z :: nth 7 row []) /\
    count_char 44%Z (join [44%Z] out)
    = (7 + count_char 44%Z (nth 1 row [])
       + count_char 44%Z (format_full_name rt (nth 3 row []))
       + count_char 44%Z (nth 7 row []))%nat /\
    (List.length (split_on 44%Z (join [44%Z] out)) = 8%nat <->
     comma_free (nth 1 row []) /\
     comma_free (format_full_name rt (nth 3 row [])) /\
     comma_free (nth 7 row [])).
Proof.
  intros rt row out H. apply normalize_fields_ok in H.
  destruct H as (_ & ts & zip & foo & bar & Hts & Hzip & Hfoo & Hbar & ->).
  assert (Hc : count_char 44
                 (join [44%Z]
                    [ts; clean_address (nth 1 row []); zip;
                     format_full_name rt (nth 3 row []); float_str foo;
                     float_str bar; float_str (get_total_duration foo bar);
                     nth 7 row []])
               = (7 + count_char 44%Z (nth 1 row [])
                  + count_char 44%Z (format_full_name rt (nth 3 row []))
                  + count_char 44%Z (nth 7 row []))%nat).
  { cbn [join]. rewrite !count_char_app.
    change (count_char 44%Z [44]) with 1%nat.
    rewrite clean_address_commas.
    rewrite (comma_free_count ts (format_timestamp_comma_free rt _ _ Hts)).
    rewrite (comma_free_count zip (validate_zip_comma_free rt _ _ Hzip)).
    rewrite (comma_free_count _ (comma_free_float_str foo
                                   (convert_duration_significand rt _ _ Hfoo))).
    rewrite (comma_free_count _ (comma_free_float_str bar
                                   (convert_duration_significand rt _ _ Hbar))).
    rewrite (comma_free_count _ (comma_free_float_str
                                   (get_total_duration foo bar)
                                   (float_add_significand foo bar))).
    lia. }
  split; [| split].
  - eexists. cbn [join]. rewrite !app_assoc. rewrite <- app_assoc.
    reflexivity.
  - exact Hc.
  - rewrite split_on_length, Hc, <- !count_char_zero. lia.
Qed.

Lemma printed_line_commas_witness :
  let row := [ustr "10/2/02 10:00:00 AM"; ustr "1 Main St, Apt 4"; ustr "123";
              ustr "doe, jane"; ustr "1:02:03.5"; ustr "0:00:01.0"; ustr "junk";
              ustr "call back, please"] in
  let out := [ustr "2002-10-02T13:00:00-05:00";
              34 :: ustr "1 Main St, Apt 4" ++ [34]; ustr "00123";
              ustr "DOE, JANE"; ustr "3723.5"; ustr "1.0"; ustr "3724.5";
              ustr "call back, please"] in
  (exists before, join [44%Z] out = before ++ 44%Z :: nth 7 row []) /\
  count_char 44%Z (join [44%Z] out)
  = (7 + count_char 44%Z (nth 1 row [])
     + count_char 44%Z (format_full_name ascii_runtime (nth 3 row []))
     + count_char 44%Z (nth 7 row []))%nat /\
  (List.length (split_on 44%Z (join [44%Z] out)) = 8%nat <->
   comma_free (nth 1 row []) /\
   comma_free (format_full_name ascii_runtime (nth 3 row [])) /\
   comma_free (nth 7 row [])).
Proof.
  apply (printed_line_commas ascii_runtime
           [ustr "10/2/02 10:00:00 AM"; ustr "1 Main St, Apt 4"; ustr "123";
            ustr "doe, jane"; ustr "1:02:03.5"; ustr "0:00:01.0"; ustr "junk";
            ustr "call back, please"]).
  vm_compute. reflexivity.
Defined.
